(** * invest_komfort_scraper: the extraction and aggregation engine of [main.py]

    A shallow embedding of [retrieve_flat_prices], [NeighbourhoodPrices] and
    [CityPrices], with the fragments of the Python runtime and of the
    libraries ([re], [bs4], [pandas], [requests], [datetime]) that they call.

    Conventions.
    - A Python exception is a value: every operation that can raise returns
      a [result]; stateful methods return the state reached together with the
      outcome, since a mutation made before an exception is raised stays.
    - Text is a [string] whose characters stand for the code points below 256.
    - [int(s)] follows the language reference; the interpreter's configurable
      cap on the number of digits of a numeral is not modelled. *)

From Stdlib Require Import ZArith List String Ascii Bool Lia QArith DecimalString.
From Stdlib Require Qcanon.
Import ListNotations.

Set Warnings "-register-all".

Open Scope string_scope.
Open Scope list_scope.
Open Scope nat_scope.

(* ================================================================= *)
(** ** Exceptions and results *)

Inductive exn : Type :=
| IndexError
| AttributeError
| TypeError
| ValueError
| OverflowError
| ZeroDivisionError
| UnboundLocalError
| RequestException.

Inductive result (A : Type) : Type :=
| Ok (a : A)
| Raise (e : exn).

Arguments Ok {A} a.
Arguments Raise {A} e.

Definition bind {A B : Type} (r : result A) (k : A -> result B) : result B :=
  match r with
  | Ok a => k a
  | Raise e => Raise e
  end.

Notation "x <- r ;; k" := (bind r (fun x => k))
  (at level 61, r at next level, right associativity).

Definition raises {A : Type} (r : result A) : Prop :=
  exists e, r = Raise e.

(* ================================================================= *)
(** ** Characters and text *)

Definition code (c : ascii) : nat := nat_of_ascii c.

(** [\d] on the code points below 256. *)
Definition is_digit (c : ascii) : bool :=
  (48 <=? code c) && (code c <=? 57).

(** [\s] (and the white space [int] strips) on the code points below 256:
    TAB..CR, FS..US, SPACE, NEL and NBSP. *)
Definition is_space (c : ascii) : bool :=
  ((9 <=? code c) && (code c <=? 13))
  || ((28 <=? code c) && (code c <=? 32))
  || (code c =? 133) || (code c =? 160).

Definition digit_val (c : ascii) : Z := Z.of_nat (code c - 48).

Definition chars (s : string) : list ascii := list_ascii_of_string s.
Definition text (l : list ascii) : string := string_of_list_ascii l.

Fixpoint take_while (p : ascii -> bool) (l : list ascii) : list ascii :=
  match l with
  | [] => []
  | c :: l' => if p c then c :: take_while p l' else []
  end.

Fixpoint drop_while (p : ascii -> bool) (l : list ascii) : list ascii :=
  match l with
  | [] => []
  | c :: l' => if p c then drop_while p l' else l
  end.

Fixpoint starts_with (pre l : list ascii) : bool :=
  match pre, l with
  | [], _ => true
  | _ :: _, [] => false
  | a :: pre', b :: l' => Ascii.eqb a b && starts_with pre' l'
  end.

(** [s.replace(" ", "")] *)
Definition remove_spaces (l : list ascii) : list ascii :=
  filter (fun c => negb (Ascii.eqb c " ")) l.

(** [str(n)] for an [int]. *)
Definition str_int (n : Z) : string := NilZero.string_of_int (Z.to_int n).

(* ================================================================= *)
(** ** [int(...)] *)

(** Digits with single underscores between them. *)
Fixpoint int_digits (acc : Z) (after_digit : bool) (l : list ascii) : option Z :=
  match l with
  | [] => if after_digit then Some acc else None
  | c :: l' =>
      if is_digit c then int_digits (10 * acc + digit_val c) true l'
      else if Ascii.eqb c "_" && after_digit then int_digits acc false l'
      else None
  end.

Definition strip (l : list ascii) : list ascii :=
  rev (drop_while is_space (rev (drop_while is_space l))).

(** [int(s)] for a [str]: white space around, an optional sign, digits. *)
Definition int_of_str (s : string) : result Z :=
  let body := strip (chars s) in
  let signed :=
    match body with
    | c :: l' =>
        if Ascii.eqb c "-" then option_map Z.opp (int_digits 0 false l')
        else if Ascii.eqb c "+" then int_digits 0 false l'
        else int_digits 0 false body
    | [] => None
    end in
  match signed with
  | Some n => Ok n
  | None => Raise ValueError
  end.

(** The values the price table holds: an [int] or a [str]. *)
Inductive pyval : Type :=
| PInt (n : Z)
| PStr (s : string).

Definition py_int (v : pyval) : result Z :=
  match v with
  | PInt n => Ok n
  | PStr s => int_of_str s
  end.

(* ================================================================= *)
(** ** [int / int]: the binary64 nearest to the quotient, ties to even *)

(** The double nearest to [a / b] for [a >= 0], [b > 0], as a rational;
    [None] when the quotient rounds beyond the largest double. *)
Definition round_div (a b : Z) : option Q :=
  if (a =? 0)%Z then Some (0 # 1)
  else
    let e0 := (Z.log2 a - Z.log2 b - 53)%Z in
    let quot e := if (0 <=? e)%Z then (a / (b * 2 ^ e))%Z
                  else ((a * 2 ^ (- e)) / b)%Z in
    let e1 := if (2 ^ 53 <=? quot e0)%Z then (e0 + 1)%Z else e0 in
    let e := Z.max e1 (-1074) in
    let num := if (0 <=? e)%Z then a else (a * 2 ^ (- e))%Z in
    let den := if (0 <=? e)%Z then (b * 2 ^ e)%Z else b in
    let q := (num / den)%Z in
    let r := (num mod den)%Z in
    let q' := if (den <? 2 * r)%Z then (q + 1)%Z
              else if (2 * r =? den)%Z && Z.odd q then (q + 1)%Z
              else q in
    if (0 <=? e)%Z then
      if (2 ^ 1024 <=? q' * 2 ^ e)%Z then None
      else Some (Qred ((q' * 2 ^ e)%Z # 1))
    else Some (Qred (Qmake q' (Z.to_pos (2 ^ (- e))))).

(** [a / b] on two [int]s.  The sign of a zero result is not kept. *)
Definition py_truediv (a b : Z) : result Q :=
  if (b =? 0)%Z then Raise ZeroDivisionError
  else
    match round_div (Z.abs a) (Z.abs b) with
    | None => Raise OverflowError
    | Some q => Ok (if (Z.sgn a * Z.sgn b <? 0)%Z then Qred (Qopp q) else q)
    end.

(* ================================================================= *)
(** ** [dict]: insertion-ordered, keys compared with [==] *)

Class PyEq (K : Type) : Type := { py_eqb : K -> K -> bool }.

Definition pyval_eqb (a b : pyval) : bool :=
  match a, b with
  | PInt m, PInt n => (m =? n)%Z
  | PStr s, PStr t => String.eqb s t
  | _, _ => false
  end.

#[global] Instance PyEq_pyval : PyEq pyval := {| py_eqb := pyval_eqb |}.

#[global] Instance PyEq_string : PyEq string := {| py_eqb := String.eqb |}.

Definition dict (K V : Type) : Type := list (K * V).

Fixpoint dict_get {K V : Type} `{PyEq K} (k : K) (d : dict K V) : option V :=
  match d with
  | [] => None
  | (k', v) :: d' => if py_eqb k k' then Some v else dict_get k d'
  end.

(** [d[k] = v]: an existing key keeps its place, a new one goes last. *)
Fixpoint dict_set {K V : Type} `{PyEq K} (k : K) (v : V) (d : dict K V) : dict K V :=
  match d with
  | [] => [(k, v)]
  | (k', v') :: d' =>
      if py_eqb k k' then (k', v) :: d' else (k', v') :: dict_set k v d'
  end.

Definition dict_keys {K V : Type} (d : dict K V) : list K := map fst d.

(** How many entries sit under [k]. *)
Definition dict_count {K V : Type} `{PyEq K} (k : K) (d : dict K V) : nat :=
  List.length (filter (fun kv => py_eqb k (fst kv)) d).

(** [l.remove(x)]: the first occurrence goes; [None] when there is none. *)
Fixpoint list_remove {A : Type} `{PyEq A} (x : A) (l : list A) : option (list A) :=
  match l with
  | [] => None
  | y :: l' =>
      if py_eqb x y then Some l'
      else option_map (cons y) (list_remove x l')
  end.

(* ================================================================= *)
(** ** [re.match] for the three patterns of the parser *)

(** [[\d\s]] *)
Definition in_class (c : ascii) : bool := is_digit c || is_space c.

(** [re.match("\d+", s)]: group 0, the leading run of digits. *)
Definition match_digits (s : string) : option string :=
  match take_while is_digit (chars s) with
  | [] => None
  | run => Some (text run)
  end.

(** [re.match("[\d\s]+", s)]: group 0. *)
Definition match_single (s : string) : option string :=
  match take_while in_class (chars s) with
  | [] => None
  | run => Some (text run)
  end.

(** The backtracking of the first group of ["([\d\s]+) - ([\d\s]+)"]: the
    group is tried at [k] characters, [k] going down from the longest run to
    1; the rest must start with [" - "] and then one character of the class
    at least, of which the second group takes the longest run. *)
Fixpoint range_at (k : nat) (l : list ascii) : option (string * string) :=
  match k with
  | O => None
  | S k' =>
      let rest := skipn k l in
      let second := take_while in_class (skipn 3 rest) in
      if starts_with (chars " - ") rest && negb (Nat.eqb (List.length second) 0)
      then Some (text (firstn k l), text second)
      else range_at k' l
  end.

(** [re.match("([\d\s]+) - ([\d\s]+)", s)]: groups 1 and 2. *)
Definition match_range (s : string) : option (string * string) :=
  range_at (List.length (take_while in_class (chars s))) (chars s).

(** [s.replace(" ", "")] on a [str]. *)
Definition replace_spaces (s : string) : string := text (remove_spaces (chars s)).

(* ================================================================= *)
(** ** The parsed page: the part of [bs4] the parser calls *)

(** A [NavigableString] or a [Tag] with its name, its [class] attribute
    (absent, or the list of its tokens) and its [contents]. *)
Inductive node : Type :=
| Text (s : string)
| Tag (name : string) (class_ : option (list string)) (contents : list node).

Definition contents (n : node) : list node :=
  match n with
  | Text _ => []
  | Tag _ _ kids => kids
  end.

(** The tags at and below a node, in document order. *)
Fixpoint tags (n : node) : list node :=
  match n with
  | Text _ => []
  | Tag _ _ kids => n :: flat_map tags kids
  end.

Definition descendants (kids : list node) : list node := flat_map tags kids.

Fixpoint join_tokens (l : list string) : string :=
  match l with
  | [] => ""
  | [t] => t
  | t :: l' => t ++ " " ++ join_tokens l'
  end.

(** A [class] attribute matches a string when one of its tokens is the
    string, or the whole value is; an absent attribute matches only [""]. *)
Definition class_matches (wanted : string) (n : node) : bool :=
  match n with
  | Text _ => false
  | Tag _ None _ => String.eqb wanted ""
  | Tag _ (Some tokens) _ =>
      existsb (String.eqb wanted) tokens || String.eqb (join_tokens tokens) wanted
  end.

Definition has_name (wanted : string) (n : node) : bool :=
  match n with
  | Text _ => false
  | Tag name _ _ => String.eqb name wanted
  end.

(** [soup.find_all(attrs={"class": c})] on the nodes of a document. *)
Definition find_all_class (c : string) (doc : list node) : list node :=
  filter (class_matches c) (descendants doc).

(** [tag.find_all(name, class_=c)] *)
Definition find_all (name c : string) (n : node) : list node :=
  filter (fun t => has_name name t && class_matches c t) (descendants (contents n)).

(** [tag.span]: the first [span] below the tag, [None] without one. *)
Definition span (n : node) : option node :=
  find (has_name "span") (descendants (contents n)).

(** [tag.string]: the text of a tag with one child, through single-child
    tags; [None] otherwise. *)
Fixpoint string_of (n : node) : option string :=
  match n with
  | Text s => Some s
  | Tag _ _ [kid] => string_of kid
  | Tag _ _ _ => None
  end.

(** [l[i]] *)
Definition index {A : Type} (l : list A) (i : nat) : result A :=
  match nth_error l i with
  | Some a => Ok a
  | None => Raise IndexError
  end.

(** The subject of [re.match] must be a [str]. *)
Definition as_str (n : node) : result string :=
  match n with
  | Text s => Ok s
  | Tag _ _ _ => Raise TypeError
  end.

(** [m.group(...)] on the outcome of [re.match]: [None] has no [group]. *)
Definition group {A : Type} (m : option A) : result A :=
  match m with
  | Some g => Ok g
  | None => Raise AttributeError
  end.

(* ================================================================= *)
(** ** [retrieve_flat_prices] *)

Definition price_table : Type := dict pyval (pyval * pyval).

(** The body of [for table_row in room_prices_raw]. *)
Definition parse_cell (prices : price_table) (table_row : node) : result price_table :=
  span_tag <- group (span table_row) ;;
  number_of_rooms <- match string_of span_tag with
                     | Some s => Ok s
                     | None => Raise TypeError
                     end ;;
  room <- group (match_digits number_of_rooms) ;;
  cell <- index (contents table_row) 1 ;;
  subject <- as_str cell ;;
  match match_range subject with
  | Some (g1, g2) =>
      min_price <- int_of_str (replace_spaces g1) ;;
      max_price <- int_of_str (replace_spaces g2) ;;
      Ok (dict_set (PStr room) (PInt min_price, PInt max_price) prices)
  | None =>
      g0 <- group (match_single subject) ;;
      let price_range := replace_spaces g0 in
      Ok (dict_set (PStr room) (PStr price_range, PStr price_range) prices)
  end.

Fixpoint parse_cells (prices : price_table) (rows : list node) : result price_table :=
  match rows with
  | [] => Ok prices
  | table_row :: rows' =>
      prices' <- parse_cell prices table_row ;;
      parse_cells prices' rows'
  end.

(* ================================================================= *)
(** ** What the libraries hand over: dates, responses, the console *)

(** [datetime.datetime] *)
Record datetime : Type := {
  year : Z;
  month : Z;
  day : Z;
  hour : Z;
  minute : Z;
  second : Z;
  microsecond : Z
}.

(** What [requests.get] returns. *)
Record Response : Type := {
  status_code : Z;
  content : string
}.

(** The world, what has been printed, and the calls of [get_page_content]
    made so far (kept to state which pages were asked for). *)
Record Env (World : Type) : Type := {
  world : World;
  stdout : list string;
  fetched : list (string * string)
}.

Arguments world {World} e.
Arguments stdout {World} e.
Arguments fetched {World} e.

Definition print {World : Type} (line : string) (env : Env World) : Env World :=
  {| world := world env; stdout := stdout env ++ [line]; fetched := fetched env |}.

(* ================================================================= *)
(** ** Sample pages and a sample world *)

(** A page with a pricing table of two cells, as the parser library would
    build it. *)
Definition cell (label price : string) : node :=
  Tag "td" None [Tag "span" None [Text label]; Text price].

Definition two_cell_page : list node :=
  [Tag "html" None
     [Tag "body" None
        [Tag "div" (Some ["pricing"])
           [Tag "table" None
              [Tag "tr" None
                 [cell "2 pok." "450 000 - 500 000";
                  cell "3 pok." "600 000"]]]]]].

(** A page whose only cell gives the larger price first. *)
Definition falling_page : list node :=
  [Tag "div" (Some ["pricing"]) [cell "2 pok." "500 000 - 400 000"]].

(** A stand-in for the parser library: two markups it knows, and any other
    text taken as a page of that text alone. *)
Definition sample_soup (markup : string) : list node :=
  if String.eqb markup "two cells" then two_cell_page
  else if String.eqb markup "falling" then falling_page
  else [Text markup].

Definition may_day : datetime :=
  {| year := 2024; month := 5; day := 1; hour := 12; minute := 0; second := 0;
     microsecond := 0 |}.

Definition two_digits (n : Z) : string :=
  if (n <? 10)%Z then ("0" ++ str_int n)%string else str_int n.

(** Stand-ins for [strftime('%Y-%m-%d')] and for [repr] of a [float], the
    latter for whole values only. *)
Definition sample_strftime (d : datetime) : string :=
  (str_int (year d) ++ "-" ++ two_digits (month d) ++ "-" ++ two_digits (day d))%string.

Definition sample_repr (q : Q) : string := (str_int (Qnum q) ++ ".0")%string.

(** A world that counts what is asked of it: the clock stands at one day
    and the site answers every request with the two-cell page, or with 404. *)
Definition sample_clock (w : nat) : datetime * nat := (may_day, S w).

Definition site_up (url : string) (w : nat) : result Response * nat :=
  (Ok {| status_code := 200; content := "two cells" |}, S w).

Definition site_down (url : string) (w : nat) : result Response * nat :=
  (Ok {| status_code := 404; content := "" |}, S w).

Definition quiet : Env nat := {| world := 0; stdout := []; fetched := [] |}.

Section Engine.

(** [BeautifulSoup(html_content, features="html.parser")]: the nodes of
    the document the library builds from the markup. *)
Variable BeautifulSoup : string -> list node.

Definition retrieve_flat_prices (html_content : option string)
  : result (option price_table) :=
  match html_content with
  | None => Ok None
  | Some markup =>
      let bs_page := BeautifulSoup markup in
      pricing_section <- index (find_all_class "pricing" bs_page) 0 ;;
      let room_prices_raw := find_all "td" "" pricing_section in
      prices <- parse_cells [] room_prices_raw ;;
      Ok (Some prices)
  end.

(* ================================================================= *)
(** ** [NeighbourhoodPrices] *)

(** [d.strftime('%Y-%m-%d')] on a [datetime] and [repr] of a [float], as
    the interpreter provides them. *)
Variable strftime : datetime -> string.
Variable repr_float : Q -> string.

(** What the [date] argument holds: a [datetime], as the signature says, or
    the [str] that [get_prices] passes. *)
Inductive pydate : Type :=
| DateTime (d : datetime)
| DateStr (s : string).

Record NeighbourhoodPrices : Type := {
  date : pydate;
  name : string;
  neighb_prices : price_table;
  rooms : list Z;
  min_prices : list Z;
  max_prices : list Z;
  avg_prices : list Q
}.

(** The body of [for rooms, price_range in self.neighb_prices.items()]. *)
Definition add_entry (self : NeighbourhoodPrices) (item : pyval * (pyval * pyval))
  : result NeighbourhoodPrices :=
  let '(rooms_key, price_range) := item in
  lo <- py_int (fst price_range) ;;
  hi <- py_int (snd price_range) ;;
  lo1 <- py_int (fst price_range) ;;
  lo2 <- py_int (fst price_range) ;;
  avg <- py_truediv (lo1 + lo2) 2 ;;
  n <- py_int rooms_key ;;
  Ok {| date := date self;
        name := name self;
        neighb_prices := neighb_prices self;
        rooms := rooms self ++ [n];
        min_prices := min_prices self ++ [lo];
        max_prices := max_prices self ++ [hi];
        avg_prices := avg_prices self ++ [avg] |}.

Fixpoint add_entries (self : NeighbourhoodPrices) (items : price_table)
  : result NeighbourhoodPrices :=
  match items with
  | [] => Ok self
  | item :: items' =>
      self' <- add_entry self item ;;
      add_entries self' items'
  end.

(** [NeighbourhoodPrices(date, neighb_name, neighb_prices)]; the mapping is
    [None] when the caller passes [None]. *)
Definition NeighbourhoodPrices_init (date0 : pydate) (neighb_name : string)
  (neighb_prices0 : option price_table) : result NeighbourhoodPrices :=
  match neighb_prices0 with
  | None => Raise AttributeError     (* None has no [keys] *)
  | Some table =>
      add_entries {| date := date0; name := neighb_name; neighb_prices := table;
                     rooms := []; min_prices := []; max_prices := [];
                     avg_prices := [] |} table
  end.

Definition nl : string := String (ascii_of_nat 10) "".
Definition tab : string := String (ascii_of_nat 9) "".

(** Line 82: the title, a rule of 40 dashes and the column heads. *)
Definition header (self : NeighbourhoodPrices) : result string :=
  match date self with
  | DateStr _ => Raise AttributeError    (* a [str] has no [strftime] *)
  | DateTime d =>
      Ok ("Pricing for " ++ name self ++ " at " ++ strftime d ++ ":" ++ nl
          ++ "----------------------------------------" ++ nl
          ++ "Rooms" ++ tab ++ "Min" ++ tab ++ "Max" ++ tab ++ "Avg")%string
  end.

(** Line 84: the text one index adds. *)
Definition row_text (self : NeighbourhoodPrices) (i : nat) : result string :=
  r <- index (rooms self) i ;;
  lo <- index (min_prices self) i ;;
  hi <- index (max_prices self) i ;;
  avg <- index (avg_prices self) i ;;
  Ok (nl ++ str_int r ++ tab ++ str_int lo ++ tab ++ str_int hi ++ tab
      ++ repr_float avg)%string.

(** [range(a, b)] *)
Definition range (a b : Z) : list nat :=
  map (fun k => Z.to_nat (a + Z.of_nat k)) (seq 0 (Z.to_nat (b - a))).

Fixpoint append_rows (self : NeighbourhoodPrices) (results : string) (idx : list nat)
  : result string :=
  match idx with
  | [] => Ok results
  | i :: idx' =>
      row <- row_text self i ;;
      append_rows self (results ++ row)%string idx'
  end.

(** [NeighbourhoodPrices.__str__] *)
Definition NeighbourhoodPrices_str (self : NeighbourhoodPrices) : result string :=
  results <- header self ;;
  append_rows self results (range 0 (Z.of_nat (List.length (rooms self)) - 1)).

(** The rows [__str__] would show for the indices [idx], one per index. *)
Fixpoint rows_text (self : NeighbourhoodPrices) (idx : list nat) : result (list string) :=
  match idx with
  | [] => Ok []
  | i :: idx' =>
      row <- row_text self i ;;
      rest <- rows_text self idx' ;;
      Ok (row :: rest)
  end.

(** The columns [to_dict] returns, in its order. *)
Record columns : Type := {
  Neighbourhood : list string;
  Date : list pydate;
  Rooms : list Z;
  Min_Price : list Z;
  Max_Price : list Z;
  Avg_Price : list Q
}.

Definition NeighbourhoodPrices_to_dict (self : NeighbourhoodPrices) : columns :=
  {| Neighbourhood := repeat (name self) (List.length (rooms self));
     Date := repeat (date self) (List.length (rooms self));
     Rooms := rooms self;
     Min_Price := min_prices self;
     Max_Price := max_prices self;
     Avg_Price := avg_prices self |}.

(* ================================================================= *)
(** ** The part of [pandas] the collection calls *)

Record table_row : Type := {
  row_index : nat;
  row_neighbourhood : string;
  row_date : pydate;
  row_rooms : Z;
  row_min : Z;
  row_max : Z;
  row_avg : Q
}.

(** A frame of the six columns: its rows, each with its index label. *)
Definition DataFrame : Type := list table_row.

Fixpoint zip_rows (i : nat) (ns : list string) (ds : list pydate)
  (rs los his : list Z) (avgs : list Q) : DataFrame :=
  match ns, ds, rs, los, his, avgs with
  | n :: ns', d :: ds', r :: rs', lo :: los', hi :: his', avg :: avgs' =>
      {| row_index := i; row_neighbourhood := n; row_date := d; row_rooms := r;
         row_min := lo; row_max := hi; row_avg := avg |}
      :: zip_rows (S i) ns' ds' rs' los' his' avgs'
  | _, _, _, _, _, _ => []
  end.

(** [pd.DataFrame(data=cols)]: the columns must have one length; the rows
    are labelled from 0. *)
Definition pd_DataFrame (cols : columns) : result DataFrame :=
  let n := List.length (Neighbourhood cols) in
  if (List.length (Date cols) =? n) && (List.length (Rooms cols) =? n)
     && (List.length (Min_Price cols) =? n) && (List.length (Max_Price cols) =? n)
     && (List.length (Avg_Price cols) =? n)
  then Ok (zip_rows 0 (Neighbourhood cols) (Date cols) (Rooms cols)
             (Min_Price cols) (Max_Price cols) (Avg_Price cols))
  else Raise ValueError.

(** [NeighbourhoodPrices.to_df] *)
Definition NeighbourhoodPrices_to_df (self : NeighbourhoodPrices) : result DataFrame :=
  pd_DataFrame (NeighbourhoodPrices_to_dict self).

(** [pd.concat(frames)]: nothing to concatenate is an error; the rows keep
    their labels. *)
Definition pd_concat (frames : list DataFrame) : result DataFrame :=
  match frames with
  | [] => Raise ValueError
  | _ :: _ => Ok (List.concat frames)
  end.

(* ================================================================= *)
(** ** The outside world: the clock, the site, the console *)

(** [datetime.datetime.now()] reads the clock and [requests.get(url)] asks
    the site; both depend on the state of the world and may change it.  A
    request can raise instead of answering. *)
Variable World : Type.
Variable datetime_now : World -> datetime * World.
Variable requests_get : string -> World -> result Response * World.

(** [get_page_content(location, neighb)] *)
Definition get_page_content (location neighb : string) (env : Env World)
  : result (option string) * Env World :=
  let url := ("https://www.investkomfort.pl/mieszkania-" ++ location ++ "/"
              ++ neighb ++ "/")%string in
  let (answer, w) := requests_get url (world env) in
  let env1 := {| world := w; stdout := stdout env;
                 fetched := fetched env ++ [(location, neighb)] |} in
  match answer with
  | Raise e => (Raise e, env1)
  | Ok results =>
      if (status_code results =? 200)%Z then (Ok (Some (content results)), env1)
      else (Ok None,
            print ("Could not retrieve the page contents for " ++ location
                   ++ " and " ++ neighb ++ "! HTTP Status code "
                   ++ str_int (status_code results) ++ "!")%string env1)
  end.

(* ================================================================= *)
(** ** [CityPrices] *)

Definition snapshots : Type := dict string NeighbourhoodPrices.

Record CityPrices : Type := {
  location : string;
  neighbs : list string;
  data : dict string snapshots
}.

(** [CityPrices(location, available_neighbs)] *)
Definition CityPrices_init (location0 : string) (available_neighbs : list string)
  : CityPrices :=
  {| location := location0; neighbs := available_neighbs; data := [] |}.

(** What the loop of [get_prices] works on: [self.neighbs], the locals
    [results] and [now] ([None] while [now] is unbound), and the world. *)
Record frame : Type := {
  f_neighbs : list string;
  f_results : snapshots;
  f_now : option string;
  f_env : Env World
}.

(** Truth of a [str] and of the fetched content ([None] or empty is false). *)
Definition truthy (s : string) : bool := negb (String.eqb s "").

Definition truthy_content (c : option string) : bool :=
  match c with
  | None => false
  | Some s => truthy s
  end.

(** [self.neighbs.remove(neighb)] *)
Definition remove_neighb (neighb : string) (st : frame) (env : Env World) (now : option string)
  : result unit * frame :=
  match list_remove neighb (f_neighbs st) with
  | Some l => (Ok tt, {| f_neighbs := l; f_results := f_results st;
                         f_now := now; f_env := env |})
  | None => (Raise ValueError, {| f_neighbs := f_neighbs st; f_results := f_results st;
                                  f_now := now; f_env := env |})
  end.

(** The body of [for neighb in self.neighbs]. *)
Definition visit (city : string) (neighb : string) (st : frame) : result unit * frame :=
  if truthy neighb then
    let (t, w) := datetime_now (world (f_env st)) in
    let now := strftime t in
    let env0 := {| world := w; stdout := stdout (f_env st);
                   fetched := fetched (f_env st) |} in
    let (answer, env1) := get_page_content city neighb env0 in
    let stop e := (Raise e, {| f_neighbs := f_neighbs st; f_results := f_results st;
                               f_now := Some now; f_env := env1 |}) in
    match answer with
    | Raise e => stop e
    | Ok html_content =>
        if truthy_content html_content then
          match retrieve_flat_prices html_content with
          | Raise e => stop e
          | Ok prices =>
              match NeighbourhoodPrices_init (DateStr now) neighb prices with
              | Raise e => stop e
              | Ok snapshot =>
                  (Ok tt, {| f_neighbs := f_neighbs st;
                             f_results := dict_set neighb snapshot (f_results st);
                             f_now := Some now; f_env := env1 |})
              end
          end
        else
          remove_neighb neighb st
            (print ("Removing " ++ neighb ++ " from the list - could not retrieve information from the website for this neighbourhood")%string env1)
            (Some now)
    end
  else remove_neighb neighb st (f_env st) (f_now st).

(** The [for] loop over the list it mutates: the iterator keeps an index
    [i] and stops when [i] is past the end of the list as it is then.
    [None] only when [fuel] runs out. *)
Fixpoint for_neighbs (fuel : nat) (city : string) (i : nat) (st : frame)
  : option (result unit * frame) :=
  match fuel with
  | O => None
  | S fuel' =>
      match nth_error (f_neighbs st) i with
      | None => Some (Ok tt, st)
      | Some neighb =>
          match visit city neighb st with
          | (Ok _, st') => for_neighbs fuel' city (S i) st'
          | (Raise e, st') => Some (Raise e, st')
          end
      end
  end.

(** The loop of [get_prices] from its start; the fuel is one more than the
    length of the list, which no run exceeds. *)
Definition collect (self : CityPrices) (env : Env World) : option (result unit * frame) :=
  for_neighbs (S (List.length (neighbs self))) (location self) 0
    {| f_neighbs := neighbs self; f_results := []; f_now := None; f_env := env |}.

(** [CityPrices.get_prices]: the loop, then [self.data[now] = results]. *)
Definition get_prices (self : CityPrices) (env : Env World)
  : option (result unit * CityPrices * Env World) :=
  match collect self env with
  | None => None
  | Some (outcome, st) =>
      let self1 := {| location := location self; neighbs := f_neighbs st;
                      data := data self |} in
      match outcome with
      | Raise e => Some (Raise e, self1, f_env st)
      | Ok _ =>
          match f_now st with
          | None => Some (Raise UnboundLocalError, self1, f_env st)
          | Some now =>
              Some (Ok tt,
                    {| location := location self; neighbs := f_neighbs st;
                       data := dict_set now (f_results st) (data self) |},
                    f_env st)
          end
      end
  end.

(** [CityPrices.update_prices] *)
Definition update_prices (self : CityPrices) (date0 : string) (neighb_list : snapshots)
  : CityPrices :=
  {| location := location self; neighbs := neighbs self;
     data := dict_set date0 neighb_list (data self) |}.

(** The list comprehension of line 146. *)
Fixpoint frames_of (neighbs_dict : snapshots) : result (list DataFrame) :=
  match neighbs_dict with
  | [] => Ok []
  | (_, neighb) :: rest =>
      df <- pd_DataFrame (NeighbourhoodPrices_to_dict neighb) ;;
      dfs <- frames_of rest ;;
      Ok (df :: dfs)
  end.

(** The loop of line 145: each date rebinds [results]. *)
Fixpoint last_frames (results : option (list DataFrame)) (items : dict string snapshots)
  : result (option (list DataFrame)) :=
  match items with
  | [] => Ok results
  | (_, neighbs_dict) :: items' =>
      dfs <- frames_of neighbs_dict ;;
      last_frames (Some dfs) items'
  end.

(** [CityPrices.to_df]: [None] is the [None] a function returns when it
    falls off its end. *)
Definition CityPrices_to_df (self : CityPrices) : result (option DataFrame) :=
  match data self with
  | [] => Ok None
  | _ :: _ =>
      results <- last_frames None (data self) ;;
      match results with
      | None => Raise UnboundLocalError
      | Some dfs => df <- pd_concat dfs ;; Ok (Some df)
      end
  end.

(** The number of entries of a snapshot. *)
Definition entries (s : NeighbourhoodPrices) : nat := List.length (rooms s).

(** A cell that carries a label in its [span] and a price text as its
    second child. *)
Definition shows (c : node) (label price : string) : Prop :=
  exists sp, span c = Some sp /\ string_of sp = Some label
             /\ nth_error (contents c) 1 = Some (Text price).

(** The decimal numeral a text spells once its spaces are taken out. *)
Definition number (s : string) : Z :=
  fold_left (fun acc c => (10 * acc + digit_val c)%Z) (remove_spaces (chars s)) 0%Z.

(** Digits and spaces only, one digit at least. *)
Definition spaced_digits (s : string) : Prop :=
  Forall (fun c => is_digit c = true \/ c = " "%char) (chars s)
  /\ Exists (fun c => is_digit c = true) (chars s).

(** The room key [parse_cell] files a cell under, when its label has one. *)
Definition room_of (c : node) : option string :=
  match span c with
  | Some sp => match string_of sp with
               | Some label => match_digits label
               | None => None
               end
  | None => None
  end.

(** Built by the constructor. *)
Definition constructed (s : NeighbourhoodPrices) : Prop :=
  exists d n t, NeighbourhoodPrices_init d n (Some t) = Ok s.

(** The date [now] holds and the snapshots [results] holds when the loop of
    [get_prices] ends. *)
Definition run_date (self : CityPrices) (env : Env World) : option string :=
  match collect self env with
  | Some (_, st) => f_now st
  | None => None
  end.

Definition run_results (self : CityPrices) (env : Env World) : snapshots :=
  match collect self env with
  | Some (_, st) => f_results st
  | None => []
  end.

(** The mapping the parser returns for the two-cell page. *)
Definition two_cell_prices : price_table :=
  [(PStr "2", (PInt 450000, PInt 500000));
   (PStr "3", (PStr "600000", PStr "600000"))].

(** One snapshot of one entry, on two days, and a city that holds both. *)
Definition silva_on (day0 : string) : NeighbourhoodPrices :=
  {| date := DateStr day0; name := "silva";
     neighb_prices := [(PStr "2", (PInt 450000, PInt 500000))];
     rooms := [2%Z]; min_prices := [450000%Z]; max_prices := [500000%Z];
     avg_prices := [450000 # 1] |}.

Definition two_day_city : CityPrices :=
  {| location := "gdynia"; neighbs := ["silva"];
     data := [("2024-05-01", [("silva", silva_on "2024-05-01")]);
              ("2024-05-02", [("silva", silva_on "2024-05-02")])] |}.


(** The four sequences of a snapshot have one length. *)
Definition aligned (s : NeighbourhoodPrices) : Prop :=
  List.length (min_prices s) = List.length (rooms s)
  /\ List.length (max_prices s) = List.length (rooms s)
  /\ List.length (avg_prices s) = List.length (rooms s).


(** The rows a snapshot gives to a frame. *)
Definition rows_of (s : NeighbourhoodPrices) : DataFrame :=
  let cols := NeighbourhoodPrices_to_dict s in
  zip_rows 0 (Neighbourhood cols) (Date cols) (Rooms cols) (Min_Price cols)
    (Max_Price cols) (Avg_Price cols).

(** The entries a neighbourhood mapping holds in all. *)
Definition total_entries (neighbs_dict : snapshots) : nat :=
  list_sum (map (fun kv => entries (snd kv)) neighbs_dict).


(** A text at whose start there is nothing of the class [[\d\s]]. *)
Definition starts_outside_class (s : string) : Prop :=
  match chars s with
  | [] => True
  | c :: _ => in_class c = false
  end.

(** A text of digits, one at least. *)
Definition digits_only (s : string) : Prop :=
  chars s <> [] /\ Forall (fun c => is_digit c = true) (chars s).


(* ================================================================= *)
(** ** The run driver: [save_data] and [main] *)

(** The elements at the even and at the odd positions of a list, counting
    from 0. *)
Fixpoint evens {A : Type} (l : list A) : list A :=
  match l with
  | [] => []
  | [a] => [a]
  | a :: _ :: l' => a :: evens l'
  end.

Fixpoint odds {A : Type} (l : list A) : list A :=
  match l with
  | [] => []
  | [_] => []
  | _ :: b :: l' => b :: odds l'
  end.

(** [pd.concat(objs)] on objects that may be [None]: the [None]s are
    dropped, and nothing left to concatenate is an error. *)
Definition pd_concat_objs (objs : list (option DataFrame)) : result DataFrame :=
  let frames := flat_map (fun o => match o with Some df => [df] | None => [] end) objs in
  match frames with
  | [] => Raise ValueError
  | _ :: _ => Ok (List.concat frames)
  end.

(** [df.reset_index()] on a frame without a column named [index]: the rows
    are labelled anew from 0, and each keeps its old label in a new column
    [index]; here it is the label of the row paired with the new one. *)
Definition reset_index (df : DataFrame) : list (nat * table_row) :=
  combine (seq 0 (List.length df)) df.

(** [df.drop(columns="index")] on such a frame: the column of old labels
    goes, the new labels stay. *)
Definition drop_index_column (df : list (nat * table_row)) : DataFrame :=
  map (fun p => {| row_index := fst p;
                   row_neighbourhood := row_neighbourhood (snd p);
                   row_date := row_date (snd p);
                   row_rooms := row_rooms (snd p);
                   row_min := row_min (snd p);
                   row_max := row_max (snd p);
                   row_avg := row_avg (snd p) |}) df.

(** The expression of line 174 on the three tables. *)
Definition aggregate (tables : list (option DataFrame)) : result DataFrame :=
  df <- pd_concat_objs tables ;;
  Ok (drop_index_column (reset_index df)).

(** [str] of a frame, as [print] shows it. *)
Variable repr_frame : DataFrame -> string.

(** The files of the working directory, by name; a frame written with
    [to_pickle] is kept as it is.  The write is taken to succeed. *)
Definition disk : Type := dict string DataFrame.

(** [save_data(x)] *)
Definition save_data (x : DataFrame) (files : disk) : disk :=
  dict_set "price_data.pkl" x files.

(** [main()]; an exception of a step ends it there, with the world and
    the files as that step left them. *)
Definition main (env : Env World) (files : disk)
  : option (result unit * Env World * disk) :=
  let available_neighbourhoods_gdynia :=
    ["portova"; "silva"; "nowe-orlowo"; "nowe-kolibki"] in
  match get_prices (CityPrices_init "gdynia" available_neighbourhoods_gdynia) env with
  | None => None
  | Some (Raise e, _, env1) => Some (Raise e, env1, files)
  | Some (Ok _, gdynia, env1) =>
      match get_prices (CityPrices_init "sopot" ["okrzei"]) env1 with
      | None => None
      | Some (Raise e, _, env2) => Some (Raise e, env2, files)
      | Some (Ok _, sopot, env2) =>
          match get_prices
                  (CityPrices_init "gdansk" ["botanica"; "nadmorski-dwor"; "gdanska"])
                  env2 with
          | None => None
          | Some (Raise e, _, env3) => Some (Raise e, env3, files)
          | Some (Ok _, gdansk, env3) =>
              let outcome :=
                t1 <- CityPrices_to_df gdynia ;;
                t2 <- CityPrices_to_df sopot ;;
                t3 <- CityPrices_to_df gdansk ;;
                aggregate [t1; t2; t3] in
              match outcome with
              | Raise e => Some (Raise e, env3, files)
              | Ok new_data =>
                  let env4 := print "Collected the data!" env3 in
                  let env5 := print (repr_frame new_data) env4 in
                  Some (Ok tt, env5, save_data new_data files)
              end
          end
      end
  end.

(** Two kinds of site: one that answers every request with a status other
    than 200, and one that answers every request with status 200 and a
    non-empty page that parses and of which a snapshot can be built. *)
Definition site_refuses : Prop :=
  forall url w, exists r w',
    requests_get url w = (Ok r, w') /\ status_code r <> 200%Z.

Definition site_serves : Prop :=
  forall url w, exists r w' t,
    requests_get url w = (Ok r, w')
    /\ status_code r = 200%Z /\ content r <> ""
    /\ retrieve_flat_prices (Some (content r)) = Ok (Some t)
    /\ forall d n, exists s, NeighbourhoodPrices_init d n (Some t) = Ok s.

(** A stand-in for [str] of a frame. *)
Definition sample_repr_frame (df : DataFrame) : string :=
  (str_int (Z.of_nat (List.length df)) ++ " rows")%string.


(** A row without its label: the six columns. *)
Definition row_data (r : table_row) : string * pydate * Z * Z * Z * Q :=
  (row_neighbourhood r, row_date r, row_rooms r, row_min r, row_max r, row_avg r).

(** The frames among objects that may be [None]. *)
Definition frames_among (objs : list (option DataFrame)) : list DataFrame :=
  flat_map (fun o => match o with Some df => [df] | None => [] end) objs.


(** Two more pages: one whose second cell does not give a price, and one
    whose two cells carry the same room count; and a stand-in for the
    parser library that knows them too. *)
Definition malformed_page : list node :=
  [Tag "div" (Some ["pricing"])
     [cell "2 pok." "450 000 - 500 000"; cell "3 pok." "od 600 000"]].

Definition repeated_page : list node :=
  [Tag "div" (Some ["pricing"]) [cell "2 pok." "100 - 200"; cell "2 pokoje" "300"]].

Definition wider_soup (markup : string) : list node :=
  if String.eqb markup "malformed" then malformed_page
  else if String.eqb markup "repeated" then repeated_page
  else sample_soup markup.


(** A site that answers every request with a page without a pricing
    table. *)
Definition site_closed (url : string) (w : nat) : result Response * nat :=
  (Ok {| status_code := 200; content := "closed" |}, S w).


(* ================================================================= *)
(** * Properties *)

(** ** The parser *)

Lemma bind_ok {A B : Type} (r : result A) (k : A -> result B) (b : B) :
  bind r k = Ok b -> exists a, r = Ok a /\ k a = Ok b.
Proof.
  destruct r as [a|e]; simpl; intros E; [eauto | discriminate].
Qed.

(** C9: non-null markup in which nothing carries the [pricing] class makes
    [retrieve_flat_prices] raise ([IndexError], from the subscript [[0]] of
    an empty list); nothing in the function catches it. *)
Theorem retrieve_flat_prices_missing_section (markup : string) :
  find_all_class "pricing" (BeautifulSoup markup) = [] ->
  retrieve_flat_prices (Some markup) = Raise IndexError
  /\ raises (retrieve_flat_prices (Some markup)).
Proof.
  intros E. unfold retrieve_flat_prices, raises. rewrite E. simpl.
  split; [reflexivity | exists IndexError; reflexivity].
Qed.

(** *** Text *)

Lemma chars_app (s t : string) : chars (s ++ t) = chars s ++ chars t.
Proof.
  induction s as [|c s IH]; simpl; [reflexivity | now rewrite <- IH].
Qed.

Lemma chars_text (l : list ascii) : chars (text l) = l.
Proof. apply list_ascii_of_string_of_list_ascii. Qed.

Lemma text_chars (s : string) : text (chars s) = s.
Proof. apply string_of_list_ascii_of_string. Qed.

Lemma take_while_all (p : ascii -> bool) (l : list ascii) :
  Forall (fun c => p c = true) l -> take_while p l = l.
Proof.
  induction 1 as [|c l Hc _ IH]; simpl; [reflexivity|].
  now rewrite Hc, IH.
Qed.

Lemma take_while_stop (p : ascii -> bool) (l : list ascii) (c : ascii) (rest : list ascii) :
  Forall (fun c => p c = true) l -> p c = false ->
  take_while p (l ++ c :: rest) = l.
Proof.
  induction 1 as [|a l Ha _ IH]; simpl; intros Hc.
  - now rewrite Hc.
  - now rewrite Ha, IH.
Qed.

Lemma spaced_in_class (l : list ascii) :
  Forall (fun c => is_digit c = true \/ c = " "%char) l ->
  Forall (fun c => in_class c = true) l.
Proof.
  apply Forall_impl. intros c [H| ->]; unfold in_class.
  - now rewrite H.
  - reflexivity.
Qed.

Lemma skipn_length_app {A : Type} (l r : list A) : skipn (List.length l) (l ++ r) = r.
Proof. induction l; simpl; auto. Qed.

Lemma firstn_length_app {A : Type} (l r : list A) : firstn (List.length l) (l ++ r) = l.
Proof. induction l; simpl; [reflexivity | now f_equal]. Qed.

(** *** The range pattern: the first group gives back one character *)

Lemma range_at_miss (k : nat) (l : list ascii) :
  starts_with (chars " - ") (skipn (S k) l) = false ->
  range_at (S k) l = range_at k l.
Proof. intros E. cbn [range_at]. now rewrite E. Qed.

Lemma range_at_hit (k : nat) (l g2 : list ascii) :
  starts_with (chars " - ") (skipn (S k) l) = true ->
  take_while in_class (skipn 3 (skipn (S k) l)) = g2 ->
  g2 <> [] ->
  range_at (S k) l = Some (text (firstn (S k) l), text g2).
Proof.
  intros E1 E2 Hne. cbn [range_at]. rewrite E1, E2.
  destruct g2; [congruence | reflexivity].
Qed.

Lemma match_range_split (A B : string) :
  spaced_digits A -> spaced_digits B ->
  match_range (A ++ " - " ++ B) = Some (A, B).
Proof.
  intros [HA EA] [HB EB]. unfold match_range.
  rewrite !chars_app.
  change (chars " - ") with ([" "%char] ++ "-"%char :: [" "%char]).
  assert (TA : text (chars A) = A) by apply text_chars.
  assert (TB : text (chars B) = B) by apply text_chars.
  revert TA TB HA EA HB EB.
  generalize (chars A) as a. generalize (chars B) as b.
  intros b a TA TB HA EA HB EB.
  set (l := a ++ ([" "%char] ++ "-"%char :: [" "%char]) ++ b).
  assert (Hl1 : l = (a ++ [" "%char]) ++ "-"%char :: " "%char :: b).
  { unfold l. now rewrite <- !app_assoc. }
  assert (Hl2 : l = a ++ " "%char :: "-"%char :: " "%char :: b).
  { unfold l. now rewrite <- !app_assoc. }
  assert (Hrun : take_while in_class l = a ++ [" "%char]).
  { rewrite Hl1. apply take_while_stop; [|reflexivity].
    apply Forall_app. split; [now apply spaced_in_class|].
    repeat constructor. }
  assert (Hb : take_while in_class b = b).
  { apply take_while_all. now apply spaced_in_class. }
  assert (Hbne : b <> []).
  { intros E. rewrite E in EB. inversion EB. }
  assert (Hlen : exists n, List.length a = S n).
  { destruct a; [inversion EA | eexists; reflexivity]. }
  destruct Hlen as [n Hlen].
  rewrite Hrun, length_app, Nat.add_1_r.
  (* one character too many: what follows starts with the dash *)
  rewrite range_at_miss.
  2:{ replace (S (List.length a)) with (List.length (a ++ [" "%char]))
        by (rewrite length_app, Nat.add_1_r; reflexivity).
      rewrite Hl1 at 1. now rewrite skipn_length_app. }
  rewrite Hlen.
  rewrite (range_at_hit n l b).
  - rewrite <- Hlen. rewrite Hl2 at 1. rewrite firstn_length_app.
    now rewrite TA, TB.
  - rewrite <- Hlen. rewrite Hl2 at 1. now rewrite skipn_length_app.
  - rewrite <- Hlen. rewrite Hl2 at 1. now rewrite skipn_length_app.
  - assumption.
Qed.

(** *** [int] on a numeral *)

Lemma digit_not_space (c : ascii) : is_digit c = true -> is_space c = false.
Proof.
  destruct c as [[|] [|] [|] [|] [|] [|] [|] [|]]; try reflexivity; discriminate.
Qed.

Lemma digit_not_sign (c : ascii) :
  is_digit c = true -> Ascii.eqb c "-" = false /\ Ascii.eqb c "+" = false.
Proof.
  destruct c as [[|] [|] [|] [|] [|] [|] [|] [|]]; try (split; reflexivity); discriminate.
Qed.

Lemma drop_while_digits (l : list ascii) :
  Forall (fun c => is_digit c = true) l -> drop_while is_space l = l.
Proof.
  destruct 1 as [|c l Hc _]; simpl; [reflexivity|].
  now rewrite (digit_not_space c Hc).
Qed.

Lemma strip_digits (l : list ascii) :
  Forall (fun c => is_digit c = true) l -> strip l = l.
Proof.
  intros H. unfold strip. rewrite (drop_while_digits l H).
  rewrite drop_while_digits by now apply Forall_rev.
  apply rev_involutive.
Qed.

Lemma int_digits_all (l : list ascii) : forall (acc : Z) (after_digit : bool),
  Forall (fun c => is_digit c = true) l ->
  l <> [] \/ after_digit = true ->
  int_digits acc after_digit l
  = Some (fold_left (fun a c => (10 * a + digit_val c)%Z) l acc).
Proof.
  induction l as [|c l IH]; intros acc after H Hne.
  - destruct Hne as [Hne | ->]; [congruence | reflexivity].
  - inversion H as [|? ? Hc Hl]; subst. cbn [int_digits fold_left].
    rewrite Hc. apply IH; auto.
Qed.

Lemma remove_spaces_digits (l : list ascii) :
  Forall (fun c => is_digit c = true \/ c = " "%char) l ->
  Forall (fun c => is_digit c = true) (remove_spaces l).
Proof.
  induction 1 as [|c l Hc _ IH]; simpl; [constructor|].
  destruct (Ascii.eqb_spec c " "); simpl; [assumption|].
  constructor; [|assumption]. destruct Hc; [assumption | contradiction].
Qed.

Lemma remove_spaces_nonempty (l : list ascii) :
  Exists (fun c => is_digit c = true) l -> remove_spaces l <> [].
Proof.
  induction 1 as [c l Hc | c l _ IH]; simpl.
  - destruct (Ascii.eqb_spec c " ") as [->|]; simpl; [discriminate Hc | discriminate].
  - destruct (Ascii.eqb c " "); simpl; [assumption | discriminate].
Qed.

Lemma int_of_spaced_digits (s : string) :
  spaced_digits s -> int_of_str (replace_spaces s) = Ok (number s).
Proof.
  intros [Hall Hex]. unfold int_of_str, replace_spaces, number.
  rewrite chars_text.
  pose proof (remove_spaces_digits _ Hall) as Hd.
  pose proof (remove_spaces_nonempty _ Hex) as Hne.
  rewrite (strip_digits _ Hd).
  destruct (remove_spaces (chars s)) as [|c l] eqn:E; [congruence|].
  inversion Hd as [|? ? Hc Hl]; subst.
  destruct (digit_not_sign c Hc) as [-> ->].
  rewrite int_digits_all; [reflexivity | assumption | left; discriminate].
Qed.

(** *** [dict] *)

Lemma pyval_eqb_eq (a b : pyval) : pyval_eqb a b = true <-> a = b.
Proof.
  destruct a as [m|s], b as [n|t]; simpl; split; intros E;
    try discriminate; try congruence.
  - apply Z.eqb_eq in E. congruence.
  - apply Z.eqb_eq. congruence.
  - apply String.eqb_eq in E. congruence.
  - apply String.eqb_eq. congruence.
Qed.

Lemma py_eqb_pyval (a b : pyval) : py_eqb a b = true <-> a = b.
Proof. apply pyval_eqb_eq. Qed.

Lemma py_eqb_string (a b : string) : py_eqb a b = true <-> a = b.
Proof. apply String.eqb_eq. Qed.

Section Dict.

Context {K V : Type} `{PyEq K}.
Hypothesis eqb_eq : forall a b : K, py_eqb a b = true <-> a = b.

Lemma eqb_refl (k : K) : py_eqb k k = true.
Proof. now apply eqb_eq. Qed.

Lemma eqb_neq (a b : K) : a <> b -> py_eqb a b = false.
Proof.
  intros N. destruct (py_eqb a b) eqn:E; [|reflexivity].
  apply eqb_eq in E. contradiction.
Qed.

Lemma dict_get_set_same (k : K) (v : V) (d : dict K V) :
  dict_get k (dict_set k v d) = Some v.
Proof.
  induction d as [|[k' v'] d IH]; simpl.
  - now rewrite eqb_refl.
  - destruct (py_eqb k k') eqn:E; simpl; rewrite E; [reflexivity | exact IH].
Qed.

Lemma dict_get_set_other (k k' : K) (v : V) (d : dict K V) :
  k <> k' -> dict_get k (dict_set k' v d) = dict_get k d.
Proof.
  intros N. induction d as [|[k0 v0] d IH]; simpl.
  - now rewrite eqb_neq.
  - destruct (py_eqb k' k0) eqn:E; simpl.
    + apply eqb_eq in E. subst k0. now rewrite eqb_neq.
    + now rewrite IH.
Qed.

Lemma dict_count_absent (k : K) (d : dict K V) :
  ~ In k (dict_keys d) -> dict_count k d = 0.
Proof.
  unfold dict_count, dict_keys.
  induction d as [|[k' v'] d IH]; simpl; intros N; [reflexivity|].
  rewrite eqb_neq by (intros ->; tauto). apply IH. tauto.
Qed.

Lemma dict_set_keys (k : K) (v : V) (d : dict K V) :
  dict_keys (dict_set k v d)
  = if existsb (py_eqb k) (dict_keys d) then dict_keys d else dict_keys d ++ [k].
Proof.
  induction d as [|[k' v'] d IH]; simpl; [reflexivity|].
  destruct (py_eqb k k') eqn:E; simpl; [reflexivity|].
  rewrite IH. now destruct (existsb (py_eqb k) (dict_keys d)).
Qed.

Lemma dict_count_set (k : K) (v : V) (d : dict K V) :
  NoDup (dict_keys d) -> dict_count k (dict_set k v d) = 1.
Proof.
  unfold dict_count. induction d as [|[k' v'] d IH]; simpl; intros ND.
  - now rewrite eqb_refl.
  - inversion ND as [|? ? Hnotin ND']; subst.
    destruct (py_eqb k k') eqn:E; simpl; rewrite E; simpl.
    + apply eqb_eq in E. subst k'. f_equal.
      now apply (dict_count_absent k d).
    + now apply IH.
Qed.

Lemma dict_set_nodup (k : K) (v : V) (d : dict K V) :
  NoDup (dict_keys d) -> NoDup (dict_keys (dict_set k v d)).
Proof.
  intros ND. rewrite dict_set_keys.
  destruct (existsb (py_eqb k) (dict_keys d)) eqn:E; [assumption|].
  apply NoDup_app; [assumption | repeat constructor; simpl; tauto |].
  intros x Hx [Ex | []]. subst x.
  assert (existsb (py_eqb k) (dict_keys d) = true); [|congruence].
  apply existsb_exists. exists k. split; [assumption | apply eqb_refl].
Qed.

End Dict.

(** *** One cell *)

Lemma parse_cells_app (rows1 rows2 : list node) : forall prices : price_table,
  parse_cells prices (rows1 ++ rows2)
  = bind (parse_cells prices rows1) (fun p => parse_cells p rows2).
Proof.
  induction rows1 as [|r rows1 IH]; intros prices; simpl; [reflexivity|].
  destruct (parse_cell prices r); simpl; [apply IH | reflexivity].
Qed.

Lemma parse_cell_key (prices prices' : price_table) (c : node) :
  parse_cell prices c = Ok prices' ->
  exists room v, room_of c = Some room /\ prices' = dict_set (PStr room) v prices.
Proof.
  unfold parse_cell, room_of. intros E.
  destruct (span c) as [sp|]; simpl in E; [|discriminate].
  destruct (string_of sp) as [label|]; simpl in E; [|discriminate].
  destruct (match_digits label) as [room|]; simpl in E; [|discriminate].
  exists room.
  destruct (index (contents c) 1) as [k|]; simpl in E; [|discriminate].
  destruct (as_str k) as [subject|]; simpl in E; [|discriminate].
  destruct (match_range subject) as [[g1 g2]|].
  - destruct (int_of_str (replace_spaces g1)); simpl in E; [|discriminate].
    destruct (int_of_str (replace_spaces g2)); simpl in E; [|discriminate].
    injection E as <-. eauto.
  - destruct (match_single subject); simpl in E; [|discriminate].
    injection E as <-. eauto.
Qed.

Lemma parse_cells_keeps (room : string) (rows : list node) :
  forall prices prices' : price_table,
  Forall (fun c => room_of c <> Some room) rows ->
  parse_cells prices rows = Ok prices' ->
  dict_get (PStr room) prices' = dict_get (PStr room) prices.
Proof.
  induction rows as [|c rows IH]; simpl; intros prices prices' Hrows E.
  - congruence.
  - inversion Hrows as [|? ? Hc Hrest]; subst.
    apply bind_ok in E. destruct E as (p1 & E1 & E2).
    rewrite (IH _ _ Hrest E2).
    destruct (parse_cell_key _ _ _ E1) as (r & v & Hr & ->).
    apply (dict_get_set_other py_eqb_pyval).
    congruence.
Qed.

Lemma parse_range_cell (c : node) (label room A B : string) (prices : price_table) :
  shows c label (A ++ " - " ++ B) ->
  match_digits label = Some room ->
  spaced_digits A -> spaced_digits B ->
  parse_cell prices c
  = Ok (dict_set (PStr room) (PInt (number A), PInt (number B)) prices).
Proof.
  intros (sp & Hsp & Hlabel & Hprice) Hroom HA HB.
  unfold parse_cell, index. rewrite Hsp, Hprice. cbn [group bind].
  rewrite Hlabel. cbn [bind]. rewrite Hroom. cbn [group bind as_str].
  rewrite (match_range_split A B HA HB).
  now rewrite (int_of_spaced_digits A HA), (int_of_spaced_digits B HB).
Qed.

(** C2, amended: a cell whose text is [A - B], digits with spaces in them
    on both sides, is filed under its room key as the pair of integers
    (A without spaces, B without spaces), whatever the table held before;
    the pair keeps the order of the text, so its first component is at most
    its second exactly when A is at most B. *)
Theorem range_cell_parsed
  (markup : string) (section : node) (others before after : list node)
  (c : node) (label room A B : string) :
  find_all_class "pricing" (BeautifulSoup markup) = section :: others ->
  find_all "td" "" section = before ++ c :: after ->
  shows c label (A ++ " - " ++ B) ->
  match_digits label = Some room ->
  spaced_digits A -> spaced_digits B ->
  Forall (fun c' => room_of c' <> Some room) after ->
  (forall prices,
     parse_cell prices c
     = Ok (dict_set (PStr room) (PInt (number A), PInt (number B)) prices))
  /\ (forall d, retrieve_flat_prices (Some markup) = Ok (Some d) ->
      exists lo hi,
        dict_get (PStr room) d = Some (PInt lo, PInt hi)
        /\ lo = number A /\ hi = number B
        /\ ((lo <= hi)%Z <-> (number A <= number B)%Z)).
Proof.
  intros Hsec Hcells Hshow Hroom HA HB Hafter.
  assert (Hcell : forall prices,
             parse_cell prices c
             = Ok (dict_set (PStr room) (PInt (number A), PInt (number B)) prices))
    by (intros; eapply parse_range_cell; eauto).
  split; [exact Hcell|].
  intros d E. unfold retrieve_flat_prices in E. rewrite Hsec in E. simpl in E.
  rewrite Hcells in E.
  apply bind_ok in E. destruct E as (prices & E & Ed).
  injection Ed as <-.
  rewrite parse_cells_app in E. apply bind_ok in E.
  destruct E as (p1 & _ & E). simpl in E. rewrite Hcell in E. simpl in E.
  exists (number A), (number B).
  rewrite (parse_cells_keeps room after _ _ Hafter E).
  rewrite (dict_get_set_same py_eqb_pyval).
  repeat split; auto.
Qed.

(** C1, amended: the two-cell page gives a mapping of two entries, keyed by
    the texts "2" and "3"; under "2" the pair of integers (450000, 500000);
    under "3" a pair of one value twice, which [int] reads as 600000; the
    constructor of the snapshot reads the keys as 2 and 3 and the prices as
    integers. *)
Theorem two_cell_table (markup : string) (section : node) (others : list node)
  (c1 c2 : node) :
  find_all_class "pricing" (BeautifulSoup markup) = section :: others ->
  find_all "td" "" section = [c1; c2] ->
  shows c1 "2 pok." "450 000 - 500 000" ->
  shows c2 "3 pok." "600 000" ->
  exists v,
    retrieve_flat_prices (Some markup)
    = Ok (Some [(PStr "2", (PInt 450000, PInt 500000)); (PStr "3", (v, v))])
    /\ py_int v = Ok 600000%Z
    /\ forall d n, exists s,
         NeighbourhoodPrices_init d n
           (Some [(PStr "2", (PInt 450000, PInt 500000)); (PStr "3", (v, v))])
         = Ok s
         /\ rooms s = [2; 3]%Z
         /\ min_prices s = [450000; 600000]%Z
         /\ max_prices s = [500000; 600000]%Z.
Proof.
  intros Hsec Hcells (sp1 & Hsp1 & Hl1 & Hp1) (sp2 & Hsp2 & Hl2 & Hp2).
  exists (PStr "600000").
  split; [|split; [reflexivity|]].
  - unfold retrieve_flat_prices. rewrite Hsec. simpl. rewrite Hcells.
    unfold parse_cells, parse_cell, index.
    rewrite Hsp1, Hsp2, Hp1, Hp2. cbn [group bind]. rewrite Hl1. cbn [bind].
    change (match_digits "2 pok.") with (Some "2"). cbn [group bind as_str].
    rewrite Hl2. reflexivity.
  - intros d n. eexists. split; [reflexivity|]. repeat split.
Qed.

(** ** The snapshot *)

Lemma Forall2_functional {A B : Type} (R : A -> B -> Prop) :
  (forall a b b', R a b -> R a b' -> b = b') ->
  forall l m m', Forall2 R l m -> Forall2 R l m' -> m = m'.
Proof.
  intros F l m m' H. revert m'.
  induction H as [|a b l m Hab _ IH]; intros m' H'; inversion H'; subst.
  - reflexivity.
  - f_equal; [eapply F; eassumption | now apply IH].
Qed.

Lemma add_entry_spec (s s' : NeighbourhoodPrices) (item : pyval * (pyval * pyval)) :
  add_entry s item = Ok s' ->
  exists n lo hi avg,
    py_int (fst item) = Ok n
    /\ py_int (fst (snd item)) = Ok lo
    /\ py_int (snd (snd item)) = Ok hi
    /\ py_truediv (lo + lo) 2 = Ok avg
    /\ s' = {| date := date s; name := name s; neighb_prices := neighb_prices s;
               rooms := rooms s ++ [n]; min_prices := min_prices s ++ [lo];
               max_prices := max_prices s ++ [hi];
               avg_prices := avg_prices s ++ [avg] |}.
Proof.
  destruct item as [k [v0 v1]]. unfold add_entry. cbn [fst snd].
  destruct (py_int v0) as [lo|] eqn:E0; cbn [bind]; [|discriminate].
  destruct (py_int v1) as [hi|] eqn:E1; cbn [bind]; [|discriminate].
  destruct (py_truediv (lo + lo) 2) as [avg|] eqn:E2; cbn [bind]; [|discriminate].
  destruct (py_int k) as [n|] eqn:E3; cbn [bind]; [|discriminate].
  intros E. injection E as <-. exists n, lo, hi, avg. repeat split; assumption.
Qed.

Lemma add_entries_spec (items : price_table) : forall s s' : NeighbourhoodPrices,
  add_entries s items = Ok s' ->
  exists ns los his avgs,
    rooms s' = rooms s ++ ns
    /\ min_prices s' = min_prices s ++ los
    /\ max_prices s' = max_prices s ++ his
    /\ avg_prices s' = avg_prices s ++ avgs
    /\ Forall2 (fun v lo => py_int v = Ok lo) (map (fun e => fst (snd e)) items) los
    /\ Forall2 (fun lo avg => py_truediv (lo + lo) 2 = Ok avg) los avgs
    /\ List.length ns = List.length items
    /\ List.length his = List.length items.
Proof.
  induction items as [|item items IH]; intros s s' E; simpl in E.
  - injection E as <-. exists [], [], [], []. rewrite !app_nil_r.
    repeat split; constructor.
  - apply bind_ok in E. destruct E as (s1 & E1 & E2).
    destruct (add_entry_spec _ _ _ E1) as (n & lo & hi & avg & Hn & Hlo & Hhi & Havg & ->).
    destruct (IH _ _ E2) as (ns & los & his & avgs & R & Mi & Ma & Av & F1 & F2 & L1 & L2).
    cbn [rooms min_prices max_prices avg_prices] in *.
    exists (n :: ns), (lo :: los), (hi :: his), (avg :: avgs).
    rewrite R, Mi, Ma, Av, <- !app_assoc. cbn [map List.length].
    repeat split; auto.
Qed.

Lemma constructed_aligned (s : NeighbourhoodPrices) : constructed s -> aligned s.
Proof.
  intros (d & n & t & E). unfold NeighbourhoodPrices_init in E.
  destruct (add_entries_spec _ _ _ E)
    as (ns & los & his & avgs & R & Mi & Ma & Av & F1 & F2 & L1 & L2).
  cbn [rooms min_prices max_prices avg_prices app] in *.
  unfold aligned. rewrite R, Mi, Ma, Av.
  apply Forall2_length in F1, F2. rewrite length_map in F1.
  repeat split; congruence.
Qed.

(** C3: in a snapshot the constructor has built, every average is
    [(min + min) / 2], the true division of twice the entry's minimum by 2;
    the maximum has no part in it: two mappings with the same minima give
    the same averages. *)
Theorem average_from_min_alone
  (d : pydate) (n : string) (t : price_table) (s : NeighbourhoodPrices) :
  NeighbourhoodPrices_init d n (Some t) = Ok s ->
  Forall2 (fun lo avg => py_truediv (lo + lo) 2 = Ok avg) (min_prices s) (avg_prices s)
  /\ List.length (avg_prices s) = List.length t
  /\ forall d' n' t' s',
       NeighbourhoodPrices_init d' n' (Some t') = Ok s' ->
       map (fun e => fst (snd e)) t' = map (fun e => fst (snd e)) t ->
       avg_prices s' = avg_prices s.
Proof.
  intros E. unfold NeighbourhoodPrices_init in E.
  destruct (add_entries_spec _ _ _ E)
    as (ns & los & his & avgs & R & Mi & Ma & Av & F1 & F2 & L1 & L2).
  cbn [rooms min_prices max_prices avg_prices app] in *.
  rewrite Mi, Av. split; [assumption|]. split.
  - apply Forall2_length in F1, F2. rewrite length_map in F1. congruence.
  - intros d' n' t' s' E' Hmin. unfold NeighbourhoodPrices_init in E'.
    destruct (add_entries_spec _ _ _ E')
      as (ns' & los' & his' & avgs' & R' & Mi' & Ma' & Av' & F1' & F2' & L1' & L2').
    cbn [rooms min_prices max_prices avg_prices app] in *.
    rewrite Av'. rewrite Hmin in F1'.
    assert (Hlos : los' = los).
    { eapply Forall2_functional; [|exact F1'|exact F1]. intros; congruence. }
    rewrite Hlos in F2'.
    eapply Forall2_functional; [|exact F2'|exact F2]. intros; congruence.
Qed.

(** C4, amended: from an empty mapping the constructor gives a snapshot of
    no entries; from [None] it raises [AttributeError], [None] having no
    [keys]. *)
Theorem snapshot_of_empty_and_of_none (d : pydate) (n : string) :
  NeighbourhoodPrices_init d n (Some [])
  = Ok {| date := d; name := n; neighb_prices := []; rooms := [];
          min_prices := []; max_prices := []; avg_prices := [] |}
  /\ NeighbourhoodPrices_init d n None = Raise AttributeError.
Proof. split; reflexivity. Qed.

(** C5, at the failing input: the snapshot of the two-cell page has two
    entries and [__str__] shows the first only, the bound [len - 1] of its
    range leaving the last row out; the snapshot of an empty mapping
    renders as its header, without raising. *)
Theorem str_omits_last_row (d : datetime) :
  (exists s h r0 r1,
      NeighbourhoodPrices_init (DateTime d) "portova" (Some two_cell_prices) = Ok s
      /\ entries s = 2
      /\ header s = Ok h
      /\ rows_text s [0; 1] = Ok [r0; r1]
      /\ r1 = (nl ++ "3" ++ tab ++ "600000" ++ tab ++ "600000" ++ tab
               ++ repr_float (600000 # 1))%string
      /\ NeighbourhoodPrices_str s = Ok (h ++ r0)%string)
  /\ (exists s0 h0,
      NeighbourhoodPrices_init (DateTime d) "portova" (Some []) = Ok s0
      /\ entries s0 = 0
      /\ header s0 = Ok h0
      /\ NeighbourhoodPrices_str s0 = Ok h0).
Proof.
  split.
  - do 4 eexists. split; [reflexivity|].
    split; [reflexivity|]. split; [reflexivity|].
    split; [reflexivity|]. split; reflexivity.
  - do 2 eexists. split; [reflexivity|]. repeat split.
Qed.

(** *** The rendering in general: the rows of all entries but the last *)

Lemma range_from_zero (n : nat) : range 0 (Z.of_nat n - 1) = seq 0 (n - 1).
Proof.
  unfold range.
  replace (Z.to_nat (Z.of_nat n - 1 - 0)) with (n - 1) by lia.
  rewrite <- (map_id (seq 0 (n - 1))) at 2.
  apply map_ext. intros k. lia.
Qed.

Lemma append_empty (s : string) : (s ++ "")%string = s.
Proof. induction s as [|c s IH]; simpl; [reflexivity | now rewrite IH]. Qed.

Lemma append_assoc (s t u : string) : ((s ++ t) ++ u)%string = (s ++ (t ++ u))%string.
Proof. induction s as [|c s IH]; simpl; [reflexivity | now rewrite IH]. Qed.

Lemma append_rows_rows (self : NeighbourhoodPrices) (idx : list nat) :
  forall results : string,
  append_rows self results idx
  = bind (rows_text self idx)
      (fun rows => Ok (results ++ fold_right String.append "" rows)%string).
Proof.
  induction idx as [|i idx IH]; intros results; simpl.
  - now rewrite append_empty.
  - destruct (row_text self i) as [row|e]; simpl; [|reflexivity].
    rewrite IH. destruct (rows_text self idx) as [rows|e]; simpl; [|reflexivity].
    now rewrite append_assoc.
Qed.

Lemma index_in_range {A : Type} (l : list A) (i : nat) :
  i < List.length l -> exists a, index l i = Ok a.
Proof.
  intros Hi. unfold index.
  destruct (nth_error l i) eqn:E; [eauto|].
  apply nth_error_None in E. lia.
Qed.

Lemma rows_text_total (self : NeighbourhoodPrices) (idx : list nat) :
  aligned self ->
  Forall (fun i => i < entries self) idx ->
  exists rows, rows_text self idx = Ok rows /\ List.length rows = List.length idx.
Proof.
  intros (Hmin & Hmax & Havg).
  induction 1 as [|i idx Hi _ IH]; simpl; [eauto|].
  unfold entries in Hi. unfold row_text.
  destruct (index_in_range (rooms self) i Hi) as [r ->].
  destruct (index_in_range (min_prices self) i) as [lo ->]; [lia|].
  destruct (index_in_range (max_prices self) i) as [hi ->]; [lia|].
  destruct (index_in_range (avg_prices self) i) as [avg ->]; [lia|].
  destruct IH as (rows & -> & Hlen). cbn [bind].
  eexists. split; [reflexivity | simpl; congruence].
Qed.

(** X7: for every snapshot the constructor has built around a [datetime],
    [__str__] is the header followed by the rows of the indices
    [0 .. n - 2]: one row short of the [n] entries whenever there is one. *)
Lemma str_renders_all_but_last (self : NeighbourhoodPrices) (d : datetime) :
  constructed self -> date self = DateTime d ->
  exists h rows,
    header self = Ok h
    /\ rows_text self (seq 0 (entries self - 1)) = Ok rows
    /\ List.length rows = entries self - 1
    /\ NeighbourhoodPrices_str self
       = Ok (h ++ fold_right String.append "" rows)%string.
Proof.
  intros Hc Hd. apply constructed_aligned in Hc.
  destruct (rows_text_total self (seq 0 (entries self - 1)) Hc) as (rows & Hrows & Hlen).
  { apply Forall_forall. intros i Hi. apply in_seq in Hi. lia. }
  rewrite length_seq in Hlen.
  unfold NeighbourhoodPrices_str, header. rewrite Hd. cbn [bind].
  eexists. exists rows. split; [reflexivity|]. split; [assumption|].
  split; [assumption|].
  fold (entries self). rewrite range_from_zero, append_rows_rows, Hrows.
  reflexivity.
Qed.


(** ** The flat table *)

Lemma zip_rows_length (n : nat) : forall i ns ds rs los his avgs,
  List.length ns = n -> List.length ds = n -> List.length rs = n ->
  List.length los = n -> List.length his = n -> List.length avgs = n ->
  List.length (zip_rows i ns ds rs los his avgs) = n.
Proof.
  induction n as [|n IH]; intros i ns ds rs los his avgs H1 H2 H3 H4 H5 H6;
    destruct ns, ds, rs, los, his, avgs; try discriminate; simpl in *.
  - reflexivity.
  - f_equal. apply IH; congruence.
Qed.

Lemma frame_of_aligned (s : NeighbourhoodPrices) :
  aligned s ->
  pd_DataFrame (NeighbourhoodPrices_to_dict s) = Ok (rows_of s)
  /\ List.length (rows_of s) = entries s.
Proof.
  intros (Hmin & Hmax & Havg). unfold pd_DataFrame, rows_of, entries.
  cbn [NeighbourhoodPrices_to_dict Neighbourhood Date Rooms Min_Price Max_Price Avg_Price].
  rewrite !repeat_length, Hmin, Hmax, Havg, !Nat.eqb_refl.
  split; [reflexivity|].
  apply zip_rows_length; auto using repeat_length.
Qed.

Lemma frames_of_constructed (neighbs_dict : snapshots) :
  Forall (fun kv => constructed (snd kv)) neighbs_dict ->
  frames_of neighbs_dict = Ok (map (fun kv => rows_of (snd kv)) neighbs_dict).
Proof.
  induction 1 as [|[k s] rest Hs _ IH]; simpl; [reflexivity|].
  destruct (frame_of_aligned s (constructed_aligned s Hs)) as [-> _].
  now rewrite IH.
Qed.

Lemma concat_rows_length (neighbs_dict : snapshots) :
  Forall (fun kv => constructed (snd kv)) neighbs_dict ->
  List.length (List.concat (map (fun kv => rows_of (snd kv)) neighbs_dict))
  = total_entries neighbs_dict.
Proof.
  unfold total_entries.
  induction 1 as [|[k s] rest Hs _ IH]; simpl; [reflexivity|].
  rewrite length_app, IH.
  now destruct (frame_of_aligned s (constructed_aligned s Hs)) as [_ ->].
Qed.

(** C6, amended: for a collection that holds one date with at least one
    snapshot, [to_df] is the concatenation of the rows of every
    neighbourhood of that date, as many rows as they have entries; for a
    collection that holds no date it returns [None], without failing. *)
Theorem to_df_one_date (self : CityPrices) (day0 : string) (neighbs_dict : snapshots) :
  data self = [(day0, neighbs_dict)] ->
  neighbs_dict <> [] ->
  Forall (fun kv => constructed (snd kv)) neighbs_dict ->
  CityPrices_to_df self
  = Ok (Some (List.concat (map (fun kv => rows_of (snd kv)) neighbs_dict)))
  /\ List.length (List.concat (map (fun kv => rows_of (snd kv)) neighbs_dict))
     = total_entries neighbs_dict
  /\ CityPrices_to_df (CityPrices_init (location self) (neighbs self)) = Ok None.
Proof.
  intros Hdata Hne Hall. split; [|split].
  - unfold CityPrices_to_df. rewrite Hdata. cbn [last_frames].
    rewrite (frames_of_constructed _ Hall). cbn [bind last_frames].
    destruct neighbs_dict; [congruence | reflexivity].
  - now apply concat_rows_length.
  - reflexivity.
Qed.

(** ** The collection *)

Lemma list_remove_at (l : list string) : forall (i : nat) (x : string),
  nth_error l i = Some x -> exists l', list_remove x l = Some l'.
Proof.
  induction l as [|y l IH]; intros [|i] x E; simpl in E; try discriminate.
  - injection E as ->. simpl. rewrite String.eqb_refl. eauto.
  - simpl. destruct (String.eqb x y); [eauto|].
    destruct (IH i x E) as [l' ->]. simpl. eauto.
Qed.

Lemma list_remove_length (x : string) (l : list string) : forall l',
  list_remove x l = Some l' -> List.length l = S (List.length l').
Proof.
  induction l as [|y l IH]; simpl; intros l' E; [discriminate|].
  destruct (String.eqb x y); [congruence|].
  destruct (list_remove x l) as [l0|]; simpl in E; [|discriminate].
  injection E as <-. simpl. f_equal. now apply IH.
Qed.

Lemma list_remove_keeps (x y : string) (l : list string) : forall l',
  list_remove x l = Some l' -> y <> x -> In y l -> In y l'.
Proof.
  induction l as [|z l IH]; simpl; intros l' E N Hin; [discriminate|].
  destruct (String.eqb_spec x z) as [->|Nz].
  - injection E as <-. destruct Hin; [congruence | assumption].
  - destruct (list_remove x l) as [l0|]; simpl in E; [|discriminate].
    injection E as <-. destruct Hin as [->|Hin]; [now left | right; eauto].
Qed.

(** What one pass of the loop body does: an empty identifier is taken out
    of the list and nothing else changes; any other identifier binds [now]
    and is asked for, and the list stays or loses that identifier. *)
Lemma visit_cases (city neighb : string) (st st' : frame) (o : result unit) :
  visit city neighb st = (o, st') ->
  (neighb = ""
   /\ f_results st' = f_results st /\ f_now st' = f_now st /\ f_env st' = f_env st
   /\ ((exists l', list_remove neighb (f_neighbs st) = Some l'
                   /\ f_neighbs st' = l' /\ o = Ok tt)
       \/ (list_remove neighb (f_neighbs st) = None
           /\ f_neighbs st' = f_neighbs st /\ o = Raise ValueError)))
  \/ (neighb <> ""
      /\ fetched (f_env st') = fetched (f_env st) ++ [(city, neighb)]
      /\ f_now st' <> None
      /\ (f_neighbs st' = f_neighbs st
          \/ list_remove neighb (f_neighbs st) = Some (f_neighbs st'))).
Proof.
  unfold visit, truthy. destruct (String.eqb_spec neighb "") as [->|N]; cbn [negb].
  - intros E. left. split; [reflexivity|]. unfold remove_neighb in E.
    destruct (list_remove "" (f_neighbs st)) as [l'|] eqn:R;
      injection E as <- <-; cbn; repeat split; eauto.
  - intros E. right. split; [assumption|].
    destruct (datetime_now (world (f_env st))) as [t w].
    unfold get_page_content in E. cbn [world stdout fetched] in E.
    destruct (requests_get _ w) as [answer w'].
    destruct answer as [results|e].
    + destruct (status_code results =? 200)%Z.
      * cbn [truthy_content] in E.
        destruct (truthy (content results)).
        -- destruct (retrieve_flat_prices (Some (content results))) as [prices|e].
           ++ destruct (NeighbourhoodPrices_init _ neighb prices) as [snapshot|e];
                injection E as <- <-; cbn; repeat split; auto; discriminate.
           ++ injection E as <- <-; cbn; repeat split; auto; discriminate.
        -- unfold remove_neighb in E.
           destruct (list_remove neighb (f_neighbs st)) as [l'|] eqn:R;
             injection E as <- <-; cbn; repeat split; auto; discriminate.
      * cbn [truthy_content] in E. unfold remove_neighb in E.
        destruct (list_remove neighb (f_neighbs st)) as [l'|] eqn:R;
          injection E as <- <-; cbn; repeat split; auto; discriminate.
    + injection E as <- <-; cbn; repeat split; auto; discriminate.
Qed.

Lemma visit_length (city neighb : string) (st st' : frame) (o : result unit) :
  visit city neighb st = (o, st') ->
  List.length (f_neighbs st') <= List.length (f_neighbs st).
Proof.
  intros E. apply visit_cases in E.
  destruct E as [(_ & _ & _ & _ & [(l' & R & -> & _) | (_ & -> & _)])
                | (_ & _ & _ & [-> | R])]; try lia.
  - apply list_remove_length in R. lia.
  - apply list_remove_length in R. lia.
Qed.

(** The fuel [get_prices] gives the loop is enough: the loop ends. *)
Lemma for_neighbs_total (city : string) (fuel : nat) : forall (i : nat) (st : frame),
  List.length (f_neighbs st) <= fuel + i ->
  exists r, for_neighbs (S fuel) city i st = Some r.
Proof.
  induction fuel as [|fuel IH]; intros i st Hlen.
  - cbn [for_neighbs].
    destruct (nth_error (f_neighbs st) i) as [neighb|] eqn:E; [|eauto].
    assert (Hi : i < List.length (f_neighbs st)).
    { apply nth_error_Some. congruence. }
    simpl in Hlen. lia.
  - change (for_neighbs (S (S fuel)) city i st)
      with (match nth_error (f_neighbs st) i with
            | None => Some (Ok tt, st)
            | Some neighb =>
                match visit city neighb st with
                | (Ok _, st') => for_neighbs (S fuel) city (S i) st'
                | (Raise e, st') => Some (Raise e, st')
                end
            end).
    destruct (nth_error (f_neighbs st) i) as [neighb|]; [|eauto].
    destruct (visit city neighb st) as [[u|e] st'] eqn:V; [|eauto].
    apply IH. apply visit_length in V. lia.
Qed.

Theorem get_prices_total (self : CityPrices) (env : Env World) :
  exists o self' env', get_prices self env = Some (o, self', env').
Proof.
  unfold get_prices, collect.
  destruct (for_neighbs_total (location self) (List.length (neighbs self)) 0
              {| f_neighbs := neighbs self; f_results := []; f_now := None;
                 f_env := env |}) as [[o st] ->]; [simpl; lia|].
  destruct o as [u|e]; [|eauto].
  destruct (f_now st); eauto.
Qed.

Lemma list_remove_incl (x : string) (l : list string) : forall l',
  list_remove x l = Some l' -> incl l' l.
Proof.
  induction l as [|y l IH]; simpl; intros l' E; [discriminate|].
  destruct (String.eqb x y).
  - injection E as <-. apply incl_tl, incl_refl.
  - destruct (list_remove x l) as [l0|]; simpl in E; [|discriminate].
    injection E as <-. apply incl_cons; [now left|].
    apply incl_tl. now apply IH.
Qed.

Lemma for_neighbs_unfold (fuel : nat) (city : string) (i : nat) (st : frame) :
  for_neighbs (S fuel) city i st
  = match nth_error (f_neighbs st) i with
    | None => Some (Ok tt, st)
    | Some neighb =>
        match visit city neighb st with
        | (Ok _, st') => for_neighbs fuel city (S i) st'
        | (Raise e, st') => Some (Raise e, st')
        end
    end.
Proof. reflexivity. Qed.

(** What a run of the loop asks for: identifiers of the list, none of them
    empty, and when it asks for nothing it ends normally with [now],
    [results] and the world as they were. *)
Lemma for_neighbs_trace (city : string) (fuel : nat) :
  forall (i : nat) (st st' : frame) (o : result unit),
  for_neighbs fuel city i st = Some (o, st') ->
  exists extra,
    fetched (f_env st') = fetched (f_env st) ++ extra
    /\ Forall (fun p => fst p = city /\ snd p <> "" /\ In (snd p) (f_neighbs st)) extra
    /\ incl (f_neighbs st') (f_neighbs st)
    /\ (extra = [] ->
        o = Ok tt /\ f_now st' = f_now st /\ f_results st' = f_results st
        /\ f_env st' = f_env st)
    /\ (f_now st <> None \/ extra <> [] -> f_now st' <> None).
Proof.
  induction fuel as [|fuel IH]; intros i st st' o E; [discriminate|].
  rewrite for_neighbs_unfold in E.
  destruct (nth_error (f_neighbs st) i) as [neighb|] eqn:Hi.
  2:{ injection E as <- <-. exists []. rewrite app_nil_r.
      repeat split; auto using incl_refl. intros [H|H]; congruence. }
  destruct (visit city neighb st) as [o1 st1] eqn:V.
  pose proof (nth_error_In _ _ Hi) as Hin.
  destruct (list_remove_at _ _ _ Hi) as [l1 Hl1].
  apply visit_cases in V.
  destruct V as [(-> & Hres & Hnow & Henv & [(l' & R & Hl & ->) | (R & _)])
                | (N & Hf & Hn & Hl)].
  - (* an empty identifier: taken out, the loop goes on *)
    destruct (IH _ _ _ _ E) as (extra & F & All & Inc & Z0 & Nn).
    exists extra. rewrite Henv, Hnow, Hres in *.
    assert (Inc1 : incl (f_neighbs st1) (f_neighbs st)).
    { rewrite Hl. eapply list_remove_incl; eassumption. }
    split; [assumption|]. split.
    { eapply Forall_impl; [|exact All]. intros p (A & B & C). auto. }
    split; [eapply incl_tran; eassumption|]. split; assumption.
  - congruence.
  - (* an identifier that is asked for *)
    assert (Inc1 : incl (f_neighbs st1) (f_neighbs st)).
    { destruct Hl as [->|R]; [apply incl_refl | eapply list_remove_incl; eassumption]. }
    destruct o1 as [u|e].
    + destruct (IH _ _ _ _ E) as (extra & F & All & Inc & Z0 & Nn).
      exists ((city, neighb) :: extra).
      rewrite F, Hf, <- app_assoc. split; [reflexivity|]. split.
      { constructor; [auto|].
        eapply Forall_impl; [|exact All]. intros p (A & B & C). auto. }
      split; [eapply incl_tran; eassumption|].
      split; [discriminate | auto].
    + injection E as <- <-. exists [(city, neighb)].
      split; [assumption|]. split; [repeat constructor; auto|].
      split; [assumption|]. split; [discriminate | auto].
Qed.

(** The same for [get_prices] as a whole. *)
Lemma get_prices_trace (self self' : CityPrices) (env env' : Env World)
  (o : result unit) :
  get_prices self env = Some (o, self', env') ->
  exists extra,
    fetched env' = fetched env ++ extra
    /\ Forall (fun p => fst p = location self /\ snd p <> ""
                        /\ In (snd p) (neighbs self)) extra
    /\ location self' = location self
    /\ (extra = [] ->
        o = Raise UnboundLocalError /\ data self' = data self /\ env' = env)
    /\ (o = Ok tt -> extra <> [])
    /\ (o <> Ok tt -> data self' = data self).
Proof.
  unfold get_prices, collect.
  destruct (for_neighbs _ _ _ _) as [[o1 st]|] eqn:L; [|discriminate].
  destruct (for_neighbs_trace _ _ _ _ _ _ L) as (extra & F & All & Inc & Z0 & Nn).
  cbn [f_neighbs f_results f_now f_env] in *.
  intros E. exists extra. split; [|split; [exact All|split]].
  - destruct o1; [destruct (f_now st)|]; injection E as <- <- <-; assumption.
  - destruct o1; [destruct (f_now st)|]; injection E as <- <- <-; reflexivity.
  - destruct o1 as [u|e].
    + destruct (f_now st) as [now|] eqn:Hnow.
      * injection E as <- <- <-. split; [|split].
        -- intros Z1. destruct (Z0 Z1) as (_ & Hn & _). congruence.
        -- intros _ Z1. destruct (Z0 Z1) as (_ & Hn & _). congruence.
        -- intros Hno. destruct u. congruence.
      * injection E as <- <- <-. split; [|split].
        -- intros Z1. destruct (Z0 Z1) as (_ & _ & _ & ->). auto.
        -- discriminate.
        -- reflexivity.
    + injection E as <- <- <-. split; [|split].
      * intros Z1. destruct (Z0 Z1) as (Ho & _). discriminate.
      * discriminate.
      * reflexivity.
Qed.

(** C10: with no identifier in the list, or only empty ones, [get_prices]
    raises [UnboundLocalError] ([now] was never bound), asks the site for
    nothing and leaves the dated mapping as it was; and whenever the call
    does not end normally the mapping is as it was, while a call that ends
    normally, the only one that writes it, has asked for a non-empty
    identifier of the list. *)
Theorem get_prices_without_identifier (self : CityPrices) (env : Env World) :
  (Forall (fun neighb => neighb = "") (neighbs self) ->
   exists left,
     get_prices self env
     = Some (Raise UnboundLocalError,
             {| location := location self; neighbs := left; data := data self |},
             env))
  /\ (forall o self' env',
        get_prices self env = Some (o, self', env') ->
        (o <> Ok tt -> data self' = data self)
        /\ (o = Ok tt ->
            exists neighb extra,
              fetched env' = fetched env ++ (location self, neighb) :: extra
              /\ neighb <> "" /\ In neighb (neighbs self))).
Proof.
  split.
  - intros Hall.
    destruct (get_prices_total self env) as (o & self' & env' & E).
    destruct (get_prices_trace _ _ _ _ _ E) as (extra & F & All & Hloc & Z0 & _ & _).
    assert (Hextra : extra = []).
    { destruct extra as [|p extra]; [reflexivity|].
      inversion All as [|? ? (_ & N & Hin) _]; subst.
      rewrite Forall_forall in Hall. specialize (Hall _ Hin). contradiction. }
    destruct (Z0 Hextra) as (-> & Hdata & ->).
    destruct self' as [loc' left data']. cbn [location data] in Hloc, Hdata.
    subst loc' data'. exists left. exact E.
  - intros o self' env' E.
    destruct (get_prices_trace _ _ _ _ _ E) as (extra & F & All & _ & _ & Hok & Hno).
    split; [assumption|].
    intros Ho. specialize (Hok Ho).
    destruct extra as [|[city neighb] extra]; [congruence|].
    inversion All as [|? ? (Hc & N & Hin) _]; subst. cbn [fst snd] in *.
    exists neighb, extra. rewrite F, Hc. auto.
Qed.

Lemma dict_set_has_key {V : Type} (k : string) (v : V) (d : dict string V) :
  existsb (py_eqb k) (dict_keys (dict_set k v d)) = true.
Proof.
  induction d as [|[k' v'] d IH]; simpl.
  - now rewrite String.eqb_refl.
  - destruct (String.eqb k k') eqn:E; simpl; rewrite E; [reflexivity | exact IH].
Qed.

(** What a call that ends normally leaves in the dated mapping. *)
Lemma get_prices_writes (self self' : CityPrices) (env env' : Env World) (day0 : string) :
  get_prices self env = Some (Ok tt, self', env') ->
  run_date self env = Some day0 ->
  data self' = dict_set day0 (run_results self env) (data self).
Proof.
  unfold get_prices, run_date, run_results.
  destruct (collect self env) as [[o st]|]; [|discriminate].
  destruct o as [u|e]; [|discriminate].
  destruct (f_now st) as [now|]; [|discriminate].
  intros E D. injection E as <- _. injection D as ->. reflexivity.
Qed.

(** C7: two calls of [get_prices] that end normally with [now] at the same
    date leave one entry under that date, holding the results of the
    second call; the second call adds no key to the mapping. *)
Theorem rerun_same_date
  (self self1 self2 : CityPrices) (env env1 env2 : Env World) (day0 : string) :
  NoDup (dict_keys (data self)) ->
  get_prices self env = Some (Ok tt, self1, env1) ->
  run_date self env = Some day0 ->
  get_prices self1 env1 = Some (Ok tt, self2, env2) ->
  run_date self1 env1 = Some day0 ->
  dict_count day0 (data self2) = 1
  /\ dict_get day0 (data self2) = Some (run_results self1 env1)
  /\ dict_keys (data self2) = dict_keys (data self1)
  /\ List.length (data self2) = List.length (data self1).
Proof.
  intros ND E1 D1 E2 D2.
  rewrite (get_prices_writes _ _ _ _ _ E2 D2).
  rewrite (get_prices_writes _ _ _ _ _ E1 D1).
  set (d1 := dict_set day0 (run_results self env) (data self)).
  assert (ND1 : NoDup (dict_keys d1))
    by (apply (dict_set_nodup py_eqb_string); assumption).
  assert (Hkeys : dict_keys (dict_set day0 (run_results self1 env1) d1) = dict_keys d1).
  { rewrite dict_set_keys. unfold d1. now rewrite dict_set_has_key. }
  split; [apply (dict_count_set py_eqb_string); assumption|].
  split; [apply (dict_get_set_same py_eqb_string)|].
  split; [assumption|].
  unfold dict_keys in Hkeys.
  rewrite <- (length_map fst), Hkeys. apply length_map.
Qed.

(** C8, at the failing input: of two empty identifiers in a row the loop
    takes out the first and steps over the second, which is still in the
    list when the call is over, whatever the site answers. *)
Theorem empty_identifier_survives (env : Env World) (held : dict string snapshots) :
  exists o self' env',
    get_prices {| location := "gdynia"; neighbs := [""; ""; "portova"];
                  data := held |} env
    = Some (o, self', env')
    /\ (neighbs self' = [""; "portova"] \/ neighbs self' = [""])
    /\ In "" (neighbs self').
Proof.
  unfold get_prices, collect. cbn [List.length location neighbs data].
  rewrite for_neighbs_unfold. cbn [nth_error f_neighbs].
  set (st1 := {| f_neighbs := [""; "portova"]; f_results := []; f_now := None;
                 f_env := env |}).
  assert (V0 : visit "gdynia" ""
                 {| f_neighbs := [""; ""; "portova"]; f_results := [];
                    f_now := None; f_env := env |} = (Ok tt, st1)) by reflexivity.
  rewrite V0, for_neighbs_unfold. cbn [nth_error f_neighbs st1].
  destruct (visit "gdynia" "portova" st1) as [o1 st2] eqn:V.
  apply visit_cases in V.
  destruct V as [(C & _) | (_ & _ & Hn & Hl)]; [discriminate C|].
  assert (Hleft : f_neighbs st2 = [""; "portova"] \/ f_neighbs st2 = [""]).
  { destruct Hl as [Hl|Hl]; [left; exact Hl | right].
    cbn in Hl. now injection Hl as <-. }
  assert (Hin : In "" (f_neighbs st2))
    by (destruct Hleft as [-> | ->]; simpl; auto).
  destruct o1 as [u|e].
  - rewrite for_neighbs_unfold.
    assert (Hend : nth_error (f_neighbs st2) 2 = None)
      by (destruct Hleft as [-> | ->]; reflexivity).
    rewrite Hend. destruct (f_now st2) as [now|]; [|congruence].
    do 3 eexists. split; [reflexivity|]. cbn [neighbs]. auto.
  - do 3 eexists. split; [reflexivity|]. cbn [neighbs]. auto.
Qed.


(** *** From one run to the flat table *)

Lemma dict_set_Forall {V : Type} (P : V -> Prop) (k : string) (v : V) (d : dict string V) :
  P v -> Forall (fun kv => P (snd kv)) d ->
  Forall (fun kv => P (snd kv)) (dict_set k v d).
Proof.
  intros Hv. induction 1 as [|[k' v'] d Hk Hd IH]; simpl.
  - repeat constructor. assumption.
  - destruct (String.eqb k k'); constructor; assumption.
Qed.

Lemma visit_results (city neighb : string) (st st' : frame) (o : result unit) :
  visit city neighb st = (o, st') ->
  Forall (fun kv => constructed (snd kv)) (f_results st) ->
  Forall (fun kv => constructed (snd kv)) (f_results st').
Proof.
  unfold visit, remove_neighb. intros E H.
  destruct (truthy neighb).
  - destruct (datetime_now (world (f_env st))) as [t w].
    destruct (get_page_content _ _ _) as [[html_content|e] env1].
    + destruct (truthy_content html_content).
      * destruct (retrieve_flat_prices html_content) as [prices|e].
        -- destruct (NeighbourhoodPrices_init _ neighb prices) as [snapshot|e] eqn:I;
             injection E as <- <-; cbn [f_results]; [|assumption].
           apply dict_set_Forall; [|assumption].
           destruct prices as [table|]; [|discriminate I].
           red. eauto.
        -- injection E as <- <-. assumption.
      * destruct (list_remove neighb (f_neighbs st)); injection E as <- <-; assumption.
    + injection E as <- <-. assumption.
  - destruct (list_remove neighb (f_neighbs st)); injection E as <- <-; assumption.
Qed.

Lemma for_neighbs_results (city : string) (fuel : nat) :
  forall (i : nat) (st st' : frame) (o : result unit),
  for_neighbs fuel city i st = Some (o, st') ->
  Forall (fun kv => constructed (snd kv)) (f_results st) ->
  Forall (fun kv => constructed (snd kv)) (f_results st').
Proof.
  induction fuel as [|fuel IH]; intros i st st' o E H; [discriminate|].
  rewrite for_neighbs_unfold in E.
  destruct (nth_error (f_neighbs st) i) as [neighb|].
  2:{ injection E as <- <-. assumption. }
  destruct (visit city neighb st) as [[u|e] st1] eqn:V.
  - eapply IH; [eassumption|]. eapply visit_results; eassumption.
  - injection E as <- <-. eapply visit_results; eassumption.
Qed.

Lemma to_df_single_date (self : CityPrices) (day0 : string) (neighbs_dict : snapshots) :
  data self = [(day0, neighbs_dict)] ->
  neighbs_dict <> [] ->
  Forall (fun kv => constructed (snd kv)) neighbs_dict ->
  CityPrices_to_df self
  = Ok (Some (List.concat (map (fun kv => rows_of (snd kv)) neighbs_dict))).
Proof.
  intros Hdata Hne Hall. unfold CityPrices_to_df. rewrite Hdata. cbn [last_frames].
  rewrite (frames_of_constructed _ Hall). cbn [bind last_frames].
  destruct neighbs_dict; [congruence | reflexivity].
Qed.

(** X17: after a first call of [get_prices] that ends normally with a snapshot
    at least, [to_df] is the table of all the snapshots of the call. *)
Theorem to_df_after_first_run (city : string) (available : list string)
  (env env' : Env World) (self' : CityPrices) :
  get_prices (CityPrices_init city available) env = Some (Ok tt, self', env') ->
  run_results (CityPrices_init city available) env <> [] ->
  exists df,
    CityPrices_to_df self' = Ok (Some df)
    /\ List.length df = total_entries (run_results (CityPrices_init city available) env).
Proof.
  intros E Hne.
  assert (Hd : exists day0, run_date (CityPrices_init city available) env = Some day0).
  { unfold get_prices, run_date in *.
    destruct (collect _ env) as [[o st]|]; [|discriminate].
    destruct o; [|discriminate]. destruct (f_now st); [eauto | discriminate]. }
  destruct Hd as [day0 Hd].
  pose proof (get_prices_writes _ _ _ _ _ E Hd) as Hdata. cbn in Hdata.
  assert (Hall : Forall (fun kv => constructed (snd kv))
                   (run_results (CityPrices_init city available) env)).
  { unfold run_results, collect.
    destruct (for_neighbs _ _ _ _) as [[o st]|] eqn:L; [|constructor].
    eapply for_neighbs_results; [exact L | constructor]. }
  eexists. split; [apply (to_df_single_date self' day0 _ Hdata Hne Hall)|].
  now apply concat_rows_length.
Qed.


(* ================================================================= *)
(** * Further properties *)

(** ** The parser: single values, malformed cells, keys *)

Lemma in_skipn {A : Type} (x : A) (n : nat) : forall l, In x (skipn n l) -> In x l.
Proof.
  induction n as [|n IH]; intros [|a l] H; simpl in *; auto.
Qed.

Lemma range_at_none (l : list ascii) :
  Forall (fun c => is_digit c = true \/ c = " "%char) l ->
  forall k, range_at k l = None.
Proof.
  intros Hall. induction k as [|k IH]; [reflexivity|].
  rewrite range_at_miss; [exact IH|].
  destruct (skipn (S k) l) as [|c0 [|c1 rest]] eqn:E; try reflexivity.
  { cbn. now rewrite andb_false_r. }
  assert (Hin : In c1 l).
  { apply (in_skipn c1 (S k)). rewrite E. right. now left. }
  rewrite Forall_forall in Hall. specialize (Hall c1 Hin).
  cbn [starts_with chars list_ascii_of_string].
  destruct (Ascii.eqb_spec "-" c1) as [<-|N].
  - destruct Hall as [H|H]; discriminate H.
  - now rewrite andb_false_r.
Qed.

Lemma parse_single_cell (c : node) (label room A : string) (prices : price_table) :
  shows c label A ->
  match_digits label = Some room ->
  spaced_digits A ->
  parse_cell prices c
  = Ok (dict_set (PStr room) (PStr (replace_spaces A), PStr (replace_spaces A)) prices).
Proof.
  intros (sp & Hsp & Hlabel & Hprice) Hroom [HA EA].
  unfold parse_cell, index. rewrite Hsp, Hprice. cbn [group bind].
  rewrite Hlabel. cbn [bind]. rewrite Hroom. cbn [group bind as_str].
  unfold match_range. rewrite (range_at_none _ HA).
  unfold match_single.
  rewrite (take_while_all in_class (chars A)) by now apply spaced_in_class.
  destruct (chars A) as [|a l] eqn:E; [inversion EA|].
  cbn [group bind]. rewrite <- E, text_chars. reflexivity.
Qed.

(** X1: a cell whose text is one value, digits with spaces in them, is
    filed under its room key as the text without its spaces, twice: two
    strings, not integers, which [int] reads as the value. *)
Theorem single_cell_parsed
  (markup : string) (section : node) (others before after : list node)
  (c : node) (label room A : string) :
  find_all_class "pricing" (BeautifulSoup markup) = section :: others ->
  find_all "td" "" section = before ++ c :: after ->
  shows c label A ->
  match_digits label = Some room ->
  spaced_digits A ->
  Forall (fun c' => room_of c' <> Some room) after ->
  (forall prices,
     parse_cell prices c
     = Ok (dict_set (PStr room) (PStr (replace_spaces A), PStr (replace_spaces A))
             prices))
  /\ py_int (PStr (replace_spaces A)) = Ok (number A)
  /\ (forall d, retrieve_flat_prices (Some markup) = Ok (Some d) ->
      dict_get (PStr room) d
      = Some (PStr (replace_spaces A), PStr (replace_spaces A))).
Proof.
  intros Hsec Hcells Hshow Hroom HA Hafter.
  assert (Hcell : forall prices,
             parse_cell prices c
             = Ok (dict_set (PStr room)
                     (PStr (replace_spaces A), PStr (replace_spaces A)) prices))
    by (intros; eapply parse_single_cell; eauto).
  split; [exact Hcell|]. split; [exact (int_of_spaced_digits A HA)|].
  intros d E. unfold retrieve_flat_prices in E. rewrite Hsec in E. simpl in E.
  rewrite Hcells in E.
  apply bind_ok in E. destruct E as (prices & E & Ed). injection Ed as <-.
  rewrite parse_cells_app in E. apply bind_ok in E.
  destruct E as (p1 & _ & E). simpl in E. rewrite Hcell in E. simpl in E.
  rewrite (parse_cells_keeps room after _ _ Hafter E).
  apply (dict_get_set_same py_eqb_pyval).
Qed.

Lemma parse_cells_raise (rows1 rows2 : list node) (prices p1 : price_table)
  (c : node) (e : exn) :
  parse_cells prices rows1 = Ok p1 ->
  parse_cell p1 c = Raise e ->
  parse_cells prices (rows1 ++ c :: rows2) = Raise e.
Proof.
  intros E1 E2. rewrite parse_cells_app, E1. simpl. now rewrite E2.
Qed.

(** X2: a cell whose price text does not start with a digit or white space
    (or is empty) matches neither pattern; [retrieve_flat_prices] then
    raises [AttributeError] and returns nothing, the cells before it
    having parsed. *)
Theorem malformed_price_raises
  (markup : string) (section : node) (others before after : list node)
  (c : node) (label room price : string) (parsed : price_table) :
  find_all_class "pricing" (BeautifulSoup markup) = section :: others ->
  find_all "td" "" section = before ++ c :: after ->
  parse_cells [] before = Ok parsed ->
  shows c label price ->
  match_digits label = Some room ->
  starts_outside_class price ->
  retrieve_flat_prices (Some markup) = Raise AttributeError.
Proof.
  intros Hsec Hcells Hbefore (sp & Hsp & Hlabel & Hprice) Hroom Hout.
  unfold retrieve_flat_prices. rewrite Hsec. simpl. rewrite Hcells.
  rewrite (parse_cells_raise before after [] parsed c AttributeError);
    [reflexivity | assumption |].
  unfold parse_cell, index. rewrite Hsp, Hprice. cbn [group bind].
  rewrite Hlabel. cbn [bind]. rewrite Hroom. cbn [group bind as_str].
  unfold match_range, match_single, starts_outside_class in *.
  destruct (chars price) as [|a l]; cbn [take_while].
  - reflexivity.
  - rewrite Hout. reflexivity.
Qed.

Lemma take_while_Forall (p : ascii -> bool) (l : list ascii) :
  Forall (fun c => p c = true) (take_while p l).
Proof.
  induction l as [|c l IH]; simpl; [constructor|].
  destruct (p c) eqn:E; constructor; assumption.
Qed.

Lemma match_digits_digits (label room : string) :
  match_digits label = Some room -> digits_only room.
Proof.
  unfold match_digits, digits_only. intros E.
  pose proof (take_while_Forall is_digit (chars label)) as H.
  destruct (take_while is_digit (chars label)) as [|c l]; [discriminate|].
  injection E as E. change (String c (text l)) with (text (c :: l)) in E.
  rewrite <- E, chars_text. split; [discriminate | assumption].
Qed.

Lemma remove_spaces_of_digits (l : list ascii) :
  Forall (fun c => is_digit c = true) l -> remove_spaces l = l.
Proof.
  induction 1 as [|c l Hc _ IH]; simpl; [reflexivity|].
  destruct (Ascii.eqb_spec c " ") as [->|_]; [discriminate Hc|].
  simpl. now rewrite IH.
Qed.

Lemma fold_digits_nonneg (l : list ascii) : forall acc : Z,
  (0 <= acc)%Z ->
  (0 <= fold_left (fun a c => (10 * a + digit_val c)%Z) l acc)%Z.
Proof.
  induction l as [|c l IH]; cbn [fold_left]; intros acc H; [assumption|].
  apply IH. unfold digit_val. lia.
Qed.

Lemma int_of_digits (room : string) :
  digits_only room ->
  int_of_str room = Ok (number room) /\ (0 <= number room)%Z.
Proof.
  intros [Hne Hall]. split.
  - assert (Hs : spaced_digits room).
    { split.
      - eapply Forall_impl; [|exact Hall]. auto.
      - destruct (chars room); [congruence|].
        inversion Hall; subst. now apply Exists_cons_hd. }
    rewrite <- (int_of_spaced_digits room Hs). f_equal.
    unfold replace_spaces. now rewrite remove_spaces_of_digits, text_chars.
  - unfold number. apply fold_digits_nonneg. lia.
Qed.

Lemma room_of_digits (c : node) (room : string) :
  room_of c = Some room -> digits_only room.
Proof.
  unfold room_of. destruct (span c) as [sp|]; [|discriminate].
  destruct (string_of sp) as [label|]; [|discriminate].
  apply match_digits_digits.
Qed.

Lemma dict_set_length (k : pyval) (v : pyval * pyval) (d : price_table) :
  List.length (dict_set k v d) <= S (List.length d).
Proof.
  induction d as [|[k' v'] d IH]; simpl; [lia|].
  destruct (pyval_eqb k k'); simpl; lia.
Qed.

Lemma parse_cells_keys (rows : list node) : forall prices d : price_table,
  parse_cells prices rows = Ok d ->
  NoDup (dict_keys prices) ->
  Forall (fun k => exists room, k = PStr room /\ digits_only room) (dict_keys prices) ->
  NoDup (dict_keys d)
  /\ Forall (fun k => exists room, k = PStr room /\ digits_only room) (dict_keys d)
  /\ List.length d <= List.length prices + List.length rows.
Proof.
  induction rows as [|c rows IH]; simpl; intros prices d E ND HK.
  - injection E as <-. repeat split; auto. lia.
  - apply bind_ok in E. destruct E as (p1 & E1 & E2).
    destruct (parse_cell_key _ _ _ E1) as (room & v & Hroom & ->).
    destruct (IH _ _ E2) as (ND' & HK' & Hlen).
    + now apply (dict_set_nodup py_eqb_pyval).
    + rewrite dict_set_keys.
      destruct (existsb (py_eqb (PStr room)) (dict_keys prices)); [assumption|].
      apply Forall_app. split; [assumption|].
      repeat constructor. exists room. split; [reflexivity|].
      eapply room_of_digits; eassumption.
    + repeat split; auto.
      pose proof (dict_set_length (PStr room) v prices). lia.
Qed.

(** X3: in a mapping [retrieve_flat_prices] returns the keys are distinct
    strings of digits, each of which [int] reads as a non-negative integer
    (so [int(rooms)] in the snapshot constructor cannot fail on them), and
    there are no more entries than cells. *)
Theorem parsed_keys (markup : string) (section : node) (others : list node)
  (d : price_table) :
  find_all_class "pricing" (BeautifulSoup markup) = section :: others ->
  retrieve_flat_prices (Some markup) = Ok (Some d) ->
  NoDup (dict_keys d)
  /\ Forall (fun k => exists room,
                 k = PStr room /\ digits_only room
                 /\ py_int k = Ok (number room) /\ (0 <= number room)%Z)
       (dict_keys d)
  /\ List.length d <= List.length (find_all "td" "" section).
Proof.
  intros Hsec E. unfold retrieve_flat_prices in E. rewrite Hsec in E. simpl in E.
  apply bind_ok in E. destruct E as (prices & E & Ed). injection Ed as <-.
  assert (K : NoDup (dict_keys ([] : price_table))
              /\ Forall (fun k => exists room, k = PStr room /\ digits_only room)
                   (dict_keys ([] : price_table)))
    by (split; constructor).
  destruct (parse_cells_keys _ _ _ E (proj1 K) (proj2 K)) as (ND & HK & Hlen).
  split; [assumption|]. split; [|simpl in Hlen; lia].
  eapply Forall_impl; [|exact HK].
  intros k (room & -> & Hd). exists room.
  destruct (int_of_digits room Hd). auto.
Qed.

Lemma parse_cell_value (prices prices' : price_table) (c : node) :
  parse_cell prices c = Ok prices' ->
  exists room v,
    room_of c = Some room
    /\ forall q, parse_cell q c = Ok (dict_set (PStr room) v q).
Proof.
  unfold parse_cell, room_of. intros E.
  destruct (span c) as [sp|]; simpl in *; [|discriminate].
  destruct (string_of sp) as [label|]; simpl in *; [|discriminate].
  destruct (match_digits label) as [room|]; simpl in *; [|discriminate].
  exists room.
  destruct (index (contents c) 1) as [k|]; simpl in *; [|discriminate].
  destruct (as_str k) as [subject|]; simpl in *; [|discriminate].
  destruct (match_range subject) as [[g1 g2]|].
  - destruct (int_of_str (replace_spaces g1)); simpl in *; [|discriminate].
    destruct (int_of_str (replace_spaces g2)); simpl in *; [|discriminate].
    eauto.
  - destruct (match_single subject); simpl in *; [|discriminate].
    eauto.
Qed.

(** X4: when several cells carry the same room label the last one wins:
    the value under a room key is the one its last cell gives alone,
    whatever the earlier cells of that room said. *)
Theorem last_cell_wins
  (markup : string) (section : node) (others before after : list node)
  (c : node) (room : string) (d : price_table) :
  find_all_class "pricing" (BeautifulSoup markup) = section :: others ->
  find_all "td" "" section = before ++ c :: after ->
  room_of c = Some room ->
  Forall (fun c' => room_of c' <> Some room) after ->
  retrieve_flat_prices (Some markup) = Ok (Some d) ->
  exists v,
    parse_cell [] c = Ok [(PStr room, v)]
    /\ dict_get (PStr room) d = Some v.
Proof.
  intros Hsec Hcells Hroom Hafter E.
  unfold retrieve_flat_prices in E. rewrite Hsec in E. simpl in E.
  rewrite Hcells in E.
  apply bind_ok in E. destruct E as (prices & E & Ed). injection Ed as <-.
  rewrite parse_cells_app in E. apply bind_ok in E.
  destruct E as (p1 & _ & E). simpl in E.
  apply bind_ok in E. destruct E as (p2 & Ec & E).
  destruct (parse_cell_value _ _ _ Ec) as (room' & v & Hroom' & Hv).
  assert (room' = room) by congruence. subst room'.
  exists v. split; [apply (Hv [])|].
  rewrite (parse_cells_keeps room after _ _ Hafter E).
  rewrite Hv in Ec. injection Ec as <-.
  apply (dict_get_set_same py_eqb_pyval).
Qed.

(** ** The snapshot: its shape, its averages, its rows *)

Lemma add_entries_shape (items : price_table) : forall s s' : NeighbourhoodPrices,
  add_entries s items = Ok s' ->
  date s' = date s /\ name s' = name s /\ neighb_prices s' = neighb_prices s
  /\ exists ns los his,
       rooms s' = rooms s ++ ns
       /\ min_prices s' = min_prices s ++ los
       /\ max_prices s' = max_prices s ++ his
       /\ Forall2 (fun e n => py_int (fst e) = Ok n) items ns
       /\ Forall2 (fun e lo => py_int (fst (snd e)) = Ok lo) items los
       /\ Forall2 (fun e hi => py_int (snd (snd e)) = Ok hi) items his.
Proof.
  induction items as [|item items IH]; intros s s' E; simpl in E.
  - injection E as <-. repeat split. exists [], [], []. rewrite !app_nil_r.
    repeat split; constructor.
  - apply bind_ok in E. destruct E as (s1 & E1 & E2).
    destruct (add_entry_spec _ _ _ E1) as (n & lo & hi & avg & Hn & Hlo & Hhi & _ & ->).
    destruct (IH _ _ E2) as (D & N & P & ns & los & his & R & Mi & Ma & F1 & F2 & F3).
    cbn [date name neighb_prices rooms min_prices max_prices] in *.
    repeat split; try assumption.
    exists (n :: ns), (lo :: los), (hi :: his).
    rewrite R, Mi, Ma, <- !app_assoc.
    repeat split; try reflexivity; constructor; assumption.
Qed.

(** X5: the constructor keeps the date, the name and the mapping it is
    given, and reads the mapping in its order: [rooms], [min_prices] and
    [max_prices] are [int] of the keys, of the first and of the second
    components, entry by entry, and there is one average per entry. *)
Theorem constructor_shape
  (d : pydate) (n : string) (t : price_table) (s : NeighbourhoodPrices) :
  NeighbourhoodPrices_init d n (Some t) = Ok s ->
  date s = d /\ name s = n /\ neighb_prices s = t
  /\ Forall2 (fun e r => py_int (fst e) = Ok r) t (rooms s)
  /\ Forall2 (fun e lo => py_int (fst (snd e)) = Ok lo) t (min_prices s)
  /\ Forall2 (fun e hi => py_int (snd (snd e)) = Ok hi) t (max_prices s)
  /\ List.length (avg_prices s) = List.length t.
Proof.
  intros E. unfold NeighbourhoodPrices_init in E.
  assert (Havg : List.length (avg_prices s) = List.length t).
  { destruct (add_entries_spec _ _ _ E)
      as (ns0 & los0 & his0 & avgs0 & _ & _ & _ & Av0 & G1 & G2 & _).
    cbn [avg_prices app] in Av0. rewrite Av0.
    apply Forall2_length in G1, G2. rewrite length_map in G1. congruence. }
  destruct (add_entries_shape _ _ _ E)
    as (D & N & P & ns & los & his & R & Mi & Ma & F1 & F2 & F3).
  cbn [date name neighb_prices rooms min_prices max_prices app] in *.
  rewrite R, Mi, Ma. repeat split; assumption.
Qed.

Lemma Qred_whole (m : Z) : Qred (m # 1) = m # 1.
Proof.
  apply Qcanon.Qred_identity. cbn [Qnum Qden]. apply Z.gcd_1_r.
Qed.

Lemma Qred_scaled (m : Z) (k : Z) :
  (0 <= k)%Z -> Qred (Qmake (m * 2 ^ k) (Z.to_pos (2 ^ k))) = m # 1.
Proof.
  intros Hk. rewrite <- (Qred_whole m). apply Qred_complete.
  unfold Qeq. cbn [Qnum Qden].
  rewrite Z2Pos.id by (apply Z.pow_pos_nonneg; lia). lia.
Qed.

(** Twice a price below [2 ^ 53], divided by 2, is the price: the double is
    exact. *)
Lemma py_truediv_twice (m : Z) :
  (0 <= m < 2 ^ 53)%Z -> py_truediv (m + m) 2 = Ok (m # 1).
Proof.
  intros [H0 H53].
  destruct (Z.eq_dec m 0) as [->|Hm]; [reflexivity|].
  assert (Hpos : (0 < m)%Z) by lia.
  replace (m + m)%Z with (2 * m)%Z by lia.
  unfold py_truediv. change (2 =? 0)%Z with false. cbv iota.
  rewrite Z.abs_eq by lia. change (Z.abs 2) with 2%Z.
  replace (Z.sgn (2 * m) * Z.sgn 2 <? 0)%Z with false.
  2:{ symmetry. apply Z.ltb_ge. rewrite Z.sgn_pos by lia.
      change (Z.sgn 2) with 1%Z. lia. }
  unfold round_div.
  replace (2 * m =? 0)%Z with false by (symmetry; apply Z.eqb_neq; lia).
  rewrite Z.log2_double by assumption. change (Z.log2 2) with 1%Z.
  set (L := Z.log2 m).
  assert (HL0 : (0 <= L)%Z) by apply Z.log2_nonneg.
  assert (HL : (L < 53)%Z) by (apply Z.log2_lt_pow2; assumption).
  destruct (Z.log2_spec m Hpos) as [Hlo Hhi]. fold L in Hlo, Hhi.
  replace (Z.succ L - 1 - 53)%Z with (L - 53)%Z by lia.
  cbv zeta.
  replace (0 <=? L - 53)%Z with false by (symmetry; apply Z.leb_gt; lia).
  replace (2 * m * 2 ^ (- (L - 53)) / 2)%Z with (m * 2 ^ (53 - L))%Z.
  2:{ replace (- (L - 53))%Z with (53 - L)%Z by lia.
      replace (2 * m * 2 ^ (53 - L))%Z with (m * 2 ^ (53 - L) * 2)%Z by lia.
      now rewrite Z.div_mul by lia. }
  replace (2 ^ 53 <=? m * 2 ^ (53 - L))%Z with true.
  2:{ symmetry. apply Z.leb_le.
      replace (2 ^ 53)%Z with (2 ^ L * 2 ^ (53 - L))%Z
        by (rewrite <- Z.pow_add_r by lia; f_equal; lia).
      apply Z.mul_le_mono_nonneg_r; [apply Z.pow_nonneg; lia | assumption]. }
  rewrite Z.max_l by lia.
  destruct (Z.eq_dec L 52) as [E52|N52].
  - replace (L - 53 + 1)%Z with 0%Z by lia.
    change (0 <=? 0)%Z with true. cbv iota.
    change (2 * 2 ^ 0)%Z with 2%Z.
    replace (2 * m / 2)%Z with m
      by (replace (2 * m)%Z with (m * 2)%Z by lia; now rewrite Z.div_mul by lia).
    replace ((2 * m) mod 2)%Z with 0%Z
      by (replace (2 * m)%Z with (m * 2)%Z by lia; now rewrite Z.mod_mul by lia).
    change (2 <? 2 * 0)%Z with false. change (2 * 0 =? 2)%Z with false.
    cbn [andb]. cbv iota.
    replace (2 ^ 1024 <=? m * 2 ^ 0)%Z with false.
    2:{ symmetry. apply Z.leb_gt. rewrite Z.pow_0_r, Z.mul_1_r.
        eapply Z.lt_trans; [exact H53|]. reflexivity. }
    now rewrite Z.pow_0_r, Z.mul_1_r, Qred_whole.
  - replace (0 <=? L - 53 + 1)%Z with false by (symmetry; apply Z.leb_gt; lia).
    replace (- (L - 53 + 1))%Z with (52 - L)%Z by lia.
    replace (2 * m * 2 ^ (52 - L) / 2)%Z with (m * 2 ^ (52 - L))%Z
      by (replace (2 * m * 2 ^ (52 - L))%Z with (m * 2 ^ (52 - L) * 2)%Z by lia;
          now rewrite Z.div_mul by lia).
    replace ((2 * m * 2 ^ (52 - L)) mod 2)%Z with 0%Z
      by (replace (2 * m * 2 ^ (52 - L))%Z with (m * 2 ^ (52 - L) * 2)%Z by lia;
          now rewrite Z.mod_mul by lia).
    change (2 <? 2 * 0)%Z with false. change (2 * 0 =? 2)%Z with false.
    cbn [andb]. cbv iota.
    now rewrite Qred_scaled by lia.
Qed.

(** X6: when every minimum of a snapshot is a price from 0 to below
    [2 ^ 53], its averages are its minima, exactly: the average column
    repeats the minimum column. *)
Theorem average_is_min
  (d : pydate) (n : string) (t : price_table) (s : NeighbourhoodPrices) :
  NeighbourhoodPrices_init d n (Some t) = Ok s ->
  Forall (fun lo => (0 <= lo < 2 ^ 53)%Z) (min_prices s) ->
  avg_prices s = map inject_Z (min_prices s).
Proof.
  intros E Hall. unfold NeighbourhoodPrices_init in E.
  destruct (add_entries_spec _ _ _ E)
    as (ns0 & los0 & his0 & avgs0 & _ & Mi0 & _ & Av0 & _ & F & _).
  cbn [min_prices avg_prices app] in Mi0, Av0. rewrite Mi0 in *. rewrite Av0.
  clear Mi0 Av0 E.
  induction F as [|lo avg los avgs Havg _ IH]; [reflexivity|].
  inversion Hall as [|? ? Hlo Hrest]; subst.
  rewrite py_truediv_twice in Havg by assumption. injection Havg as <-.
  cbn [map]. f_equal. apply IH. assumption.
Qed.

Lemma zip_rows_columns (n : nat) : forall i ns ds rs los his avgs,
  List.length ns = n -> List.length ds = n -> List.length rs = n ->
  List.length los = n -> List.length his = n -> List.length avgs = n ->
  let df := zip_rows i ns ds rs los his avgs in
  map row_index df = seq i n
  /\ map row_neighbourhood df = ns /\ map row_date df = ds
  /\ map row_rooms df = rs /\ map row_min df = los
  /\ map row_max df = his /\ map row_avg df = avgs.
Proof.
  induction n as [|n IH]; intros i ns ds rs los his avgs H1 H2 H3 H4 H5 H6;
    destruct ns, ds, rs, los, his, avgs; try discriminate; cbn [zip_rows].
  - repeat split.
  - destruct (IH (S i) ns ds rs los his avgs) as (I1 & I2 & I3 & I4 & I5 & I6 & I7);
      try (simpl in *; congruence).
    cbn [map seq row_index row_neighbourhood row_date row_rooms row_min row_max
         row_avg].
    rewrite I1, I2, I3, I4, I5, I6, I7. repeat split.
Qed.

Lemma repeat_all {A : Type} (x : A) (n : nat) : Forall (fun y => y = x) (repeat x n).
Proof. induction n; simpl; constructor; auto. Qed.

(** X8: for a snapshot the constructor has built, [to_df] does not fail
    and gives one row per entry, labelled from 0 in order, every row
    stamped with the name and the date of the snapshot and holding the
    rooms, minimum, maximum and average of its entry. *)
Theorem snapshot_to_df (s : NeighbourhoodPrices) :
  constructed s ->
  exists df,
    NeighbourhoodPrices_to_df s = Ok df
    /\ List.length df = entries s
    /\ map row_index df = seq 0 (entries s)
    /\ Forall (fun r => row_neighbourhood r = name s /\ row_date r = date s) df
    /\ map row_rooms df = rooms s /\ map row_min df = min_prices s
    /\ map row_max df = max_prices s /\ map row_avg df = avg_prices s.
Proof.
  intros Hc. pose proof (constructed_aligned s Hc) as Ha.
  destruct (frame_of_aligned s Ha) as [Hdf Hlen].
  exists (rows_of s). split; [exact Hdf|]. split; [exact Hlen|].
  destruct Ha as (Hmin & Hmax & Havg).
  destruct (zip_rows_columns (entries s) 0
              (repeat (name s) (List.length (rooms s)))
              (repeat (date s) (List.length (rooms s)))
              (rooms s) (min_prices s) (max_prices s) (avg_prices s))
    as (I1 & I2 & I3 & I4 & I5 & I6 & I7);
    try (unfold entries; rewrite ?repeat_length; congruence).
  unfold rows_of.
  cbn [NeighbourhoodPrices_to_dict Neighbourhood Date Rooms Min_Price Max_Price
       Avg_Price].
  repeat split; try assumption.
  apply Forall_forall. intros r Hr. split.
  - pose proof (repeat_all (name s) (List.length (rooms s))) as R.
    rewrite <- I2 in R. rewrite Forall_forall in R.
    apply R. now apply in_map.
  - pose proof (repeat_all (date s) (List.length (rooms s))) as R.
    rewrite <- I3 in R. rewrite Forall_forall in R.
    apply R. now apply in_map.
Qed.

(** ** The collection: what a run gathers *)

Lemma dict_set_Forall_entry {V : Type} (Q : string * V -> Prop) (k : string) (v : V)
  (d : dict string V) :
  Q (k, v) -> Forall Q d -> Forall Q (dict_set k v d).
Proof.
  intros Hv. induction 1 as [|[k' v'] d Hk Hd IH]; simpl.
  - repeat constructor. assumption.
  - destruct (String.eqb_spec k k') as [<-|_]; constructor; assumption.
Qed.

(** What holds of every entry of [results]: it sits under a non-empty
    identifier of the list [given], and is a snapshot the constructor built
    with that identifier as its name and a string as its date. *)
Lemma visit_gathers (given : list string) (city neighb : string)
  (st st' : frame) (o : result unit) :
  let Q := fun kv : string * NeighbourhoodPrices =>
             In (fst kv) given /\ fst kv <> "" /\ name (snd kv) = fst kv
             /\ constructed (snd kv) /\ exists x, date (snd kv) = DateStr x in
  visit city neighb st = (o, st') ->
  In neighb given ->
  Forall Q (f_results st) ->
  Forall Q (f_results st').
Proof.
  intros Q. unfold visit, remove_neighb, truthy. intros E Hin H.
  destruct (String.eqb_spec neighb "") as [->|N]; cbn [negb] in E.
  - destruct (list_remove "" (f_neighbs st)); injection E as <- <-; assumption.
  - destruct (datetime_now (world (f_env st))) as [t w].
    destruct (get_page_content _ _ _) as [[html_content|e] env1].
    + destruct (truthy_content html_content).
      * destruct (retrieve_flat_prices html_content) as [prices|e].
        -- destruct (NeighbourhoodPrices_init _ neighb prices) as [snapshot|e] eqn:I;
             injection E as <- <-; cbn [f_results]; [|assumption].
           apply dict_set_Forall_entry; [|assumption].
           destruct prices as [table|]; [|discriminate I].
           pose proof I as I0. unfold NeighbourhoodPrices_init in I0.
           destruct (add_entries_shape _ _ _ I0) as (D & Nm & _).
           cbn [date name] in D, Nm.
           unfold Q. cbn [fst snd]. repeat split; auto.
           ++ red. eauto.
           ++ eauto.
        -- injection E as <- <-. assumption.
      * destruct (list_remove neighb (f_neighbs st)); injection E as <- <-; assumption.
    + injection E as <- <-. assumption.
Qed.

Lemma visit_incl (city neighb : string) (st st' : frame) (o : result unit) :
  visit city neighb st = (o, st') -> incl (f_neighbs st') (f_neighbs st).
Proof.
  intros E. apply visit_cases in E.
  destruct E as [(_ & _ & _ & _ & [(l' & R & -> & _) | (_ & -> & _)])
                | (_ & _ & _ & [-> | R])];
    try apply incl_refl; eapply list_remove_incl; eassumption.
Qed.

Lemma for_neighbs_gathers (given : list string) (city : string) (fuel : nat) :
  let Q := fun kv : string * NeighbourhoodPrices =>
             In (fst kv) given /\ fst kv <> "" /\ name (snd kv) = fst kv
             /\ constructed (snd kv) /\ exists x, date (snd kv) = DateStr x in
  forall (i : nat) (st st' : frame) (o : result unit),
  for_neighbs fuel city i st = Some (o, st') ->
  incl (f_neighbs st) given ->
  Forall Q (f_results st) ->
  Forall Q (f_results st').
Proof.
  intros Q. induction fuel as [|fuel IH]; intros i st st' o E Hinc H; [discriminate|].
  rewrite for_neighbs_unfold in E.
  destruct (nth_error (f_neighbs st) i) as [neighb|] eqn:Hi.
  2:{ injection E as <- <-. assumption. }
  assert (Hin : In neighb given) by (apply Hinc; eapply nth_error_In; eassumption).
  destruct (visit city neighb st) as [[u|e] st1] eqn:V.
  - eapply IH; [eassumption| |].
    + eapply incl_tran; [eapply visit_incl; eassumption | assumption].
    + eapply (visit_gathers given); eassumption.
  - injection E as <- <-. eapply (visit_gathers given); eassumption.
Qed.

Lemma visit_keys_nodup (city neighb : string) (st st' : frame) (o : result unit) :
  visit city neighb st = (o, st') ->
  NoDup (dict_keys (f_results st)) -> NoDup (dict_keys (f_results st')).
Proof.
  unfold visit, remove_neighb. intros E H.
  destruct (truthy neighb).
  - destruct (datetime_now (world (f_env st))) as [t w].
    destruct (get_page_content _ _ _) as [[html_content|e] env1].
    + destruct (truthy_content html_content).
      * destruct (retrieve_flat_prices html_content) as [prices|e].
        -- destruct (NeighbourhoodPrices_init _ neighb prices) as [snapshot|e];
             injection E as <- <-; cbn [f_results]; [|assumption].
           now apply (dict_set_nodup py_eqb_string).
        -- injection E as <- <-. assumption.
      * destruct (list_remove neighb (f_neighbs st)); injection E as <- <-; assumption.
    + injection E as <- <-. assumption.
  - destruct (list_remove neighb (f_neighbs st)); injection E as <- <-; assumption.
Qed.

Lemma for_neighbs_keys_nodup (city : string) (fuel : nat) :
  forall (i : nat) (st st' : frame) (o : result unit),
  for_neighbs fuel city i st = Some (o, st') ->
  NoDup (dict_keys (f_results st)) -> NoDup (dict_keys (f_results st')).
Proof.
  induction fuel as [|fuel IH]; intros i st st' o E H; [discriminate|].
  rewrite for_neighbs_unfold in E.
  destruct (nth_error (f_neighbs st) i) as [neighb|].
  2:{ injection E as <- <-. assumption. }
  destruct (visit city neighb st) as [[u|e] st1] eqn:V.
  - eapply IH; [eassumption|]. eapply visit_keys_nodup; eassumption.
  - injection E as <- <-. eapply visit_keys_nodup; eassumption.
Qed.

Lemma run_results_gathered (self : CityPrices) (env : Env World) :
  Forall (fun kv => In (fst kv) (neighbs self) /\ fst kv <> ""
                    /\ name (snd kv) = fst kv /\ constructed (snd kv)
                    /\ exists x, date (snd kv) = DateStr x)
    (run_results self env).
Proof.
  unfold run_results, collect.
  destruct (for_neighbs _ _ _ _) as [[o st]|] eqn:L; [|constructor].
  eapply (for_neighbs_gathers (neighbs self)); [exact L | apply incl_refl | constructor].
Qed.

(** X9: whatever the site answers, the snapshots a call of [get_prices]
    gathers sit under distinct keys; each key is a non-empty identifier of
    the list the call started with and is the name of its snapshot, which
    the constructor built and dated with a string. *)
Theorem gathered_snapshots (self : CityPrices) (env : Env World) :
  NoDup (dict_keys (run_results self env))
  /\ Forall (fun kv => In (fst kv) (neighbs self) /\ fst kv <> ""
                       /\ name (snd kv) = fst kv /\ constructed (snd kv)
                       /\ exists x, date (snd kv) = DateStr x)
       (run_results self env).
Proof.
  unfold run_results, collect.
  destruct (for_neighbs _ _ _ _) as [[o st]|] eqn:L; [|split; constructor].
  split.
  - eapply for_neighbs_keys_nodup; [exact L | constructor].
  - eapply (for_neighbs_gathers (neighbs self)); [exact L | apply incl_refl | constructor].
Qed.

(** X10: no snapshot that [get_prices] gathers can be rendered: its date
    is the string [now], which has no [strftime], so [__str__] raises
    [AttributeError] on every one of them. *)
Theorem gathered_snapshots_do_not_render (self : CityPrices) (env : Env World) :
  Forall (fun kv => NeighbourhoodPrices_str (snd kv) = Raise AttributeError)
    (run_results self env).
Proof.
  pose proof (run_results_gathered self env) as H.
  eapply Forall_impl; [|exact H].
  intros [k s] (_ & _ & _ & _ & x & Hx). cbn [snd] in *.
  unfold NeighbourhoodPrices_str, header. now rewrite Hx.
Qed.

(** ** The collection: what a call can and cannot do *)

Lemma for_neighbs_length (city : string) (fuel : nat) :
  forall (i : nat) (st st' : frame) (o : result unit),
  for_neighbs fuel city i st = Some (o, st') ->
  List.length (f_neighbs st') <= List.length (f_neighbs st).
Proof.
  induction fuel as [|fuel IH]; intros i st st' o E; [discriminate|].
  rewrite for_neighbs_unfold in E.
  destruct (nth_error (f_neighbs st) i) as [neighb|].
  2:{ injection E as <- <-. lia. }
  destruct (visit city neighb st) as [[u|e] st1] eqn:V.
  - apply IH in E. apply visit_length in V. lia.
  - injection E as <- <-. apply visit_length in V. lia.
Qed.

(** X12: a call of [get_prices] keeps the city, never adds to the list of
    identifiers (what is left is part of what was there), asks the site
    only for non-empty identifiers of that list, under its own city, and
    either leaves the dated mapping alone or sets one key of it, to the
    snapshots gathered. *)
Theorem get_prices_footprint (self self' : CityPrices) (env env' : Env World)
  (o : result unit) :
  get_prices self env = Some (o, self', env') ->
  location self' = location self
  /\ incl (neighbs self') (neighbs self)
  /\ List.length (neighbs self') <= List.length (neighbs self)
  /\ (exists asked,
        fetched env' = fetched env ++ asked
        /\ Forall (fun p => fst p = location self /\ snd p <> ""
                            /\ In (snd p) (neighbs self)) asked)
  /\ (data self' = data self
      \/ exists now, data self' = dict_set now (run_results self env) (data self)).
Proof.
  intros E.
  destruct (get_prices_trace _ _ _ _ _ E) as (asked & F & All & Hloc & _).
  split; [assumption|].
  unfold get_prices, run_results, collect in *.
  destruct (for_neighbs _ _ _ _) as [[o1 st]|] eqn:L; [|discriminate].
  pose proof (for_neighbs_length _ _ _ _ _ _ L) as Hlen.
  destruct (for_neighbs_trace _ _ _ _ _ _ L) as (_ & _ & _ & Inc & _).
  cbn [f_neighbs] in Hlen, Inc.
  assert (Hn : neighbs self' = f_neighbs st).
  { destruct o1; [destruct (f_now st)|]; injection E as _ <- _; reflexivity. }
  rewrite Hn. split; [assumption|]. split; [assumption|].
  split; [exists asked; auto|].
  destruct o1; [destruct (f_now st) as [now|]|]; injection E as _ <- _; cbn [data]; eauto.
Qed.

Lemma list_remove_in (x : string) (l : list string) :
  In x l -> exists l', list_remove x l = Some l'.
Proof.
  intros H. apply In_nth_error in H. destruct H as [i H].
  eapply list_remove_at; eassumption.
Qed.

Lemma list_remove_middle (x : string) (l r : list string) :
  ~ In x l -> list_remove x (l ++ x :: r) = Some (l ++ r).
Proof.
  induction l as [|y l IH]; simpl; intros N.
  - now rewrite String.eqb_refl.
  - destruct (String.eqb_spec x y) as [->|_]; [tauto|].
    rewrite IH by tauto. reflexivity.
Qed.

Lemma nth_error_middle {A : Type} (l r : list A) (x : A) :
  nth_error (l ++ x :: r) (List.length l) = Some x.
Proof. induction l; simpl; auto. Qed.

Lemma nth_error_past {A : Type} (l : list A) (i : nat) :
  List.length l <= i -> nth_error l i = None.
Proof. apply nth_error_None. Qed.

(** One pass of the body on an identifier the site refuses. *)
Lemma visit_refused (city neighb : string) (st : frame) :
  site_refuses -> neighb <> "" -> In neighb (f_neighbs st) ->
  exists l' now env1,
    list_remove neighb (f_neighbs st) = Some l'
    /\ visit city neighb st
       = (Ok tt, {| f_neighbs := l'; f_results := f_results st;
                    f_now := Some now; f_env := env1 |})
    /\ fetched env1 = fetched (f_env st) ++ [(city, neighb)].
Proof.
  intros Hsite N Hin. destruct (list_remove_in _ _ Hin) as [l' Hl'].
  unfold visit, truthy. destruct (String.eqb_spec neighb "") as [|_]; [contradiction|].
  cbn [negb]. destruct (datetime_now (world (f_env st))) as [t w].
  unfold get_page_content. cbn [world stdout fetched].
  destruct (Hsite ("https://www.investkomfort.pl/mieszkania-" ++ city ++ "/"
                   ++ neighb ++ "/")%string w) as (r & w' & -> & Hr).
  apply Z.eqb_neq in Hr. rewrite Hr. cbn [truthy_content].
  unfold remove_neighb. rewrite Hl'.
  do 3 eexists. split; [reflexivity|]. split; [reflexivity|]. reflexivity.
Qed.

Lemma for_neighbs_refused (city : string) (fuel : nat) :
  site_refuses ->
  forall (kept rest : list string) (st : frame),
  f_neighbs st = kept ++ rest ->
  NoDup (kept ++ rest) ->
  Forall (fun neighb => neighb <> "") rest ->
  List.length rest < fuel ->
  exists st',
    for_neighbs fuel city (List.length kept) st = Some (Ok tt, st')
    /\ f_neighbs st' = kept ++ odds rest
    /\ f_results st' = f_results st
    /\ fetched (f_env st')
       = fetched (f_env st) ++ map (fun neighb => (city, neighb)) (evens rest)
    /\ (rest = [] -> st' = st)
    /\ (rest <> [] -> f_now st' <> None).
Proof.
  intros Hsite. induction fuel as [|fuel IH];
    intros kept rest st Hl ND Hne Hfuel; [lia|].
  rewrite for_neighbs_unfold, Hl.
  destruct rest as [|a rest].
  - rewrite nth_error_past by (rewrite app_nil_r; lia).
    exists st. rewrite app_nil_r in *. cbn. rewrite app_nil_r.
    repeat split; auto; congruence.
  - rewrite nth_error_middle.
    inversion Hne as [|? ? Ha Hrest]; subst.
    destruct (visit_refused city a st Hsite Ha) as (l' & now & env1 & Hrem & -> & Hf).
    { rewrite Hl. apply in_or_app. right. now left. }
    rewrite Hl, list_remove_middle in Hrem
      by (intros Hin; apply NoDup_remove_2 in ND; apply ND, in_or_app; now left).
    injection Hrem as <-.
    apply NoDup_remove_1 in ND.
    destruct rest as [|b rest].
    + (* the last identifier: the list is over *)
      destruct fuel as [|fuel]; [simpl in Hfuel; lia|].
      rewrite for_neighbs_unfold. cbn [f_neighbs].
      rewrite nth_error_past by (rewrite app_nil_r; lia).
      eexists. split; [reflexivity|]. cbn [f_neighbs f_results f_env f_now odds evens map].
      repeat split; auto; congruence.
    + (* the identifier after it moves into its place and is stepped over *)
      inversion Hrest as [|? ? Hb Hrest']; subst.
      destruct (IH (kept ++ [b]) rest
                  {| f_neighbs := kept ++ b :: rest; f_results := f_results st;
                     f_now := Some now; f_env := env1 |})
        as (st' & E & Hn & Hr & Hfe & _ & _).
      * cbn [f_neighbs]. now rewrite <- app_assoc.
      * now rewrite <- app_assoc.
      * assumption.
      * simpl in Hfuel |- *. lia.
      * rewrite length_app, Nat.add_1_r in E.
        exists st'. split; [exact E|].
        cbn [f_neighbs f_results f_env f_now odds evens map] in *.
        rewrite Hn, Hr, Hfe, Hf, <- !app_assoc. cbn [app].
        repeat split; try congruence.
        intros _. 
        destruct (for_neighbs_trace _ _ _ _ _ _ E) as (extra & _ & _ & _ & _ & Hnow).
        apply Hnow. left. discriminate.
Qed.

(** X13: when the site refuses every request and the list holds distinct
    non-empty identifiers, [get_prices] asks for the identifiers at the
    even positions only (0, 2, 4, ...) and drops them; those at the odd
    positions are stepped over, never asked for, and stay in the list.  No
    snapshot is gathered; a non-empty list ends with an empty mapping
    written under the date. *)
Theorem get_prices_site_refuses (self : CityPrices) (env : Env World) :
  site_refuses ->
  NoDup (neighbs self) ->
  Forall (fun neighb => neighb <> "") (neighbs self) ->
  exists o self' env',
    get_prices self env = Some (o, self', env')
    /\ neighbs self' = odds (neighbs self)
    /\ fetched env'
       = fetched env ++ map (fun neighb => (location self, neighb)) (evens (neighbs self))
    /\ run_results self env = []
    /\ (neighbs self <> [] ->
        o = Ok tt /\ exists now, data self' = dict_set now [] (data self))
    /\ (neighbs self = [] -> o = Raise UnboundLocalError /\ data self' = data self).
Proof.
  intros Hsite ND Hne.
  destruct (for_neighbs_refused (location self) (S (List.length (neighbs self))) Hsite
              [] (neighbs self)
              {| f_neighbs := neighbs self; f_results := []; f_now := None;
                 f_env := env |})
    as (st & E & Hn & Hr & Hf & Hnil & Hcons); auto.
  cbn [List.length app f_neighbs f_results f_env] in *.
  unfold get_prices, run_results, collect. rewrite E.
  destruct (f_now st) as [now|] eqn:Hnow.
  - do 3 eexists. split; [reflexivity|]. cbn [neighbs data].
    split; [exact Hn|]. split; [exact Hf|]. split; [exact Hr|]. split.
    + intros _. split; [reflexivity|]. exists now. now rewrite Hr.
    + intros Hl. rewrite (Hnil Hl) in Hnow. discriminate.
  - do 3 eexists. split; [reflexivity|]. cbn [neighbs data].
    split; [exact Hn|]. split; [exact Hf|]. split; [exact Hr|]. split.
    + intros Hl. destruct (Hcons Hl). reflexivity.
    + intros _. split; reflexivity.
Qed.

Lemma skipn_at {A : Type} (l : list A) : forall (i : nat) (a : A),
  nth_error l i = Some a -> skipn i l = a :: skipn (S i) l.
Proof.
  induction l as [|x l IH]; intros [|i] a E; simpl in E; try discriminate.
  - now injection E as ->.
  - apply (IH i a E).
Qed.

Lemma skipn_past {A : Type} (l : list A) (i : nat) :
  nth_error l i = None -> skipn i l = [].
Proof. intros E. apply skipn_all2. now apply nth_error_None. Qed.

Lemma dict_get_in {V : Type} (k : string) (v : V) (d : dict string V) :
  dict_get k d = Some v -> In (k, v) d.
Proof.
  induction d as [|[k' v'] d IH]; simpl; [discriminate|].
  destruct (String.eqb_spec k k') as [<-|_].
  - intros E. injection E as ->. now left.
  - intros E. right. now apply IH.
Qed.

Lemma dict_get_set_stays {V : Type} (n k : string) (v : V) (d : dict string V) :
  n = k \/ dict_get n d <> None -> dict_get n (dict_set k v d) <> None.
Proof.
  destruct (String.eqb_spec n k) as [->|N].
  - intros _. now rewrite (dict_get_set_same py_eqb_string).
  - intros [E|H]; [contradiction|].
    now rewrite (dict_get_set_other py_eqb_string) by assumption.
Qed.

(** One pass of the body on an identifier the site serves. *)
Lemma visit_served (city neighb : string) (st : frame) :
  site_serves -> neighb <> "" ->
  exists now env1 s,
    visit city neighb st
    = (Ok tt, {| f_neighbs := f_neighbs st;
                 f_results := dict_set neighb s (f_results st);
                 f_now := Some now; f_env := env1 |})
    /\ fetched env1 = fetched (f_env st) ++ [(city, neighb)]
    /\ stdout env1 = stdout (f_env st).
Proof.
  intros Hsite N.
  unfold visit, truthy. destruct (String.eqb_spec neighb "") as [|_]; [contradiction|].
  cbn [negb]. destruct (datetime_now (world (f_env st))) as [t w].
  unfold get_page_content. cbn [world stdout fetched].
  destruct (Hsite ("https://www.investkomfort.pl/mieszkania-" ++ city ++ "/"
                   ++ neighb ++ "/")%string w)
    as (r & w' & table & -> & Hr & Hc & Hparse & Hbuild).
  rewrite Hr. change (200 =? 200)%Z with true. cbv iota.
  cbn [truthy_content]. unfold truthy.
  destruct (String.eqb_spec (content r) "") as [|_]; [contradiction|].
  cbn [negb]. rewrite Hparse.
  destruct (Hbuild (DateStr (strftime t)) neighb) as [s ->].
  do 3 eexists. split; [reflexivity|]. split; reflexivity.
Qed.

Lemma for_neighbs_served (city : string) (fuel : nat) :
  site_serves ->
  forall (i : nat) (st : frame),
  Forall (fun neighb => neighb <> "") (skipn i (f_neighbs st)) ->
  List.length (f_neighbs st) - i < fuel ->
  exists st',
    for_neighbs fuel city i st = Some (Ok tt, st')
    /\ f_neighbs st' = f_neighbs st
    /\ fetched (f_env st')
       = fetched (f_env st)
         ++ map (fun neighb => (city, neighb)) (skipn i (f_neighbs st))
    /\ stdout (f_env st') = stdout (f_env st)
    /\ (forall n, In n (skipn i (f_neighbs st)) \/ dict_get n (f_results st) <> None ->
                  dict_get n (f_results st') <> None)
    /\ (f_now st <> None \/ skipn i (f_neighbs st) <> [] -> f_now st' <> None).
Proof.
  intros Hsite. induction fuel as [|fuel IH]; intros i st Hne Hfuel; [lia|].
  rewrite for_neighbs_unfold.
  destruct (nth_error (f_neighbs st) i) as [a|] eqn:Hi.
  - rewrite (skipn_at _ _ _ Hi) in *.
    inversion Hne as [|? ? Ha Hrest]; subst.
    destruct (visit_served city a st Hsite Ha) as (now & env1 & s & -> & Hf & Hout).
    assert (Hlt : i < List.length (f_neighbs st)) by (apply nth_error_Some; congruence).
    destruct (IH (S i) {| f_neighbs := f_neighbs st;
                          f_results := dict_set a s (f_results st);
                          f_now := Some now; f_env := env1 |})
      as (st' & E & Hn & Hfe & Hso & Hget & Hnow); cbn [f_neighbs]; [assumption | lia |].
    cbn [f_neighbs f_results f_now f_env] in *.
    exists st'. split; [exact E|]. split; [exact Hn|].
    split; [rewrite Hfe, Hf, <- app_assoc; reflexivity|].
    split; [congruence|]. split.
    + intros n [[->|Hin]|Hg]; apply Hget; auto;
        right; apply dict_get_set_stays; auto.
    + intros _. apply Hnow. left. discriminate.
  - rewrite (skipn_past _ _ Hi). exists st. cbn [map]. rewrite app_nil_r.
    repeat split; auto.
    + intros n [[]|H]; assumption.
    + intros [H|H]; [assumption | congruence].
Qed.

(** X14: when the site serves every request with a page that parses, and
    the list holds non-empty identifiers, one at least, [get_prices] ends
    normally: it asks for every identifier once, in the order of the list,
    prints nothing, leaves the list as it was, and writes under one date a
    mapping that holds, for every identifier, a snapshot of that name. *)
Theorem get_prices_site_serves (self : CityPrices) (env : Env World) :
  site_serves ->
  Forall (fun neighb => neighb <> "") (neighbs self) ->
  neighbs self <> [] ->
  exists self' env' now,
    get_prices self env = Some (Ok tt, self', env')
    /\ neighbs self' = neighbs self
    /\ fetched env'
       = fetched env ++ map (fun neighb => (location self, neighb)) (neighbs self)
    /\ stdout env' = stdout env
    /\ data self' = dict_set now (run_results self env) (data self)
    /\ forall n, In n (neighbs self) ->
         exists s, dict_get n (run_results self env) = Some s
                   /\ name s = n /\ constructed s.
Proof.
  intros Hsite Hne Hl.
  destruct (for_neighbs_served (location self) (S (List.length (neighbs self))) Hsite 0
              {| f_neighbs := neighbs self; f_results := []; f_now := None;
                 f_env := env |})
    as (st & E & Hn & Hf & Hout & Hget & Hnow); cbn [f_neighbs skipn]; [assumption | lia |].
  cbn [f_neighbs f_results f_now f_env skipn] in *.
  pose proof (run_results_gathered self env) as Hall.
  unfold get_prices, run_results, collect in *. rewrite E in *.
  destruct (f_now st) as [now|] eqn:Hst; [|exfalso; apply Hnow; auto].
  do 3 eexists. split; [reflexivity|]. cbn [neighbs data].
  split; [exact Hn|]. split; [exact Hf|]. split; [exact Hout|].
  split; [reflexivity|].
  intros n Hin. specialize (Hget n (or_introl Hin)).
  destruct (dict_get n (f_results st)) as [s|] eqn:G; [|congruence].
  exists s. split; [reflexivity|].
  apply dict_get_in in G. rewrite Forall_forall in Hall.
  destruct (Hall _ G) as (_ & _ & Hname & Hc & _). auto.
Qed.

(** ** The flat table of a collection with several dates *)

Lemma last_frames_last (earlier : dict string snapshots) (day0 : string)
  (neighbs_dict : snapshots) : forall results,
  Forall (fun item => Forall (fun kv => constructed (snd kv)) (snd item))
    (earlier ++ [(day0, neighbs_dict)]) ->
  last_frames results (earlier ++ [(day0, neighbs_dict)])
  = Ok (Some (map (fun kv => rows_of (snd kv)) neighbs_dict)).
Proof.
  induction earlier as [|[d snaps] earlier IH]; intros results H;
    inversion H as [|? ? Hhead Hrest]; subst; cbn [app last_frames snd] in *.
  - now rewrite (frames_of_constructed _ Hhead).
  - rewrite (frames_of_constructed _ Hhead). cbn [bind]. now apply IH.
Qed.

(** X15: whatever dates a collection holds, [to_df] gives the rows of the
    snapshots of the last date only, each date rebinding [results] in the
    loop; when the mapping of the last date is empty it raises
    [ValueError], [pd.concat] having nothing to concatenate. *)
Theorem to_df_last_date (self : CityPrices) (earlier : dict string snapshots)
  (day0 : string) (neighbs_dict : snapshots) :
  data self = earlier ++ [(day0, neighbs_dict)] ->
  Forall (fun item => Forall (fun kv => constructed (snd kv)) (snd item)) (data self) ->
  (neighbs_dict <> [] ->
   CityPrices_to_df self
   = Ok (Some (List.concat (map (fun kv => rows_of (snd kv)) neighbs_dict))))
  /\ (neighbs_dict = [] -> CityPrices_to_df self = Raise ValueError).
Proof.
  intros Hdata Hall. unfold CityPrices_to_df. rewrite Hdata in *.
  rewrite (last_frames_last _ _ _ None Hall).
  destruct (earlier ++ [(day0, neighbs_dict)]) eqn:E.
  { destruct earlier; discriminate E. }
  cbn [bind]. split; intros H.
  - destruct neighbs_dict; [congruence | reflexivity].
  - rewrite H. reflexivity.
Qed.

Lemma refused_run (self : CityPrices) (env : Env World) :
  site_refuses ->
  NoDup (neighbs self) ->
  Forall (fun neighb => neighb <> "") (neighbs self) ->
  neighbs self <> [] ->
  exists self' env' now,
    get_prices self env = Some (Ok tt, self', env')
    /\ fetched env'
       = fetched env ++ map (fun neighb => (location self, neighb)) (evens (neighbs self))
    /\ data self' = dict_set now [] (data self).
Proof.
  intros Hsite ND Hne Hl.
  destruct (for_neighbs_refused (location self) (S (List.length (neighbs self))) Hsite
              [] (neighbs self)
              {| f_neighbs := neighbs self; f_results := []; f_now := None;
                 f_env := env |})
    as (st & E & _ & Hr & Hf & _ & Hcons); auto.
  cbn [List.length app f_neighbs f_results f_env] in *.
  unfold get_prices, collect. rewrite E.
  destruct (f_now st) as [now|] eqn:Hnow; [|destruct (Hcons Hl); reflexivity].
  do 3 eexists. split; [reflexivity|]. cbn [data].
  split; [exact Hf | now rewrite Hr].
Qed.

Lemma to_df_empty_date (self : CityPrices) (day0 : string) :
  data self = [(day0, [])] -> CityPrices_to_df self = Raise ValueError.
Proof.
  intros D. unfold CityPrices_to_df. rewrite D. reflexivity.
Qed.

(** X16: a fresh collection of distinct non-empty identifiers, one at
    least, whose site refuses every request: [get_prices] ends normally,
    and [to_df] then raises [ValueError], the date holding no snapshot. *)
Theorem to_df_after_refused_run (city : string) (available : list string)
  (env : Env World) :
  site_refuses ->
  NoDup available ->
  Forall (fun neighb => neighb <> "") available ->
  available <> [] ->
  exists self' env',
    get_prices (CityPrices_init city available) env = Some (Ok tt, self', env')
    /\ CityPrices_to_df self' = Raise ValueError.
Proof.
  intros Hsite ND Hne Hl.
  destruct (refused_run (CityPrices_init city available) env Hsite ND Hne Hl)
    as (self' & env' & now & E & _ & Hdata).
  cbn [data CityPrices_init dict_set] in Hdata.
  exists self', env'. split; [exact E|].
  exact (to_df_empty_date self' now Hdata).
Qed.

(** ** [update_prices] *)

Lemma dict_set_twice {V : Type} (k : string) (v w : V) (d : dict string V) :
  dict_set k v (dict_set k w d) = dict_set k v d.
Proof.
  induction d as [|[k' v'] d IH]; simpl.
  - now rewrite String.eqb_refl.
  - destruct (String.eqb k k') eqn:E; simpl; rewrite E; [reflexivity | now rewrite IH].
Qed.

(** X18: after [update_prices] the date holds the snapshots given, once,
    the other dates hold what they held, the city and its list are as they
    were, and a second update of the same date replaces the first. *)
Theorem update_prices_lookup (self : CityPrices) (day0 : string)
  (given again : snapshots) :
  NoDup (dict_keys (data self)) ->
  dict_get day0 (data (update_prices self day0 given)) = Some given
  /\ dict_count day0 (data (update_prices self day0 given)) = 1
  /\ (forall other, other <> day0 ->
        dict_get other (data (update_prices self day0 given))
        = dict_get other (data self))
  /\ NoDup (dict_keys (data (update_prices self day0 given)))
  /\ location (update_prices self day0 given) = location self
  /\ neighbs (update_prices self day0 given) = neighbs self
  /\ update_prices (update_prices self day0 given) day0 again
     = update_prices self day0 again.
Proof.
  intros ND. unfold update_prices. cbn [data location neighbs].
  split; [apply (dict_get_set_same py_eqb_string)|].
  split; [now apply (dict_count_set py_eqb_string)|].
  split; [intros other N; now apply (dict_get_set_other py_eqb_string)|].
  split; [now apply (dict_set_nodup py_eqb_string)|].
  split; [reflexivity|]. split; [reflexivity|].
  now rewrite dict_set_twice.
Qed.

(** ** The aggregation of line 174 and [main] *)

Lemma relabel_from (df : DataFrame) : forall i : nat,
  let out := drop_index_column (combine (seq i (List.length df)) df) in
  map row_index out = seq i (List.length df)
  /\ map row_data out = map row_data df
  /\ List.length out = List.length df.
Proof.
  induction df as [|r df IH]; intros i; cbn [List.length seq combine drop_index_column map].
  - repeat split.
  - destruct (IH (S i)) as (I1 & I2 & I3). unfold drop_index_column in *.
    rewrite I1, I2, I3. repeat split.
Qed.

(** X19: the aggregation [pd.concat(...).reset_index().drop(columns="index")]
    of tables, one of them at least not [None], gives the rows of all the
    tables in their order, with their six columns unchanged and labelled
    0, 1, 2, ... without a gap; with no table at all it raises
    [ValueError]. *)
Theorem aggregate_rows (tables : list (option DataFrame)) :
  (frames_among tables <> [] ->
   exists df,
     aggregate tables = Ok df
     /\ map row_data df = map row_data (List.concat (frames_among tables))
     /\ map row_index df = seq 0 (List.length df)
     /\ List.length df = list_sum (map (@List.length table_row) (frames_among tables)))
  /\ (frames_among tables = [] -> aggregate tables = Raise ValueError).
Proof.
  unfold aggregate, pd_concat_objs. fold (frames_among tables).
  split; intros H.
  - destruct (frames_among tables) as [|f fs] eqn:E; [congruence|].
    cbn [bind]. eexists. split; [reflexivity|].
    unfold reset_index.
    destruct (relabel_from (List.concat (f :: fs)) 0) as (I1 & I2 & I3).
    rewrite I3. split; [exact I2|]. split; [exact I1|].
    clear. induction (f :: fs) as [|g gs IH]; cbn [List.concat map list_sum]; [reflexivity|].
    now rewrite length_app, IH.
  - now rewrite H.
Qed.

Lemma main_lists_ok :
  (NoDup ["portova"; "silva"; "nowe-orlowo"; "nowe-kolibki"]
   /\ Forall (fun neighb => neighb <> "")
        ["portova"; "silva"; "nowe-orlowo"; "nowe-kolibki"])
  /\ (NoDup ["okrzei"] /\ Forall (fun neighb => neighb <> "") ["okrzei"])
  /\ (NoDup ["botanica"; "nadmorski-dwor"; "gdanska"]
      /\ Forall (fun neighb => neighb <> "") ["botanica"; "nadmorski-dwor"; "gdanska"]).
Proof.
  repeat split;
    repeat (constructor; [simpl; try (intros H; intuition discriminate);
                          try discriminate|]);
    constructor.
Qed.

(** X20: when the site refuses every request [main] asks for five of the
    eight pages (every second identifier of each city), then raises
    [ValueError] at the first [to_df] and saves nothing. *)
Theorem main_site_refuses (env : Env World) (files : disk) :
  site_refuses ->
  exists env',
    main env files = Some (Raise ValueError, env', files)
    /\ fetched env'
       = fetched env ++ [("gdynia", "portova"); ("gdynia", "nowe-orlowo");
                         ("sopot", "okrzei");
                         ("gdansk", "botanica"); ("gdansk", "gdanska")].
Proof.
  intros Hsite.
  destruct main_lists_ok as ((ND1 & NE1) & (ND2 & NE2) & (ND3 & NE3)).
  destruct (refused_run
              (CityPrices_init "gdynia" ["portova"; "silva"; "nowe-orlowo"; "nowe-kolibki"])
              env Hsite ND1 NE1 ltac:(discriminate))
    as (c1 & env1 & now1 & E1 & F1 & D1).
  destruct (refused_run (CityPrices_init "sopot" ["okrzei"])
              env1 Hsite ND2 NE2 ltac:(discriminate))
    as (c2 & env2 & now2 & E2 & F2 & D2).
  destruct (refused_run
              (CityPrices_init "gdansk" ["botanica"; "nadmorski-dwor"; "gdanska"])
              env2 Hsite ND3 NE3 ltac:(discriminate))
    as (c3 & env3 & now3 & E3 & F3 & D3).
  cbn [CityPrices_init neighbs location data dict_set evens map] in *.
  exists env3. unfold main. cbn [CityPrices_init]. rewrite E1, E2, E3.
  rewrite (to_df_empty_date c1 now1 D1). cbn [bind]. split; [reflexivity|].
  rewrite F3, F2, F1, <- !app_assoc. reflexivity.
Qed.

Lemma served_table (self : CityPrices) (env : Env World) :
  site_serves ->
  Forall (fun neighb => neighb <> "") (neighbs self) ->
  neighbs self <> [] ->
  data self = [] ->
  exists self' env' gathered,
    get_prices self env = Some (Ok tt, self', env')
    /\ fetched env'
       = fetched env ++ map (fun neighb => (location self, neighb)) (neighbs self)
    /\ stdout env' = stdout env
    /\ CityPrices_to_df self'
       = Ok (Some (List.concat (map (fun kv => rows_of (snd kv)) gathered)))
    /\ gathered <> []
    /\ Forall (fun kv => constructed (snd kv)) gathered
    /\ forall n, In n (neighbs self) ->
         exists s, dict_get n gathered = Some s /\ name s = n.
Proof.
  intros Hsite Hne Hl Hdata.
  destruct (for_neighbs_served (location self) (S (List.length (neighbs self))) Hsite 0
              {| f_neighbs := neighbs self; f_results := []; f_now := None;
                 f_env := env |})
    as (st & E & _ & F & Hout & Hget & Hnow); cbn [f_neighbs skipn]; [assumption | lia |].
  cbn [f_neighbs f_results f_now f_env skipn] in *.
  pose proof (run_results_gathered self env) as Hall.
  unfold run_results, collect in Hall. rewrite E in Hall.
  assert (Hc : Forall (fun kv => constructed (snd kv)) (f_results st)).
  { eapply Forall_impl; [|exact Hall]. intros kv (_ & _ & _ & Hc & _). exact Hc. }
  assert (Hnon : f_results st <> []).
  { destruct (neighbs self) as [|n l]; [congruence|].
    intros Z0. apply (Hget n (or_introl (or_introl eq_refl))).
    now rewrite Z0. }
  destruct (f_now st) as [now|] eqn:Hst; [|exfalso; apply Hnow; auto].
  exists {| location := location self; neighbs := f_neighbs st;
            data := dict_set now (f_results st) (data self) |}, (f_env st), (f_results st).
  split; [unfold get_prices, collect; now rewrite E, Hst|].
  split; [exact F|]. split; [exact Hout|].
  split; [apply (to_df_single_date _ now); [cbn [data]; now rewrite Hdata | exact Hnon | exact Hc]|].
  split; [exact Hnon|]. split; [exact Hc|].
  intros n Hin. specialize (Hget n (or_introl Hin)).
  destruct (dict_get n (f_results st)) as [s|] eqn:G; [|congruence].
  exists s. split; [reflexivity|].
  apply dict_get_in in G. rewrite Forall_forall in Hall.
  destruct (Hall _ G) as (_ & _ & Hname & _). exact Hname.
Qed.

(** X21: when the site serves every request with a page that parses,
    [main] ends normally: it asks for the eight pages in the order of its
    lists, prints two lines, and saves under [price_data.pkl] a table that
    holds the rows of the snapshots of gdynia, then sopot, then gdansk,
    labelled 0, 1, 2, ... without a gap; every neighbourhood has its
    snapshot among them. *)
Theorem main_site_serves (env : Env World) (files : disk) :
  site_serves ->
  exists env' table g1 g2 g3,
    main env files = Some (Ok tt, env', dict_set "price_data.pkl" table files)
    /\ fetched env'
       = fetched env
         ++ [("gdynia", "portova"); ("gdynia", "silva"); ("gdynia", "nowe-orlowo");
             ("gdynia", "nowe-kolibki"); ("sopot", "okrzei"); ("gdansk", "botanica");
             ("gdansk", "nadmorski-dwor"); ("gdansk", "gdanska")]
    /\ stdout env' = stdout env ++ ["Collected the data!"; repr_frame table]
    /\ map row_data table
       = map row_data
           (List.concat (map (fun kv => rows_of (snd kv)) (g1 ++ g2 ++ g3)))
    /\ map row_index table = seq 0 (List.length table)
    /\ List.length table = total_entries (g1 ++ g2 ++ g3)
    /\ (forall n, In n ["portova"; "silva"; "nowe-orlowo"; "nowe-kolibki"] ->
          exists s, dict_get n g1 = Some s /\ name s = n)
    /\ (forall n, In n ["okrzei"] -> exists s, dict_get n g2 = Some s /\ name s = n)
    /\ (forall n, In n ["botanica"; "nadmorski-dwor"; "gdanska"] ->
          exists s, dict_get n g3 = Some s /\ name s = n).
Proof.
  intros Hsite.
  destruct main_lists_ok as ((_ & NE1) & (_ & NE2) & (_ & NE3)).
  destruct (served_table
              (CityPrices_init "gdynia" ["portova"; "silva"; "nowe-orlowo"; "nowe-kolibki"])
              env Hsite NE1 ltac:(discriminate) eq_refl)
    as (c1 & env1 & g1 & E1 & F1 & O1 & T1 & _ & C1 & G1).
  destruct (served_table (CityPrices_init "sopot" ["okrzei"])
              env1 Hsite NE2 ltac:(discriminate) eq_refl)
    as (c2 & env2 & g2 & E2 & F2 & O2 & T2 & _ & C2 & G2).
  destruct (served_table
              (CityPrices_init "gdansk" ["botanica"; "nadmorski-dwor"; "gdanska"])
              env2 Hsite NE3 ltac:(discriminate) eq_refl)
    as (c3 & env3 & g3 & E3 & F3 & O3 & T3 & _ & C3 & G3).
  cbn [CityPrices_init neighbs location map] in *.
  set (t1 := List.concat (map (fun kv => rows_of (snd kv)) g1)) in *.
  set (t2 := List.concat (map (fun kv => rows_of (snd kv)) g2)) in *.
  set (t3 := List.concat (map (fun kv => rows_of (snd kv)) g3)) in *.
  set (table := drop_index_column (reset_index (t1 ++ t2 ++ t3 ++ []))).
  assert (A : aggregate [Some t1; Some t2; Some t3] = Ok table) by reflexivity.
  destruct (relabel_from (t1 ++ t2 ++ t3 ++ []) 0) as (Hidx & Hrows & Hlen).
  fold (reset_index (t1 ++ t2 ++ t3 ++ [])) in Hidx, Hrows, Hlen.
  fold table in Hidx, Hrows, Hlen. rewrite <- Hlen in Hidx.
  exists (print (repr_frame table) (print "Collected the data!" env3)), table, g1, g2, g3.
  split.
  { unfold main. cbn [CityPrices_init]. rewrite E1, E2, E3, T1, T2, T3.
    cbn [bind].
    match goal with
    | |- match ?a with _ => _ end = _ =>
        replace a with (Ok table : result DataFrame) by (symmetry; exact A)
    end.
    reflexivity. }
  cbn [print fetched stdout].
  split; [rewrite F3, F2, F1, <- !app_assoc; reflexivity|].
  split; [rewrite O3, O2, O1, <- app_assoc; reflexivity|].
  assert (Hcat : t1 ++ t2 ++ t3 ++ []
                 = List.concat (map (fun kv => rows_of (snd kv)) (g1 ++ g2 ++ g3))).
  { rewrite app_nil_r, !map_app, !concat_app. reflexivity. }
  split; [now rewrite Hrows, Hcat|]. split; [exact Hidx|].
  split.
  { rewrite <- (length_map row_data), Hrows, Hcat, length_map.
    apply concat_rows_length. rewrite !Forall_app. auto. }
  auto.
Qed.

(** ** Two ways a run breaks off *)

(** Twice a price of [2 ^ 1024] or more, divided by 2, is beyond the
    largest double. *)
Lemma py_truediv_twice_overflows (m : Z) :
  (2 ^ 1024 <= m)%Z -> py_truediv (m + m) 2 = Raise OverflowError.
Proof.
  intros Hm.
  assert (Hpos : (0 < m)%Z) by (eapply Z.lt_le_trans; [|exact Hm]; reflexivity).
  replace (m + m)%Z with (2 * m)%Z by lia.
  unfold py_truediv. change (2 =? 0)%Z with false. cbv iota.
  rewrite Z.abs_eq by lia. change (Z.abs 2) with 2%Z.
  unfold round_div.
  replace (2 * m =? 0)%Z with false by (symmetry; apply Z.eqb_neq; lia).
  rewrite Z.log2_double by assumption. change (Z.log2 2) with 1%Z.
  set (L := Z.log2 m).
  assert (HL : (1024 <= L)%Z).
  { unfold L. apply Z.log2_le_pow2; [assumption|]. exact Hm. }
  destruct (Z.log2_spec m Hpos) as [Hlo Hhi]. fold L in Hlo, Hhi.
  replace (Z.succ L - 1 - 53)%Z with (L - 53)%Z by lia.
  cbv zeta.
  replace (0 <=? L - 53)%Z with true by (symmetry; apply Z.leb_le; lia).
  assert (P53 : (0 < 2 ^ (L - 53))%Z) by (apply Z.pow_pos_nonneg; lia).
  assert (P52 : (0 < 2 ^ (L - 52))%Z) by (apply Z.pow_pos_nonneg; lia).
  assert (Hq0 : (2 ^ 53 <= 2 * m / (2 * 2 ^ (L - 53)))%Z).
  { apply Z.div_le_lower_bound; [lia|].
    replace (2 * 2 ^ (L - 53) * 2 ^ 53)%Z with (2 * 2 ^ L)%Z; [lia|].
    replace L with (L - 53 + 53)%Z at 1 by lia.
    rewrite Z.pow_add_r by lia. lia. }
  apply Z.leb_le in Hq0. rewrite Hq0.
  rewrite Z.max_l by lia.
  replace (0 <=? L - 53 + 1)%Z with true by (symmetry; apply Z.leb_le; lia).
  replace (L - 53 + 1)%Z with (L - 52)%Z by lia.
  set (den := (2 * 2 ^ (L - 52))%Z).
  set (q := (2 * m / den)%Z).
  assert (Hq : (2 ^ 52 <= q)%Z).
  { unfold q, den. apply Z.div_le_lower_bound; [lia|].
    replace (2 * 2 ^ (L - 52) * 2 ^ 52)%Z with (2 * 2 ^ L)%Z; [lia|].
    replace L with (L - 52 + 52)%Z at 1 by lia.
    rewrite Z.pow_add_r by lia. lia. }
  assert (Hbig : forall q', (q <= q')%Z -> (2 ^ 1024 <=? q' * 2 ^ (L - 52))%Z = true).
  { intros q' Hq'. apply Z.leb_le.
    apply Z.le_trans with (2 ^ L)%Z; [apply Z.pow_le_mono_r; lia|].
    replace (2 ^ L)%Z with (2 ^ 52 * 2 ^ (L - 52))%Z
      by (rewrite <- Z.pow_add_r by lia; f_equal; lia).
    apply Z.mul_le_mono_nonneg_r; lia. }
  destruct (den <? 2 * ((2 * m) mod den))%Z.
  - now rewrite Hbig by lia.
  - destruct ((2 * ((2 * m) mod den) =? den)%Z && Z.odd q); now rewrite Hbig by lia.
Qed.

Lemma add_entries_app (items more : price_table) : forall s : NeighbourhoodPrices,
  add_entries s (items ++ more)
  = bind (add_entries s items) (fun s' => add_entries s' more).
Proof.
  induction items as [|item items IH]; intros s; simpl; [reflexivity|].
  destruct (add_entry s item); simpl; [apply IH | reflexivity].
Qed.

Lemma add_entries_ok_any (items : price_table) : forall s s1 s' : NeighbourhoodPrices,
  add_entries s items = Ok s1 -> exists s1', add_entries s' items = Ok s1'.
Proof.
  induction items as [|item items IH]; intros s s1 s' E; simpl in *; [eauto|].
  apply bind_ok in E. destruct E as (s2 & E1 & E2).
  destruct (add_entry_spec _ _ _ E1) as (r & l & h & a & Hr & Hl & Hh & Ha & _).
  unfold add_entry at 1. destruct item as [k [v0 v1]]. cbn [fst snd] in *.
  rewrite Hl, Hh. cbn [bind]. rewrite Ha. cbn [bind]. rewrite Hr. cbn [bind].
  eapply IH. exact E2.
Qed.

(** X22: a mapping in which some minimum is [2 ^ 1024] or more, the
    entries before it being sound, cannot be made into a snapshot: the
    division for the average leaves the range of a float and the
    constructor raises [OverflowError]. *)
Theorem huge_price_overflows
  (d : pydate) (n : string) (before after : price_table)
  (key lo hi : pyval) (m top : Z) (s : NeighbourhoodPrices) :
  NeighbourhoodPrices_init d n (Some before) = Ok s ->
  py_int lo = Ok m -> py_int hi = Ok top ->
  (2 ^ 1024 <= m)%Z ->
  NeighbourhoodPrices_init d n (Some (before ++ (key, (lo, hi)) :: after))
  = Raise OverflowError.
Proof.
  intros Hs Hlo Hhi Hm. unfold NeighbourhoodPrices_init in *.
  rewrite add_entries_app.
  destruct (add_entries_ok_any before _ _
              {| date := d; name := n;
                 neighb_prices := before ++ (key, (lo, hi)) :: after;
                 rooms := []; min_prices := []; max_prices := [];
                 avg_prices := [] |} Hs) as [s' ->].
  cbn [bind add_entries]. unfold add_entry. cbn [fst snd].
  rewrite Hlo, Hhi. cbn [bind].
  now rewrite (py_truediv_twice_overflows m Hm).
Qed.

(** X23: when the page of the first identifier comes with status 200 and
    some content in which nothing carries the [pricing] class,
    [get_prices] raises [IndexError] there: the identifiers after it are
    never asked for, the list and the dated mapping stay as they were. *)
Theorem get_prices_breaks_off
  (self : CityPrices) (env : Env World) (first : string) (others : list string)
  (t : datetime) (w w' : World) (r : Response) :
  neighbs self = first :: others ->
  first <> "" ->
  datetime_now (world env) = (t, w) ->
  requests_get ("https://www.investkomfort.pl/mieszkania-" ++ location self ++ "/"
                ++ first ++ "/")%string w = (Ok r, w') ->
  status_code r = 200%Z ->
  content r <> "" ->
  find_all_class "pricing" (BeautifulSoup (content r)) = [] ->
  get_prices self env
  = Some (Raise IndexError, self,
          {| world := w'; stdout := stdout env;
             fetched := fetched env ++ [(location self, first)] |}).
Proof.
  intros Hl N Hclock Hreq Hstatus Hcontent Hnone.
  unfold get_prices, collect. rewrite for_neighbs_unfold. cbn [f_neighbs].
  rewrite Hl. cbn [nth_error].
  unfold visit, truthy. destruct (String.eqb_spec first "") as [|_]; [contradiction|].
  cbn [negb f_env]. rewrite Hclock.
  unfold get_page_content. cbn [world stdout fetched]. rewrite Hreq, Hstatus.
  change (200 =? 200)%Z with true. cbv iota. cbn [truthy_content]. unfold truthy.
  destruct (String.eqb_spec (content r) "") as [|_]; [contradiction|].
  cbn [negb].
  unfold retrieve_flat_prices. rewrite Hnone. cbn [index nth_error bind].
  cbn [f_neighbs f_env]. rewrite <- Hl. destruct self; reflexivity.
Qed.

(** ** The end of a call *)

Lemma for_neighbs_asks_bound (city : string) (fuel : nat) :
  forall (i : nat) (st st' : frame) (o : result unit),
  for_neighbs fuel city i st = Some (o, st') ->
  List.length (fetched (f_env st'))
  <= List.length (fetched (f_env st)) + (List.length (f_neighbs st) - i).
Proof.
  induction fuel as [|fuel IH]; intros i st st' o E; [discriminate|].
  rewrite for_neighbs_unfold in E.
  destruct (nth_error (f_neighbs st) i) as [neighb|] eqn:Hi.
  2:{ injection E as <- <-. lia. }
  assert (Hlt : i < List.length (f_neighbs st)) by (apply nth_error_Some; congruence).
  destruct (visit city neighb st) as [o1 st1] eqn:V.
  pose proof (visit_length _ _ _ _ _ V) as Hlen.
  apply visit_cases in V.
  assert (Hone : List.length (fetched (f_env st1))
                 <= S (List.length (fetched (f_env st)))).
  { destruct V as [(_ & _ & _ & -> & _) | (_ & -> & _)];
      [lia | rewrite length_app; simpl; lia]. }
  destruct o1 as [u|e].
  - apply IH in E.
    destruct V as [(_ & _ & _ & Henv & [(l' & R & Hl & _) | (_ & _ & Ho)])
                  | (_ & Hf & _)].
    + rewrite Henv in E. apply list_remove_length in R. rewrite Hl in E. lia.
    + discriminate Ho.
    + lia.
  - injection E as <- <-. lia.
Qed.

(** X11: a call of [get_prices] always comes to an end, whatever the site
    answers, and asks the site at most once per identifier of the list it
    started with. *)
Theorem get_prices_terminates (self : CityPrices) (env : Env World) :
  exists o self' env',
    get_prices self env = Some (o, self', env')
    /\ List.length (fetched env')
       <= List.length (fetched env) + List.length (neighbs self).
Proof.
  unfold get_prices, collect.
  destruct (for_neighbs_total (location self) (List.length (neighbs self)) 0
              {| f_neighbs := neighbs self; f_results := []; f_now := None;
                 f_env := env |}) as [[o st] E]; [simpl; lia|].
  rewrite E. apply for_neighbs_asks_bound in E. cbn [f_env f_neighbs] in E.
  rewrite Nat.sub_0_r in E.
  destruct o as [u|e]; [destruct (f_now st)|]; do 3 eexists; split;
    try reflexivity; exact E.
Qed.

End Engine.

(* ================================================================= *)
(** * The properties on the sample pages and the sample world *)

Ltac spaced :=
  split;
  [ repeat (constructor; [first [left; reflexivity | right; reflexivity] |]);
    constructor
  | apply Exists_cons_hd; reflexivity ].

Ltac shown := eexists; repeat split.

Lemma retrieve_flat_prices_missing_section_witness :
  find_all_class "pricing" (sample_soup "closed") = []
  /\ retrieve_flat_prices sample_soup (Some "closed") = Raise IndexError
  /\ raises (retrieve_flat_prices sample_soup (Some "closed")).
Proof.
  split; [reflexivity|].
  apply (retrieve_flat_prices_missing_section sample_soup "closed").
  reflexivity.
Defined.

Lemma range_cell_parsed_witness :
  (forall prices,
      parse_cell prices (cell "2 pok." "450 000 - 500 000")
      = Ok (dict_set (PStr "2") (PInt 450000, PInt 500000) prices))
  /\ exists lo hi,
       dict_get (PStr "2") two_cell_prices = Some (PInt lo, PInt hi)
       /\ lo = 450000%Z /\ hi = 500000%Z
       /\ ((lo <= hi)%Z <-> (450000 <= 500000)%Z).
Proof.
  pose proof (range_cell_parsed sample_soup "two cells"
                (Tag "div" (Some ["pricing"])
                   [Tag "table" None
                      [Tag "tr" None
                         [cell "2 pok." "450 000 - 500 000";
                          cell "3 pok." "600 000"]]])
                [] [] [cell "3 pok." "600 000"]
                (cell "2 pok." "450 000 - 500 000")
                "2 pok." "2" "450 000" "500 000") as T.
  destruct T as [T1 T2].
  - reflexivity.
  - reflexivity.
  - shown.
  - reflexivity.
  - spaced.
  - spaced.
  - repeat constructor. discriminate.
  - split; [exact T1|]. apply (T2 two_cell_prices). reflexivity.
Defined.

Lemma two_cell_table_witness :
  exists v,
    retrieve_flat_prices sample_soup (Some "two cells")
    = Ok (Some [(PStr "2", (PInt 450000, PInt 500000)); (PStr "3", (v, v))])
    /\ py_int v = Ok 600000%Z
    /\ forall d n, exists s,
         NeighbourhoodPrices_init d n
           (Some [(PStr "2", (PInt 450000, PInt 500000)); (PStr "3", (v, v))])
         = Ok s
         /\ rooms s = [2; 3]%Z
         /\ min_prices s = [450000; 600000]%Z
         /\ max_prices s = [500000; 600000]%Z.
Proof.
  apply (two_cell_table sample_soup "two cells"
           (Tag "div" (Some ["pricing"])
              [Tag "table" None
                 [Tag "tr" None
                    [cell "2 pok." "450 000 - 500 000";
                     cell "3 pok." "600 000"]]])
           []
           (cell "2 pok." "450 000 - 500 000") (cell "3 pok." "600 000")).
  - reflexivity.
  - reflexivity.
  - shown.
  - shown.
Defined.

(** C1 as stated fails on the two-cell page: nothing is filed under the
    integer 2. *)
Lemma two_cell_table_counterexample :
  ~ (exists d,
        retrieve_flat_prices sample_soup (Some "two cells") = Ok (Some d)
        /\ dict_get (PInt 2) d = Some (PInt 450000, PInt 500000)
        /\ dict_get (PInt 3) d = Some (PInt 600000, PInt 600000)).
Proof.
  intros (d & E & G2 & _).
  change (retrieve_flat_prices sample_soup (Some "two cells"))
    with (Ok (Some two_cell_prices)) in E.
  injection E as <-. discriminate G2.
Qed.

(** C2 as stated fails on a cell that gives the larger price first: the
    pair is (500000, 400000). *)
Lemma range_cell_counterexample :
  shows (cell "2 pok." "500 000 - 400 000") "2 pok." ("500 000" ++ " - " ++ "400 000")
  /\ retrieve_flat_prices sample_soup (Some "falling")
     = Ok (Some [(PStr "2", (PInt 500000, PInt 400000))])
  /\ ~ (500000 <= 400000)%Z.
Proof.
  split; [shown|]. split; [reflexivity|]. lia.
Qed.

Lemma average_from_min_alone_witness :
  exists s,
    NeighbourhoodPrices_init (DateStr "2024-05-01") "portova" (Some two_cell_prices)
    = Ok s
    /\ Forall2 (fun lo avg => py_truediv (lo + lo) 2 = Ok avg)
         (min_prices s) (avg_prices s)
    /\ List.length (avg_prices s) = 2
    /\ avg_prices s = [450000 # 1; 600000 # 1].
Proof.
  eexists. split; [reflexivity|].
  pose proof (average_from_min_alone (DateStr "2024-05-01") "portova"
                two_cell_prices _ eq_refl) as (T1 & T2 & T3).
  split; [exact T1|]. split; [exact T2|].
  symmetry.
  apply (T3 (DateStr "2024-05-02") "silva"
            [(PStr "2", (PInt 450000, PInt 999999));
             (PStr "3", (PStr "600000", PInt 1))]
            _ eq_refl).
  reflexivity.
Defined.

(** C4 as stated fails: from [None] the constructor gives no snapshot. *)
Lemma snapshot_of_none_counterexample :
  ~ (exists s,
        NeighbourhoodPrices_init (DateStr "2024-05-01") "silva" None = Ok s
        /\ rooms s = [] /\ min_prices s = [] /\ max_prices s = []
        /\ avg_prices s = []).
Proof. intros (s & E & _). discriminate E. Qed.

Lemma to_df_one_date_witness :
  CityPrices_to_df
    {| location := "gdynia"; neighbs := ["silva"];
       data := [("2024-05-01", [("silva", silva_on "2024-05-01")])] |}
  = Ok (Some (rows_of (silva_on "2024-05-01") ++ []))
  /\ List.length (rows_of (silva_on "2024-05-01") ++ []) = 1
  /\ CityPrices_to_df (CityPrices_init "gdynia" ["silva"]) = Ok None.
Proof.
  apply (to_df_one_date
           {| location := "gdynia"; neighbs := ["silva"];
              data := [("2024-05-01", [("silva", silva_on "2024-05-01")])] |}
           "2024-05-01" [("silva", silva_on "2024-05-01")]).
  - reflexivity.
  - discriminate.
  - repeat constructor.
    exists (DateStr "2024-05-01"), "silva", [(PStr "2", (PInt 450000, PInt 500000))].
    reflexivity.
Defined.

(** C6 as stated fails twice: with no date the result is [None], not a
    table; with two dates of one entry each the table has one row, that of
    the later date. *)
Lemma to_df_counterexample :
  CityPrices_to_df (CityPrices_init "gdynia" ["silva"]) = Ok None
  /\ ~ (exists df, CityPrices_to_df (CityPrices_init "gdynia" ["silva"]) = Ok (Some df))
  /\ CityPrices_to_df two_day_city = Ok (Some (rows_of (silva_on "2024-05-02")))
  /\ List.length (rows_of (silva_on "2024-05-02")) = 1
  /\ list_sum (map (fun kv => total_entries (snd kv)) (data two_day_city)) = 2.
Proof.
  split; [reflexivity|]. split; [intros (df & E); discriminate E|].
  repeat split.
Qed.

Lemma rerun_same_date_witness :
  exists self1 env1 self2 env2,
    get_prices sample_soup sample_strftime nat sample_clock site_up
      (CityPrices_init "gdynia" ["silva"]) quiet
    = Some (Ok tt, self1, env1)
    /\ get_prices sample_soup sample_strftime nat sample_clock site_up self1 env1
       = Some (Ok tt, self2, env2)
    /\ dict_count "2024-05-01" (data self2) = 1
    /\ dict_get "2024-05-01" (data self2)
       = Some (run_results sample_soup sample_strftime nat sample_clock site_up
                 self1 env1)
    /\ dict_keys (data self2) = dict_keys (data self1)
    /\ List.length (data self2) = List.length (data self1).
Proof.
  do 4 eexists.
  split; [vm_compute; reflexivity|].
  split; [vm_compute; reflexivity|].
  eapply (rerun_same_date sample_soup sample_strftime nat sample_clock site_up)
    with (self := CityPrices_init "gdynia" ["silva"]) (env := quiet).
  - constructor.
  - vm_compute; reflexivity.
  - vm_compute; reflexivity.
  - vm_compute; reflexivity.
  - vm_compute; reflexivity.
Defined.

Lemma get_prices_without_identifier_witness :
  (exists left,
      get_prices sample_soup sample_strftime nat sample_clock site_up
        (CityPrices_init "gdynia" [""; ""]) quiet
      = Some (Raise UnboundLocalError,
              {| location := "gdynia"; neighbs := left; data := [] |}, quiet))
  /\ (exists neighb extra,
         fetched {| world := 2; stdout := []; fetched := [("gdynia", "silva")] |}
         = fetched quiet ++ ("gdynia", neighb) :: extra
         /\ neighb <> "" /\ In neighb ["silva"]).
Proof.
  split.
  - apply (proj1 (get_prices_without_identifier sample_soup sample_strftime nat
                    sample_clock site_up (CityPrices_init "gdynia" [""; ""]) quiet)).
    repeat constructor.
  - pose proof (proj2 (get_prices_without_identifier sample_soup sample_strftime nat
                    sample_clock site_up (CityPrices_init "gdynia" ["silva"]) quiet))
      as T.
    eapply T; [vm_compute; reflexivity | reflexivity].
Defined.

(** The rendering of the two-entry snapshot, in full: the header and the
    row of room 2. *)
Example str_two_cell_snapshot :
  bind (NeighbourhoodPrices_init (DateTime may_day) "portova" (Some two_cell_prices))
    (NeighbourhoodPrices_str sample_strftime sample_repr)
  = Ok ("Pricing for portova at 2024-05-01:" ++ nl
        ++ "----------------------------------------" ++ nl
        ++ "Rooms" ++ tab ++ "Min" ++ tab ++ "Max" ++ tab ++ "Avg" ++ nl
        ++ "2" ++ tab ++ "450000" ++ tab ++ "500000" ++ tab ++ "450000.0")%string.
Proof. reflexivity. Qed.

(* ================================================================= *)
(** * The further properties on the sample pages and the sample world *)

Lemma site_down_refuses : site_refuses nat site_down.
Proof.
  intros url w. do 2 eexists. split; [reflexivity | discriminate].
Qed.

Lemma site_up_serves : site_serves sample_soup nat site_up.
Proof.
  intros url w. exists {| status_code := 200; content := "two cells" |}, (S w).
  exists two_cell_prices.
  split; [reflexivity|]. split; [reflexivity|]. split; [discriminate|].
  split; [reflexivity|]. intros d n. eexists. reflexivity.
Qed.

Lemma silva_constructed : constructed (silva_on "2024-05-01").
Proof.
  exists (DateStr "2024-05-01"), "silva", [(PStr "2", (PInt 450000, PInt 500000))].
  reflexivity.
Qed.

Lemma single_cell_parsed_witness :
  (forall prices,
      parse_cell prices (cell "3 pok." "600 000")
      = Ok (dict_set (PStr "3") (PStr "600000", PStr "600000") prices))
  /\ py_int (PStr "600000") = Ok 600000%Z
  /\ dict_get (PStr "3") two_cell_prices = Some (PStr "600000", PStr "600000").
Proof.
  destruct (single_cell_parsed sample_soup "two cells" (Tag "div" (Some ["pricing"])
                 [Tag "table" None
                    [Tag "tr" None
                       [cell "2 pok." "450 000 - 500 000"; cell "3 pok." "600 000"]]]) []
              [cell "2 pok." "450 000 - 500 000"] [] (cell "3 pok." "600 000")
              "3 pok." "3" "600 000") as (T1 & T2 & T3).
  - reflexivity.
  - reflexivity.
  - shown.
  - reflexivity.
  - spaced.
  - constructor.
  - split; [exact T1|]. split; [exact T2|]. apply T3. reflexivity.
Defined.

Lemma malformed_price_raises_witness :
  retrieve_flat_prices wider_soup (Some "malformed") = Raise AttributeError.
Proof.
  apply (malformed_price_raises wider_soup "malformed"
           (Tag "div" (Some ["pricing"])
              [cell "2 pok." "450 000 - 500 000"; cell "3 pok." "od 600 000"])
           [] [cell "2 pok." "450 000 - 500 000"] [] (cell "3 pok." "od 600 000")
           "3 pok." "3" "od 600 000" [(PStr "2", (PInt 450000, PInt 500000))]).
  - reflexivity.
  - reflexivity.
  - reflexivity.
  - shown.
  - reflexivity.
  - reflexivity.
Defined.

Lemma parsed_keys_witness :
  NoDup (dict_keys two_cell_prices)
  /\ Forall (fun k => exists room,
                 k = PStr room /\ digits_only room
                 /\ py_int k = Ok (number room) /\ (0 <= number room)%Z)
       (dict_keys two_cell_prices)
  /\ List.length two_cell_prices <= List.length (find_all "td" "" (Tag "div" (Some ["pricing"])
                 [Tag "table" None
                    [Tag "tr" None
                       [cell "2 pok." "450 000 - 500 000"; cell "3 pok." "600 000"]]])).
Proof.
  apply (parsed_keys sample_soup "two cells" (Tag "div" (Some ["pricing"])
                 [Tag "table" None
                    [Tag "tr" None
                       [cell "2 pok." "450 000 - 500 000"; cell "3 pok." "600 000"]]]) [] two_cell_prices);
    reflexivity.
Defined.

Lemma last_cell_wins_witness :
  exists v,
    parse_cell [] (cell "2 pokoje" "300") = Ok [(PStr "2", v)]
    /\ dict_get (PStr "2") [(PStr "2", (PStr "300", PStr "300"))] = Some v.
Proof.
  apply (last_cell_wins wider_soup "repeated"
           (Tag "div" (Some ["pricing"])
              [cell "2 pok." "100 - 200"; cell "2 pokoje" "300"])
           [] [cell "2 pok." "100 - 200"] [] (cell "2 pokoje" "300") "2").
  - reflexivity.
  - reflexivity.
  - reflexivity.
  - constructor.
  - reflexivity.
Defined.

Lemma constructor_shape_witness :
  exists s,
    NeighbourhoodPrices_init (DateStr "2024-05-01") "portova" (Some two_cell_prices)
    = Ok s
    /\ date s = DateStr "2024-05-01" /\ name s = "portova"
    /\ neighb_prices s = two_cell_prices
    /\ Forall2 (fun e r => py_int (fst e) = Ok r) two_cell_prices (rooms s)
    /\ Forall2 (fun e lo => py_int (fst (snd e)) = Ok lo) two_cell_prices (min_prices s)
    /\ Forall2 (fun e hi => py_int (snd (snd e)) = Ok hi) two_cell_prices (max_prices s)
    /\ List.length (avg_prices s) = 2.
Proof.
  eexists. split; [reflexivity|].
  exact (constructor_shape (DateStr "2024-05-01") "portova" two_cell_prices _ eq_refl).
Defined.

Lemma average_is_min_witness :
  exists s,
    NeighbourhoodPrices_init (DateStr "2024-05-01") "portova" (Some two_cell_prices)
    = Ok s
    /\ avg_prices s = map inject_Z (min_prices s)
    /\ avg_prices s = [450000 # 1; 600000 # 1].
Proof.
  eexists. split; [reflexivity|]. split; [|reflexivity].
  apply (average_is_min (DateStr "2024-05-01") "portova" two_cell_prices _ eq_refl).
  repeat constructor; cbv; discriminate.
Defined.

Lemma str_renders_all_but_last_witness :
  exists s h rows,
    NeighbourhoodPrices_init (DateTime may_day) "portova" (Some two_cell_prices) = Ok s
    /\ header sample_strftime s = Ok h
    /\ rows_text sample_repr s (seq 0 (entries s - 1)) = Ok rows
    /\ List.length rows = 1
    /\ NeighbourhoodPrices_str sample_strftime sample_repr s
       = Ok (h ++ fold_right String.append "" rows)%string.
Proof.
  eexists.
  destruct (str_renders_all_but_last sample_strftime sample_repr _ may_day
              (ex_intro _ (DateTime may_day)
                 (ex_intro _ "portova" (ex_intro _ two_cell_prices eq_refl)))
              eq_refl) as (h & rows & T).
  exists h, rows. split; [reflexivity | exact T].
Defined.

Lemma snapshot_to_df_witness :
  exists df,
    NeighbourhoodPrices_to_df (silva_on "2024-05-01") = Ok df
    /\ List.length df = 1
    /\ map row_index df = [0]
    /\ Forall (fun r => row_neighbourhood r = "silva"
                        /\ row_date r = DateStr "2024-05-01") df
    /\ map row_rooms df = [2%Z] /\ map row_min df = [450000%Z]
    /\ map row_max df = [500000%Z] /\ map row_avg df = [450000 # 1].
Proof.
  exact (snapshot_to_df (silva_on "2024-05-01") silva_constructed).
Defined.

Lemma get_prices_footprint_witness :
  exists self' env',
    get_prices sample_soup sample_strftime nat sample_clock site_down
      (CityPrices_init "gdynia" ["silva"; ""]) quiet
    = Some (Ok tt, self', env')
    /\ location self' = "gdynia"
    /\ incl (neighbs self') ["silva"; ""]
    /\ List.length (neighbs self') <= 2
    /\ (exists asked,
          fetched env' = fetched quiet ++ asked
          /\ Forall (fun p => fst p = "gdynia" /\ snd p <> ""
                              /\ In (snd p) ["silva"; ""]) asked).
Proof.
  do 2 eexists. split; [vm_compute; reflexivity|].
  destruct (get_prices_footprint sample_soup sample_strftime nat sample_clock site_down
              (CityPrices_init "gdynia" ["silva"; ""]) _ quiet _ (Ok tt)
              ltac:(vm_compute; reflexivity)) as (T1 & T2 & T3 & T4 & _).
  split; [exact T1|]. split; [exact T2|]. split; [exact T3|]. exact T4.
Defined.

Lemma get_prices_site_refuses_witness :
  exists self' env' now,
    get_prices sample_soup sample_strftime nat sample_clock site_down
      (CityPrices_init "gdynia" ["portova"; "silva"; "nowe-orlowo"]) quiet
    = Some (Ok tt, self', env')
    /\ neighbs self' = ["silva"]
    /\ fetched env' = [("gdynia", "portova"); ("gdynia", "nowe-orlowo")]
    /\ data self' = [(now, [])].
Proof.
  destruct (get_prices_site_refuses sample_soup sample_strftime nat sample_clock
              site_down (CityPrices_init "gdynia" ["portova"; "silva"; "nowe-orlowo"])
              quiet site_down_refuses)
    as (o & self' & env' & E & T1 & T2 & _ & T3 & _).
  - repeat (constructor; [simpl; intuition discriminate|]). constructor.
  - repeat (constructor; [discriminate|]). constructor.
  - destruct (T3 ltac:(discriminate)) as (-> & now & D).
    exists self', env', now. split; [exact E|]. split; [exact T1|].
    split; [exact T2 | exact D].
Defined.

Lemma get_prices_site_serves_witness :
  exists self' env' now,
    get_prices sample_soup sample_strftime nat sample_clock site_up
      (CityPrices_init "gdynia" ["portova"; "silva"]) quiet
    = Some (Ok tt, self', env')
    /\ neighbs self' = ["portova"; "silva"]
    /\ fetched env' = [("gdynia", "portova"); ("gdynia", "silva")]
    /\ stdout env' = []
    /\ data self'
       = [(now, run_results sample_soup sample_strftime nat sample_clock site_up
                  (CityPrices_init "gdynia" ["portova"; "silva"]) quiet)]
    /\ forall n, In n ["portova"; "silva"] ->
         exists s,
           dict_get n (run_results sample_soup sample_strftime nat sample_clock site_up
                         (CityPrices_init "gdynia" ["portova"; "silva"]) quiet)
           = Some s
           /\ name s = n /\ constructed s.
Proof.
  apply (get_prices_site_serves sample_soup sample_strftime nat sample_clock site_up
           (CityPrices_init "gdynia" ["portova"; "silva"]) quiet site_up_serves).
  - repeat (constructor; [discriminate|]). constructor.
  - discriminate.
Defined.

Lemma to_df_last_date_witness :
  CityPrices_to_df two_day_city = Ok (Some (rows_of (silva_on "2024-05-02") ++ [])).
Proof.
  apply (proj1 (to_df_last_date two_day_city
                  [("2024-05-01", [("silva", silva_on "2024-05-01")])]
                  "2024-05-02" [("silva", silva_on "2024-05-02")] eq_refl
                  ltac:(repeat constructor;
                        eexists (DateStr _), "silva",
                          [(PStr "2", (PInt 450000, PInt 500000))];
                        reflexivity))).
  discriminate.
Defined.

Lemma to_df_after_refused_run_witness :
  exists self' env',
    get_prices sample_soup sample_strftime nat sample_clock site_down
      (CityPrices_init "sopot" ["okrzei"]) quiet
    = Some (Ok tt, self', env')
    /\ CityPrices_to_df self' = Raise ValueError.
Proof.
  apply (to_df_after_refused_run sample_soup sample_strftime nat sample_clock site_down
           "sopot" ["okrzei"] quiet site_down_refuses).
  - repeat constructor. simpl. tauto.
  - repeat constructor. discriminate.
  - discriminate.
Defined.

Lemma to_df_after_first_run_witness :
  exists self' env' df,
    get_prices sample_soup sample_strftime nat sample_clock site_up
      (CityPrices_init "sopot" ["okrzei"]) quiet
    = Some (Ok tt, self', env')
    /\ CityPrices_to_df self' = Ok (Some df)
    /\ List.length df = 2.
Proof.
  do 2 eexists.
  destruct (to_df_after_first_run sample_soup sample_strftime nat sample_clock site_up
              "sopot" ["okrzei"] quiet _ _ ltac:(vm_compute; reflexivity))
    as (df & T1 & T2).
  - vm_compute. discriminate.
  - exists df. split; [vm_compute; reflexivity|]. split; [exact T1 | exact T2].
Defined.

Lemma update_prices_lookup_witness :
  dict_get "2024-05-02"
    (data (update_prices two_day_city "2024-05-02" [("silva", silva_on "2024-05-03")]))
  = Some [("silva", silva_on "2024-05-03")]
  /\ dict_count "2024-05-02"
       (data (update_prices two_day_city "2024-05-02" [("silva", silva_on "2024-05-03")]))
     = 1.
Proof.
  destruct (update_prices_lookup two_day_city "2024-05-02"
              [("silva", silva_on "2024-05-03")] []) as (T1 & T2 & _).
  - repeat (constructor; [simpl; intuition discriminate|]). constructor.
  - split; [exact T1 | exact T2].
Defined.

Lemma aggregate_rows_witness :
  (exists df,
      aggregate [Some (rows_of (silva_on "2024-05-01")); None;
                 Some (rows_of (silva_on "2024-05-02"))] = Ok df
      /\ map row_index df = [0; 1]
      /\ List.length df = 2)
  /\ aggregate [None; None] = Raise ValueError.
Proof.
  split.
  - destruct (proj1 (aggregate_rows
                       [Some (rows_of (silva_on "2024-05-01")); None;
                        Some (rows_of (silva_on "2024-05-02"))]))
      as (df & T1 & _ & T3 & T4).
    + discriminate.
    + exists df. split; [exact T1|]. split; [|exact T4].
      rewrite T3, T4. reflexivity.
  - apply (proj2 (aggregate_rows [None; None])). reflexivity.
Defined.

Lemma main_site_refuses_witness :
  exists env',
    main sample_soup sample_strftime nat sample_clock site_down sample_repr_frame
      quiet []
    = Some (Raise ValueError, env', [])
    /\ fetched env'
       = [("gdynia", "portova"); ("gdynia", "nowe-orlowo"); ("sopot", "okrzei");
          ("gdansk", "botanica"); ("gdansk", "gdanska")].
Proof.
  exact (main_site_refuses sample_soup sample_strftime nat sample_clock site_down
           sample_repr_frame quiet [] site_down_refuses).
Defined.

Lemma main_site_serves_witness :
  exists env' table,
    main sample_soup sample_strftime nat sample_clock site_up sample_repr_frame
      quiet []
    = Some (Ok tt, env', [("price_data.pkl", table)])
    /\ List.length (fetched env') = 8
    /\ stdout env' = ["Collected the data!"; "16 rows"]
    /\ map row_index table = seq 0 16.
Proof.
  destruct (main_site_serves sample_soup sample_strftime nat sample_clock site_up
              sample_repr_frame quiet [] site_up_serves)
    as (env' & table & g1 & g2 & g3 & E & F & O & _ & I & _).
  exists env', table.
  assert (E' := E). vm_compute in E'. injection E' as He Ht.
  split; [exact E|]. split; [rewrite F; reflexivity|].
  split; [rewrite O, <- Ht; reflexivity|].
  rewrite I, <- Ht. reflexivity.
Defined.

Lemma huge_price_overflows_witness :
  NeighbourhoodPrices_init (DateStr "2024-05-01") "silva"
    (Some [(PStr "2", (PInt (2 ^ 1024), PInt (2 ^ 1024)))])
  = Raise OverflowError.
Proof.
  apply (huge_price_overflows (DateStr "2024-05-01") "silva" [] []
           (PStr "2") (PInt (2 ^ 1024)) (PInt (2 ^ 1024)) (2 ^ 1024) (2 ^ 1024)
           _ eq_refl eq_refl eq_refl).
  apply Z.le_refl.
Defined.

Lemma get_prices_breaks_off_witness :
  get_prices sample_soup sample_strftime nat sample_clock site_closed
    (CityPrices_init "gdynia" ["portova"; "silva"]) quiet
  = Some (Raise IndexError, CityPrices_init "gdynia" ["portova"; "silva"],
          {| world := 2; stdout := []; fetched := [("gdynia", "portova")] |}).
Proof.
  apply (get_prices_breaks_off sample_soup sample_strftime nat sample_clock site_closed
           (CityPrices_init "gdynia" ["portova"; "silva"]) quiet "portova" ["silva"]
           may_day 1 2 {| status_code := 200; content := "closed" |}).
  - reflexivity.
  - discriminate.
  - reflexivity.
  - reflexivity.
  - reflexivity.
  - discriminate.
  - reflexivity.
Defined.
